(** * s-rag: the index managers, the mapping layer and the lease lock

    A shallow embedding of the Python sources under [utils/]:
    - [utils/indexes/bm25_index_manager.py]    (module [BM25])
    - [utils/indexes/voyager_index_manager.py] (module [Voyager])
    - [utils/blobs/blob_container_manager.py]  (module [Lease])
    - [utils/mapping/chunk_index_mapping.py]   (module [ChunkIndexMapping])
    - [utils/mapping/chunk_blob_mapping.py]    (module [ChunkBlobMapping])
    - [utils/mapping/chunk_mapping_manager.py] (module [ChunkMappingManager])

    Python objects become records, attribute mutation becomes explicit state
    passing, and an exception becomes the [Raise] outcome of [result].  A
    method that can mutate its object before it raises returns the state
    together with the outcome.

    The libraries the sources import (rank_bm25, the tokenizer, voyager, the
    storage service) are not part of the sources.  The lexical manager is
    stated over any tokenizer and any ranking library; [RankBM25] transcribes
    the ranking library it is deployed with, over the reals, for the
    statements that depend on the scores.

    The definitions come first; the facts about them start at [DictFacts]. *)

From Stdlib Require Import Reals Lra ZArith Lia Ascii.
From stdpp Require Import base list gmap sets strings pretty sorting.

Set Default Proof Using "Type".
#[local] Set Warnings "-clear-no-such-hyp".


(** ** Outcomes of a Python call *)

Inductive exn : Set :=
  | ValueError
  | TypeError
  | ZeroDivisionError
  | IndexError
  | AttributeError
  | AzureError
  | ResourceNotFoundError.

Inductive result (A : Type) : Type :=
  | Ok (a : A)
  | Raise (e : exn).
Arguments Ok {A} a.
Arguments Raise {A} e.

Definition is_ok {A} (r : result A) : bool :=
  match r with Ok _ => true | Raise _ => false end.

(** [enumerate(l)] *)
Definition enumerate {A} (l : list A) : list (nat * A) := imap (λ i x, (i, x)) l.

(** [l[:k]]: a negative bound counts from the end of the list. *)
Definition slice_to {A} (k : Z) (l : list A) : list A :=
  if (0 <=? k)%Z then take (Z.to_nat k) l
  else take (length l - Z.to_nat (- k)) l.

(** ** Python dictionaries with string keys

    A [dict] keeps its keys in insertion order; assigning to a key that is
    present replaces the value where the key stands. *)

Abbreviation dict V := (list (string * V)) (only parsing).

(** [d.get(k)] *)
Fixpoint dict_get {V} (d : dict V) (w : string) : option V :=
  match d with
  | [] => None
  | (k, v) :: d' => if decide (k = w) then Some v else dict_get d' w
  end.

(** [d[k] = v] *)
Fixpoint dict_set {V} (d : dict V) (k : string) (v : V) : dict V :=
  match d with
  | [] => [(k, v)]
  | (k', v') :: d' => if decide (k' = k) then (k', v) :: d' else (k', v') :: dict_set d' k v
  end.

(** [del d[k]] *)
Definition dict_del {V} (d : dict V) (k : string) : dict V :=
  filter (λ p, p.1 ≠ k) d.

(** ** The lexical index manager *)

Module BM25.

(** [sorted(pairs, key=lambda x: x[1], reverse=True)]: a stable sort, larger
    scores first; pairs with equal scores keep the order they came in.
    [insert_desc x l] places [x], which came before every element of [l],
    in front of the first element whose score is not larger than its own. *)
Fixpoint insert_desc (x : nat * R) (l : list (nat * R)) : list (nat * R) :=
  match l with
  | [] => [x]
  | y :: l' =>
      if Rlt_dec (snd x) (snd y) then y :: insert_desc x l' else x :: y :: l'
  end.

Fixpoint sorted_desc (l : list (nat * R)) : list (nat * R) :=
  match l with
  | [] => []
  | x :: l' => insert_desc x (sorted_desc l')
  end.

(** The order in which two hits (an id with its score) may follow each
    other: the larger score first, and for equal scores the smaller id. *)
Definition ranked_before (p q : nat * R) : Prop :=
  (q.2 < p.2)%R ∨ (p.2 = q.2 ∧ p.1 < q.1).

(** [documents: Union[str, List[str]]] and [ids: Union[int, List[int]]] *)
Inductive str_or_list := Str (s : string) | Strs (l : list string).
Inductive int_or_list := Int (i : nat) | Ints (l : list nat).

Definition as_docs (d : str_or_list) : list string :=
  match d with Str s => [s] | Strs l => l end.
Definition as_ids (i : int_or_list) : list nat :=
  match i with Int i => [i] | Ints l => l end.

Section Manager.

(** The two libraries the manager is written against: Janome's tokenizer
    ([self.__tokenizer.tokenize], surfaces only) and rank_bm25's [BM25Okapi]
    (its constructor, which may raise, and [get_scores]). *)
Variable tokenize : string → list string.
Variable Index : Type.
Variable BM25Okapi : list (list string) → R → R → result Index.
Variable get_scores : Index → list string → list R.

(** The attributes of a [BM25IndexManager].  [active_indices] is [None]
    until [__update_index] assigns it for the first time (the constructor
    does not). *)
Record manager := Manager {
  index : option Index;
  docs : list string;
  deleted_flags : gset nat;
  active_indices : option (list nat);
  param_k1 : R;
  param_b : R
}.

Definition set_docs (d : list string) (m : manager) : manager :=
  Manager (index m) d (deleted_flags m) (active_indices m) (param_k1 m) (param_b m).
Definition set_deleted_flags (D : gset nat) (m : manager) : manager :=
  Manager (index m) (docs m) D (active_indices m) (param_k1 m) (param_b m).

(** [[doc for i, doc in enumerate(self.__docs) if i not in self.__deleted_flags]] *)
Definition active_docs (m : manager) : list string :=
  (filter (λ p, p.1 ∉ deleted_flags m) (enumerate (docs m))).*2.

(** [[i for i in range(len(self.__docs)) if i not in self.__deleted_flags]] *)
Definition active_positions (m : manager) : list nat :=
  filter (λ i, i ∉ deleted_flags m) (seq 0 (length (docs m))).

(** [__update_index]: when [BM25Okapi] raises, neither attribute is assigned. *)
Definition update_index (m : manager) : manager * result () :=
  let tokenized_corpus := tokenize <$> active_docs m in
  match BM25Okapi tokenized_corpus (param_k1 m) (param_b m) with
  | Raise e => (m, Raise e)
  | Ok idx =>
      (Manager (Some idx) (docs m) (deleted_flags m) (Some (active_positions m))
               (param_k1 m) (param_b m), Ok ())
  end.

(** [self.__index is None or len(self.__active_indices) == 0] *)
Definition index_is_empty (m : manager) : result bool :=
  match index m with
  | None => Ok true
  | Some _ =>
      match active_indices m with
      | None => Raise AttributeError
      | Some act => Ok (bool_decide (length act = 0))
      end
  end.

Definition add (documents : str_or_list) (m : manager) : manager * result (list nat) :=
  let documents := as_docs documents in
  let start_id := length (docs m) in
  let m1 := set_docs (docs m ++ documents) m in
  let new_ids := seq start_id (length (docs m1) - start_id) in
  match index_is_empty m1 with
  | Raise e => (m1, Raise e)
  | Ok empty =>
      let m2 := if empty then set_deleted_flags ∅ m1 else m1 in
      match update_index m2 with
      | (m3, Raise e) => (m3, Raise e)
      | (m3, Ok _) => (m3, Ok new_ids)
      end
  end.

(** The loop [for id in ids: if 0 <= id < len(self.__docs): flags.add(id)] *)
Definition mark_deleted (n : nat) (D : gset nat) (ids : list nat) : gset nat :=
  foldl (λ D id, if decide (id < n) then D ∪ {[id]} else D) D ids.

Definition remove (ids : int_or_list) (m : manager) : manager * result () :=
  match index m with
  | None => (m, Raise ValueError)
  | Some _ =>
      update_index
        (set_deleted_flags (mark_deleted (length (docs m)) (deleted_flags m) (as_ids ids)) m)
  end.

(** The loop [for id in ids: if id in flags: flags.remove(id)] *)
Definition unmark (D : gset nat) (ids : list nat) : gset nat :=
  foldl (λ D id, D ∖ {[id]}) D ids.

Definition unmark_deleted (ids : int_or_list) (m : manager) : manager * result () :=
  match index m with
  | None => (m, Raise ValueError)
  | Some _ => update_index (set_deleted_flags (unmark (deleted_flags m) (as_ids ids)) m)
  end.

Definition search (query : string) (k : Z) (m : manager) : result (list nat * list R) :=
  match index_is_empty m with
  | Raise e => Raise e
  | Ok true => Ok ([], [])
  | Ok false =>
      match index m, active_indices m with
      | Some idx, Some act =>
          let tokenized_query := tokenize query in
          let doc_scores := get_scores idx tokenized_query in
          let top_n := slice_to k (sorted_desc (enumerate doc_scores)) in
          match mapM (λ p, act !! p.1) top_n with
          | None => Raise IndexError
          | Some ids => Ok (ids, top_n.*2)
          end
      | _, _ => Raise AttributeError
      end
  end.

(** What [export] pickles; [pickle.dumps] followed by [pickle.loads] gives
    the same five values back, so the bytes are modelled by the values. *)
Record pickled := Pickled {
  p_index : Index;
  p_docs : list string;
  p_deleted_flags : gset nat;
  p_k1 : R;
  p_b : R
}.

Definition export (m : manager) : result pickled :=
  match index m with
  | None => Raise ValueError
  | Some idx => Ok (Pickled idx (docs m) (deleted_flags m) (param_k1 m) (param_b m))
  end.

(** [__init__].  A [BM25Okapi] object is truthy, so [if index:] is the test
    [index is not None]; the second rebuild is guarded by the [docs]
    argument, not by the attribute. *)
Definition init (idx : option Index) (d : option (list string))
    (D : option (gset nat)) (k1 b : R) : result manager :=
  let start :=
    match idx, d, D with
    | Some i, Some d, Some D => update_index (Manager (Some i) d D None k1 b)
    | Some _, _, _ => (Manager None [] ∅ None k1 b, Raise ValueError)
    | None, _, _ => (Manager None [] ∅ None k1 b, Ok ())
    end in
  match start with
  | (_, Raise e) => Raise e
  | (m, Ok _) =>
      match d with
      | Some (_ :: _) =>
          match update_index m with
          | (_, Raise e) => Raise e
          | (m', Ok _) => Ok m'
          end
      | _ => Ok m
      end
  end.

Definition load_from_byte (data : pickled) : result manager :=
  init (Some (p_index data)) (Some (p_docs data)) (Some (p_deleted_flags data))
       (p_k1 data) (p_b data).

(** [BM25IndexManager()] *)
Definition fresh : manager := Manager None [] ∅ None 1.5 0.75.

(** A manager as a successful [__update_index] leaves it: the index is the
    one built from the documents that are not tombstoned, and the active
    list holds their positions. *)
Definition consistent (m : manager) : Prop :=
  ∃ idx, index m = Some idx
    ∧ active_indices m = Some (active_positions m)
    ∧ BM25Okapi (tokenize <$> active_docs m) (param_k1 m) (param_b m) = Ok idx.

(** The one fact about the ranking library the manager relies on:
    [get_scores] returns one score for every document of the corpus. *)
Definition scores_every_document : Prop :=
  ∀ corpus k1 b idx query,
    BM25Okapi corpus k1 b = Ok idx → length (get_scores idx query) = length corpus.

End Manager.

Arguments Manager {Index}.
Arguments index {Index}.
Arguments docs {Index}.
Arguments deleted_flags {Index}.
Arguments active_indices {Index}.
Arguments param_k1 {Index}.
Arguments param_b {Index}.
Arguments set_docs {Index}.
Arguments set_deleted_flags {Index}.
Arguments active_docs {Index}.
Arguments active_positions {Index}.
Arguments update_index tokenize {Index}.
Arguments index_is_empty {Index}.
Arguments add tokenize {Index}.
Arguments remove tokenize {Index}.
Arguments unmark_deleted tokenize {Index}.
Arguments search tokenize {Index}.
Arguments Pickled {Index}.
Arguments p_index {Index}.
Arguments p_docs {Index}.
Arguments p_deleted_flags {Index}.
Arguments p_k1 {Index}.
Arguments p_b {Index}.
Arguments export {Index}.
Arguments init tokenize {Index}.
Arguments load_from_byte tokenize {Index}.
Arguments fresh {Index}.
Arguments consistent tokenize {Index}.
Arguments scores_every_document {Index}.

End BM25.

(** ** The ranking library the manager is deployed with

    rank_bm25 is a dependency of the repository, not part of it.  The manager
    above is stated for any ranking library; this module transcribes
    [rank_bm25.BM25Okapi] (version 0.2.2) so that the manager can be run on
    concrete corpora.  Floats are modelled by real numbers.  The two places
    where the library divides are kept: [_initialize] ends with
    [self.avgdl = num_doc / self.corpus_size] and [_calc_idf] computes
    [self.average_idf = idf_sum / len(self.idf)]; both raise
    [ZeroDivisionError] on a zero divisor. *)

Module RankBM25.

(** [d[w] = d.get(w, 0) + 1] *)
Fixpoint dict_bump (d : dict nat) (w : string) : dict nat :=
  match d with
  | [] => [(w, 1)]
  | (k, v) :: d' => if decide (k = w) then (k, S v) :: d' else (k, v) :: dict_bump d' w
  end.

Record t := BM25 {
  corpus_size : nat;
  avgdl : R;
  doc_freqs : list (dict nat);
  idf : dict R;
  doc_len : list nat;
  k1 : R;
  b : R;
  epsilon : R
}.

(** The inner loop of [_initialize]: the term frequencies of one document. *)
Definition frequencies (document : list string) : dict nat :=
  foldl dict_bump [] document.

(** [nd]: for each word, the number of documents that contain it. *)
Definition count_documents (nd freqs : dict nat) : dict nat :=
  foldl (λ nd p, dict_bump nd p.1) nd freqs.

Definition nd_of (corpus : list (list string)) : dict nat :=
  foldl (λ nd document, count_documents nd (frequencies document)) [] corpus.

Definition num_doc (corpus : list (list string)) : nat :=
  foldl (λ n document, n + length document) 0 corpus.

Definition raw_idf (n freq : nat) : R :=
  (ln (INR n - INR freq + 0.5) - ln (INR freq + 0.5))%R.

(** The second loop of [_calc_idf]: a word whose idf is negative gets
    [eps = epsilon * average_idf] instead. *)
Definition floor_idf (eps : R) (idf : dict R) : dict R :=
  (λ p, (p.1, if Rlt_dec p.2 0 then eps else p.2)) <$> idf.

Definition calc_idf (n : nat) (epsilon : R) (nd : dict nat) : result (dict R) :=
  let idf := (λ p, (p.1, raw_idf n p.2)) <$> nd in
  let idf_sum := foldl Rplus 0%R (idf.*2) in
  if decide (length idf = 0) then Raise ZeroDivisionError
  else
    let average_idf := (idf_sum / INR (length idf))%R in
    let eps := (epsilon * average_idf)%R in
    Ok (floor_idf eps idf).

Definition BM25Okapi (corpus : list (list string)) (k1 b : R) : result t :=
  let corpus_size := length corpus in
  if decide (corpus_size = 0) then Raise ZeroDivisionError
  else
    let avgdl := (INR (num_doc corpus) / INR corpus_size)%R in
    match calc_idf corpus_size 0.25 (nd_of corpus) with
    | Raise e => Raise e
    | Ok idf =>
        Ok (BM25 corpus_size avgdl (frequencies <$> corpus) idf (length <$> corpus)
                 k1 b 0.25)
    end.

(** One query word's contribution to one document's score. *)
Definition term_score (i : t) (q : string) (freqs : dict nat) (dl : nat) : R :=
  let q_freq := INR (default 0 (dict_get freqs q)) in
  (default 0 (dict_get (idf i) q)
   * (q_freq * (k1 i + 1) / (q_freq + k1 i * (1 - b i + b i * INR dl / avgdl i))))%R.

(** [get_scores]: the score vector starts at zero and every query word adds
    its contribution to every document. *)
Definition get_scores (i : t) (query : list string) : list R :=
  foldl (λ score q,
           zip_with Rplus score (zip_with (term_score i q) (doc_freqs i) (doc_len i)))
        (replicate (corpus_size i) 0%R) query.

End RankBM25.

(** ** The vector index manager *)

Module Voyager.

Inductive Space := Euclidean | InnerProduct | Cosine.

(** [__space_map.get(space_type)] *)
Definition space_map (space_type : string) : option Space :=
  if decide (space_type = "euclidean") then Some Euclidean
  else if decide (space_type = "innerproduct") then Some InnerProduct
  else if decide (space_type = "cosine") then Some Cosine
  else None.

(** What the constructor and [stats] read of a [voyager.Index]: its space,
    its dimension, and the number [len(index)] reports.  The class defines
    [__len__] ([stats] calls [len(self.__index)]) and no [__bool__], so the
    truth value of an index object is [len(index) != 0]. *)
Record Index := MkIndex {
  idx_space : Space;
  idx_num_dimensions : nat;
  idx_len : nat
}.

(** [Index(space, num_dimensions=ndims)]: a new index holds no vector. *)
Definition new_Index (sp : Space) (nd : nat) : Index := MkIndex sp nd 0.

Definition truthy (i : Index) : bool := negb (idx_len i =? 0).

(** The attributes of a [VoyagerIndexManager]; [ndims] is [None] while
    [self.__ndims] has not been assigned. *)
Record manager := Manager {
  space : Space;
  index : Index;
  ndims : option nat
}.

(** [__init__(index, ndims, space_type)] *)
Definition init (idx : option Index) (nd : nat) (space_type : string) : result manager :=
  match space_map space_type with
  | None => Raise ValueError
  | Some sp =>
      match idx with
      | Some i =>
          if truthy i then Ok (Manager sp i None)
          else Ok (Manager sp (new_Index sp nd) (Some nd))
      | None => Ok (Manager sp (new_Index sp nd) (Some nd))
      end
  end.

Section Library.

(** The library calls [Index.load], on a stream of bytes or on the path of
    a file, and [index.save]: each returns or raises as the library
    decides, and what it raises is logged and raised again. *)
Variable bytes : Type.
Variable Index_load : bytes → result Index.
Variable Index_load_file : string → result Index.
Variable Index_save : Index → result bytes.

(** [load_from_byte] and [load_from_file]: [cls(index=loaded_index)], with
    the defaults [ndims=3072] and [space_type='cosine']. *)
Definition load_from_byte (byte_data : bytes) : result manager :=
  match Index_load byte_data with
  | Raise e => Raise e
  | Ok loaded_index => init (Some loaded_index) 3072 "cosine"
  end.
Definition load_from_file (file_path : string) : result manager :=
  match Index_load_file file_path with
  | Raise e => Raise e
  | Ok loaded_index => init (Some loaded_index) 3072 "cosine"
  end.

(** [export]: the bytes [self.__index.save] writes. *)
Definition export (m : manager) : result bytes := Index_save (index m).

End Library.

Arguments load_from_byte {bytes}.
Arguments export {bytes}.

Record stats_t := Stats {
  num_vectors : nat;
  num_dimensions : nat;
  space_type : Space
}.

(** The [stats] property: reading an attribute that was never assigned
    raises [AttributeError]. *)
Definition stats (m : manager) : result stats_t :=
  match ndims m with
  | None => Raise AttributeError
  | Some nd => Ok (Stats (idx_len (index m)) nd (space m))
  end.

End Voyager.

(** ** The lease lock: [BlobLeaseManager] and [BlobContainerManager.acquire_lease] *)

Module Lease.

(** [properties.lease.state] *)
Inductive lease_state := Available | Leased | Expired | Breaking | Broken.

#[global] Instance lease_state_eq_dec : EqDecision lease_state.
Proof. solve_decision. Defined.

(** What the storage service answers.  Time is a logical clock that only
    [time.sleep] advances. *)
Record store := Store {
(** the outcome of [self.get_client(container_name, blob_name)] *)
get_client : result ();
(** [properties.lease.state] when the properties are read at time [t] *)
lease_state_at : nat → lease_state;
(** [client.acquire_lease(lease_duration)] at time [t]: a lease id, or an [AzureError] *)
client_acquire_lease : nat → Z → result string
}.

Inductive event :=
  | GetProperties (t : nat)
  | AcquireLease (t : nat)
  | Sleep (seconds : nat).

(** [BlobLeaseManager.acquire_lease(client, lease_duration)]: the duration
    is validated first; an [AzureError] of the client is logged and raised again. *)
Definition BlobLeaseManager_acquire_lease (s : store) (t : nat) (lease_duration : Z)
    : result string :=
  if negb (lease_duration =? -1)%Z
     && negb ((15 <=? lease_duration)%Z && (lease_duration <=? 60)%Z)
  then Raise ValueError
  else client_acquire_lease s t lease_duration.

(** A [BlobContainerManager]: the registry [self.__leases] (resource key to
    lease id), the clock, and what it did so far. *)
Record manager := Manager {
  leases : dict string;
  now : nat;
  trace : list event
}.

Definition record (e : event) (m : manager) : manager :=
  Manager (leases m) (now m) (trace m ++ [e]).
Definition sleep (seconds : nat) (m : manager) : manager :=
  Manager (leases m) (now m + seconds) (trace m ++ [Sleep seconds]).

(** The key of a resource: [container/blob] for a blob, the container's
    name otherwise.  [if blob_name:] in [get_client] and in [release_lease]
    takes an empty name like [None]: the client is the container's, and the
    key is the container's name. *)
Definition resource_key (container_name : string) (blob_name : option string) : string :=
  match blob_name with
  | Some blob =>
      if decide (blob = "") then container_name else container_name +:+ "/" +:+ blob
  | None => container_name
  end.

(** The loop [for attempt in range(max_retries)] of [acquire_lease], from
    the iteration with [remaining] iterations left, followed by the
    [raise AzureError] after the loop.  [BlobLeaseManager.acquire_lease]
    is called with its default duration of 20; the lease client it returns
    is an object, hence truthy. *)
Fixpoint attempts (s : store) (key : string) (max_retries retry_delay : nat)
    (remaining : nat) (m : manager) : manager * result string :=
  match remaining with
  | 0 => (m, Raise AzureError)
  | S remaining' =>
      let attempt := max_retries - remaining in
      let m := record (GetProperties (now m)) m in
      if decide (lease_state_at s (now m) = Leased) then
        let m := if decide (attempt < max_retries - 1) then sleep retry_delay m else m in
        attempts s key max_retries retry_delay remaining' m
      else
        let m := record (AcquireLease (now m)) m in
        match BlobLeaseManager_acquire_lease s (now m) 20 with
        | Raise e => (m, Raise e)
        | Ok lease_id =>
            (Manager (dict_set (leases m) key lease_id) (now m) (trace m), Ok lease_id)
        end
  end.

Definition acquire_lease (s : store) (container_name : string) (blob_name : option string)
    (max_retries retry_delay : nat) (m : manager) : manager * result string :=
  match get_client s with
  | Raise e => (m, Raise e)
  | Ok _ =>
      attempts s (resource_key container_name blob_name) max_retries retry_delay
               max_retries m
  end.

(** The defaults of the signature: [max_retries=12, retry_delay=5]. *)
Definition max_retries_default : nat := 12.
Definition retry_delay_default : nat := 5.

(** [release_lease]: a lease the registry holds is released and forgotten
    ([BlobLeaseManager.release] logs what the service raises); for a key the
    registry does not hold only a warning is logged. *)
Definition release_lease (container_name : string) (blob_name : option string)
    (m : manager) : manager :=
  Manager (dict_del (leases m) (resource_key container_name blob_name)) (now m) (trace m).

(** What a manager does while the resource stays leased: [polls] reads of
    the properties, with a sleep between consecutive reads. *)
Fixpoint blocked_trace (retry_delay polls t : nat) : list event :=
  match polls with
  | 0 => []
  | S n =>
      GetProperties t ::
      match n with
      | 0 => []
      | S _ => Sleep retry_delay :: blocked_trace retry_delay n (t + retry_delay)
      end
  end.

(** A store whose resource another actor keeps leased, and one on which
    nothing is leased. *)
Definition always_leased : store := Store (Ok ()) (λ _, Leased) (λ _ _, Raise AzureError).
Definition never_leased : store := Store (Ok ()) (λ _, Available) (λ _ _, Ok "lease-1").

End Lease.

(** ** The mapping layer *)

(** What [BlobManager.read] finds at the path of a mapping file: no blob
    ([ResourceNotFoundError]), a blob without content, content that is not
    JSON ([JSONDecodeError]), or a JSON document. *)
Inductive blob_read (A : Type) : Type :=
  | NotFound
  | EmptyBlob
  | Corrupt
  | Json (a : A).
Arguments NotFound {A}.
Arguments EmptyBlob {A}.
Arguments Corrupt {A}.
Arguments Json {A} a.

Module ChunkIndexMapping.

(** The JSON object of the file; [json_data.get] supplies a default for a
    key that is missing. *)
Record json := MkJson {
  json_id_counter : option Z;
  json_id_map : option (dict (dict nat))
}.

(** The attributes [__id_counter] and [__id_map]. *)
Record t := Mk {
  id_counter : Z;
  id_map : dict (dict nat)
}.

(** [__save_to_storage]: the upload replaces the file. *)
Definition save_to_storage (c : t) : blob_read json :=
  Json (MkJson (Some (id_counter c)) (Some (id_map c))).

(** [__load_from_storage] assigns both attributes on every path, so what it
    leaves depends on the file only. *)
Definition load_from_storage (file : blob_read json) : t * blob_read json :=
  match file with
  | Json j => (Mk (default 0%Z (json_id_counter j)) (default [] (json_id_map j)), file)
  | _ => (Mk 0 [], save_to_storage (Mk 0 []))
  end.

(** [__init__] *)
Definition init (file : blob_read json) : t * blob_read json := load_from_storage file.

Definition get_new_id (file : blob_read json) : string * (t * blob_read json) :=
  let '(c, _) := load_from_storage file in
  let new_id := pretty (id_counter c) in
  let c := Mk (id_counter c + 1) (id_map c) in
  (new_id, (c, save_to_storage c)).

Definition add_mapping (chunk_id : string) (index_ids : dict nat) (file : blob_read json)
    : t * blob_read json :=
  let '(c, _) := load_from_storage file in
  let c := Mk (id_counter c) (dict_set (id_map c) chunk_id index_ids) in
  (c, save_to_storage c).

Definition remove_mapping (chunk_id : string) (file : blob_read json) : t * blob_read json :=
  let '(c, file) := load_from_storage file in
  match dict_get (id_map c) chunk_id with
  | Some _ =>
      let c := Mk (id_counter c) (dict_del (id_map c) chunk_id) in
      (c, save_to_storage c)
  | None => (c, file)
  end.

(** The linear scan of [get_chunk_id]. *)
Definition get_chunk_id (index_name : string) (index_id : nat) (file : blob_read json)
    : option string * (t * blob_read json) :=
  let '(c, file) := load_from_storage file in
  (fst <$> head (filter (λ p, dict_get p.2 index_name = Some index_id) (id_map c)),
   (c, file)).

Definition get_index_ids (chunk_id : string) (file : blob_read json)
    : option (dict nat) * (t * blob_read json) :=
  let '(c, file) := load_from_storage file in
  (dict_get (id_map c) chunk_id, (c, file)).

(** The calls a process can make on the mapping, in any order; [Restart] is
    a new process constructing the object again. *)
Inductive call :=
  | GetNewId
  | AddMapping (chunk_id : string) (index_ids : dict nat)
  | RemoveMapping (chunk_id : string)
  | GetChunkId (index_name : string) (index_id : nat)
  | GetIndexIds (chunk_id : string)
  | Restart.

(** One call on the file: the id it issued, if it is [get_new_id], and the
    file it leaves. *)
Definition step (c : call) (file : blob_read json) : option string * blob_read json :=
  match c with
  | GetNewId => let '(new_id, (_, file)) := get_new_id file in (Some new_id, file)
  | AddMapping chunk_id index_ids => (None, (add_mapping chunk_id index_ids file).2)
  | RemoveMapping chunk_id => (None, (remove_mapping chunk_id file).2)
  | GetChunkId index_name index_id => (None, (get_chunk_id index_name index_id file).2.2)
  | GetIndexIds chunk_id => (None, (get_index_ids chunk_id file).2.2)
  | Restart => (None, (init file).2)
  end.

(** A sequence of calls: the ids issued, in the order of the calls. *)
Fixpoint run (calls : list call) (file : blob_read json) : list string * blob_read json :=
  match calls with
  | [] => ([], file)
  | c :: calls' =>
      let '(issued, file) := step c file in
      let '(ids, file) := run calls' file in
      (match issued with Some id => id :: ids | None => ids end, file)
  end.

(** The counter a load of the file yields. *)
Definition persisted_counter (file : blob_read json) : Z :=
  id_counter (load_from_storage file).1.

End ChunkIndexMapping.

Module ChunkBlobMapping.

Record blob_info := BlobInfo {
  container : string;
  blob : string
}.

(** The attributes [__mapping] and [__reverse_mapping]. *)
Record t := Mk {
  mapping : dict blob_info;
  reverse_mapping : dict (list string)
}.

(** [f"{container}:{blob}"] *)
Definition key (container_name blob_name : string) : string :=
  container_name +:+ ":" +:+ blob_name.

(** One iteration of the loop of [__update_reverse_mapping]. *)
Definition reverse_step (rev : dict (list string)) (entry : string * blob_info)
    : dict (list string) :=
  let k := key (container entry.2) (blob entry.2) in
  let rev := match dict_get rev k with None => dict_set rev k [] | Some _ => rev end in
  dict_set rev k (default [] (dict_get rev k) ++ [entry.1]).

Definition update_reverse_mapping (m : dict blob_info) : dict (list string) :=
  foldl reverse_step [] m.

Definition save_to_storage (c : t) : blob_read (dict blob_info) := Json (mapping c).

Definition load_from_storage (file : blob_read (dict blob_info))
    : t * blob_read (dict blob_info) :=
  match file with
  | Json j => (Mk j (update_reverse_mapping j), file)
  | EmptyBlob => (Mk [] [], file)
  | NotFound | Corrupt => (Mk [] [], save_to_storage (Mk [] []))
  end.

(** [__init__] *)
Definition init (file : blob_read (dict blob_info)) : t * blob_read (dict blob_info) :=
  load_from_storage file.

(** [add_mapping] and [remove_mapping] work on the attributes as they are:
    unlike [ChunkIndexMapping] they do not reload the file first. *)
Definition add_mapping (chunk_id blob_container blob_name : string) (c : t)
    : t * blob_read (dict blob_info) :=
  let m := dict_set (mapping c) chunk_id (BlobInfo blob_container blob_name) in
  let c := Mk m (update_reverse_mapping m) in
  (c, save_to_storage c).

Definition remove_mapping (chunk_id : string) (c : t) (file : blob_read (dict blob_info))
    : t * blob_read (dict blob_info) :=
  match dict_get (mapping c) chunk_id with
  | Some _ =>
      let m := dict_del (mapping c) chunk_id in
      let c := Mk m (update_reverse_mapping m) in
      (c, save_to_storage c)
  | None => (c, file)
  end.

Definition get_blob_info (chunk_id : string) (c : t) : option blob_info :=
  dict_get (mapping c) chunk_id.

Definition get_chunk_ids_by_blob (container_name blob_name : string) (c : t) : list string :=
  default [] (dict_get (reverse_mapping c) (key container_name blob_name)).

(** The grouping the reverse index stands for: the chunk ids of the forward
    map whose blob has the key [k], in the order of the forward map. *)
Definition grouped (m : dict blob_info) (k : string) : list string :=
  (filter (λ p, key (container p.2) (blob p.2) = k) m).*1.

(** A dictionary of lists holds a key exactly when its list is not empty. *)
Definition entry_of (l : list string) : option (list string) :=
  match l with [] => None | _ => Some l end.

Definition reverse_ok (c : t) : Prop :=
  ∀ k, dict_get (reverse_mapping c) k = entry_of (grouped (mapping c) k).

(** The calls on a mapping object; [Reload] is a new object constructed on
    the file as it is. *)
Inductive call :=
  | AddMapping (chunk_id blob_container blob_name : string)
  | RemoveMapping (chunk_id : string)
  | Reload.

Definition step (c : call) (s : t * blob_read (dict blob_info))
    : t * blob_read (dict blob_info) :=
  match c with
  | AddMapping chunk_id blob_container blob_name =>
      add_mapping chunk_id blob_container blob_name s.1
  | RemoveMapping chunk_id => remove_mapping chunk_id s.1 s.2
  | Reload => init s.2
  end.

(** An object constructed on [file] and the calls made on it. *)
Definition run (calls : list call) (file : blob_read (dict blob_info))
    : t * blob_read (dict blob_info) :=
  foldl (λ s c, step c s) (init file) calls.

End ChunkBlobMapping.

Module ChunkMappingManager.

Definition db_container : string := "db-container".
Definition chunk_index_mapping_file : string := "mapping/chunk_index_mapping.json".
Definition chunk_blob_mapping_file : string := "mapping/chunk_blob_mapping.json".

Inductive log_entry :=
  | ChunkAdded (chunk_id : string)
  | RemoveFailed (chunk_id index_name : string) (e : exn)
  | ChunkNotFound (chunk_id : string)
  | ChunkRemoved (chunk_id : string).

Section Manager.

(** The searchers ([KeywordSearch], [VectorSearch]) and the container
    manager are the manager's collaborators.  A searcher's [add] and
    [remove] return the searcher as the call left it, with the outcome;
    [release_lease] catches what it raises. *)
Variable Searcher : Type.
Variable searcher_add : Searcher → string → Searcher * result (list nat).
Variable searcher_remove : Searcher → nat → Searcher * result ().
Variable ContainerManager : Type.
Variable acquire_lease : ContainerManager → string → string → ContainerManager * result string.
Variable release_lease : ContainerManager → string → string → ContainerManager.

(** The manager with the two mapping files it persists to.  The uploads
    and reads of the mapping layer are taken to succeed. *)
Record world := World {
  searchers : dict Searcher;
  chunk_id_mapping_manager : ChunkIndexMapping.t;
  chunk_blob_mapping_manager : ChunkBlobMapping.t;
  index_file : blob_read ChunkIndexMapping.json;
  blob_file : blob_read (dict ChunkBlobMapping.blob_info);
  container_manager : ContainerManager;
  log : list log_entry
}.

Definition set_searchers (ss : dict Searcher) (w : world) : world :=
  World ss (chunk_id_mapping_manager w) (chunk_blob_mapping_manager w)
        (index_file w) (blob_file w) (container_manager w) (log w).
Definition set_index_mapping (c : ChunkIndexMapping.t * blob_read ChunkIndexMapping.json)
    (w : world) : world :=
  World (searchers w) c.1 (chunk_blob_mapping_manager w) c.2 (blob_file w)
        (container_manager w) (log w).
Definition set_blob_mapping
    (c : ChunkBlobMapping.t * blob_read (dict ChunkBlobMapping.blob_info))
    (w : world) : world :=
  World (searchers w) (chunk_id_mapping_manager w) c.1 (index_file w) c.2
        (container_manager w) (log w).
Definition set_container_manager (cm : ContainerManager) (w : world) : world :=
  World (searchers w) (chunk_id_mapping_manager w) (chunk_blob_mapping_manager w)
        (index_file w) (blob_file w) cm (log w).
Definition logged (entries : list log_entry) (w : world) : world :=
  World (searchers w) (chunk_id_mapping_manager w) (chunk_blob_mapping_manager w)
        (index_file w) (blob_file w) (container_manager w) (log w ++ entries).

(** [__init__]: both mapping objects load their file. *)
Definition init (ss : dict Searcher) (cm : ContainerManager)
    (ifile : blob_read ChunkIndexMapping.json)
    (bfile : blob_read (dict ChunkBlobMapping.blob_info)) : world :=
  let ci := ChunkIndexMapping.init ifile in
  let cb := ChunkBlobMapping.init bfile in
  World ss ci.1 cb.1 ci.2 cb.2 cm [].

(** [if lease_id: release_lease(...)] in the [finally] blocks. *)
Definition release_if (lease_id : option string) (file : string) (w : world) : world :=
  match lease_id with
  | Some id =>
      if decide (id = "") then w
      else set_container_manager (release_lease (container_manager w) db_container file) w
  | None => w
  end.

(** The frame both methods share: the two leases are taken before the
    body runs, and the [finally] block releases what was taken. *)
Definition with_leases {A} (body : world → world * result A) (w : world)
    : world * result A :=
  match acquire_lease (container_manager w) db_container chunk_index_mapping_file with
  | (cm, Raise e) => (set_container_manager cm w, Raise e)
  | (cm, Ok index_lease_id) =>
      let w := set_container_manager cm w in
      match acquire_lease (container_manager w) db_container chunk_blob_mapping_file with
      | (cm, Raise e) =>
          (release_if (Some index_lease_id) chunk_index_mapping_file
                      (set_container_manager cm w), Raise e)
      | (cm, Ok blob_lease_id) =>
          let '(w, r) := body (set_container_manager cm w) in
          (release_if (Some blob_lease_id) chunk_blob_mapping_file
             (release_if (Some index_lease_id) chunk_index_mapping_file w), r)
      end
  end.

(** The inner loop of [add]: [index_manager.add(text)[0]] for every
    searcher, collected in [index_ids]. *)
Fixpoint add_to_searchers (text : string) (ss : dict Searcher) (index_ids : dict nat)
    : dict Searcher * result (dict nat) :=
  match ss with
  | [] => ([], Ok index_ids)
  | (index_name, s) :: ss' =>
      match searcher_add s text with
      | (s', Raise e) => ((index_name, s') :: ss', Raise e)
      | (s', Ok []) => ((index_name, s') :: ss', Raise IndexError)
      | (s', Ok (index_id :: _)) =>
          let '(rest, r) := add_to_searchers text ss' (dict_set index_ids index_name index_id) in
          ((index_name, s') :: rest, r)
      end
  end.

(** The loop [for text in texts] of [add]. *)
Fixpoint add_chunks (blob_container blob_name : string) (texts : list string)
    (added_chunks : list (string * string)) (w : world)
    : world * result (list (string * string)) :=
  match texts with
  | [] => (w, Ok added_chunks)
  | text :: texts' =>
      let '(chunk_id, ci) := ChunkIndexMapping.get_new_id (index_file w) in
      let w := set_index_mapping ci w in
      match add_to_searchers text (searchers w) [] with
      | (ss, Raise e) => (set_searchers ss w, Raise e)
      | (ss, Ok index_ids) =>
          let w := set_searchers ss w in
          let w := set_index_mapping
                     (ChunkIndexMapping.add_mapping chunk_id index_ids (index_file w)) w in
          let w := set_blob_mapping
                     (ChunkBlobMapping.add_mapping chunk_id blob_container blob_name
                        (chunk_blob_mapping_manager w)) w in
          let w := logged [ChunkAdded chunk_id] w in
          add_chunks blob_container blob_name texts' (added_chunks ++ [(chunk_id, text)]) w
      end
  end.

Definition add (blob_container blob_name : string) (texts : list string) (w : world)
    : world * result (list (string * string)) :=
  with_leases (add_chunks blob_container blob_name texts []) w.

(** The loop over the searchers in [remove]: an exception of a searcher
    is logged and the loop goes on. *)
Fixpoint remove_from_searchers (chunk_id : string) (index_ids : dict nat)
    (ss : dict Searcher) : dict Searcher * list log_entry :=
  match ss with
  | [] => ([], [])
  | (index_name, s) :: ss' =>
      let '(s', warning) :=
        match dict_get index_ids index_name with
        | None => (s, [])
        | Some index_id =>
            match searcher_remove s index_id with
            | (s', Ok _) => (s', [])
            | (s', Raise e) => (s', [RemoveFailed chunk_id index_name e])
            end
        end in
      let '(rest, warnings) := remove_from_searchers chunk_id index_ids ss' in
      ((index_name, s') :: rest, warning ++ warnings)
  end.

Definition remove_body (chunk_id : string) (w : world) : world * result () :=
  let '(index_ids, ci) := ChunkIndexMapping.get_index_ids chunk_id (index_file w) in
  let w := set_index_mapping ci w in
  let w :=
    match index_ids with
    | Some (entry :: ids) =>
        let '(ss, warnings) := remove_from_searchers chunk_id (entry :: ids) (searchers w) in
        logged warnings (set_searchers ss w)
    | _ => logged [ChunkNotFound chunk_id] w
    end in
  let w := set_index_mapping (ChunkIndexMapping.remove_mapping chunk_id (index_file w)) w in
  let w := set_blob_mapping
             (ChunkBlobMapping.remove_mapping chunk_id (chunk_blob_mapping_manager w)
                (blob_file w)) w in
  (logged [ChunkRemoved chunk_id] w, Ok ()).

Definition remove (chunk_id : string) (w : world) : world * result () :=
  with_leases (remove_body chunk_id) w.

(** What the loop of [remove] is to leave of the searchers: every searcher
    named in [index_ids] has had its [remove] called, whatever the others did. *)
Definition all_attempted (index_ids : dict nat) (ss : dict Searcher) : dict Searcher :=
  (λ p, (p.1, match dict_get index_ids p.1 with
              | Some index_id => (searcher_remove p.2 index_id).1
              | None => p.2
              end)) <$> ss.

End Manager.

End ChunkMappingManager.

(** ** The instances the examples run on *)

Module Example.

(** A tokenizer for the examples: the words between blanks.  Janome's
    segmentation is not modelled; what is proved about the manager holds for
    every tokenizer, and an example only needs one. *)
Fixpoint words_from (s word : string) : list string :=
  match s with
  | EmptyString => if decide (word = "") then [] else [word]
  | String c s' =>
      if decide (c = " "%char)
      then (if decide (word = "") then [] else [word]) ++ words_from s' ""
      else words_from s' (word +:+ String c "")
  end.

Definition tokenize (s : string) : list string := words_from s "".

(** The lexical manager on this tokenizer and on rank_bm25. *)
Definition add := BM25.add tokenize RankBM25.BM25Okapi.
Definition remove := BM25.remove tokenize RankBM25.BM25Okapi.
Definition search := BM25.search tokenize RankBM25.get_scores.
Definition load_from_byte := BM25.load_from_byte tokenize RankBM25.BM25Okapi.
Definition fresh : BM25.manager RankBM25.t := BM25.fresh.

(** The index rank_bm25 builds from a tokenized corpus with the default
    hyperparameters, if it builds one. *)
Definition index_of (corpus : list (list string)) : option RankBM25.t :=
  match RankBM25.BM25Okapi corpus 1.5 0.75 with
  | Ok idx => Some idx
  | Raise _ => None
  end.

(** One document, tombstoned, with the index and the active list of the
    time before the tombstone: what [add("a")] followed by [remove(0)]
    leaves, the rebuild on no document having raised. *)
Definition stale : BM25.manager RankBM25.t :=
  BM25.Manager (index_of [["a"]]) ["a"] {[0]} (Some [0]) 1.5 0.75.

(** A searcher for the mapping examples: it hands out consecutive ids,
    remembers the ids it removed, and raises on [remove] when [broken]. *)
Record searcher := Searcher {
  next_id : nat;
  removed : list nat;
  broken : bool
}.

Definition searcher_add (s : searcher) (text : string) : searcher * result (list nat) :=
  (Searcher (S (next_id s)) (removed s) (broken s), Ok [next_id s]).

Definition searcher_remove (s : searcher) (index_id : nat) : searcher * result () :=
  if broken s then (s, Raise ValueError)
  else (Searcher (next_id s) (index_id :: removed s) false, Ok ()).

(** The container manager of the examples: the lease lock on a store on
    which nothing is leased. *)
Definition acquire_lease (cm : Lease.manager) (container_name file : string)
    : Lease.manager * result string :=
  Lease.acquire_lease Lease.never_leased container_name (Some file)
    Lease.max_retries_default Lease.retry_delay_default cm.

Definition release_lease (cm : Lease.manager) (container_name file : string) : Lease.manager :=
  Lease.release_lease container_name (Some file) cm.

(** A manager with a failing and a working searcher, constructed on an empty
    store, and the same manager on a store that holds chunk 7. *)
Definition searchers0 : dict searcher :=
  [("keyword", Searcher 0 [] true); ("vector", Searcher 0 [] false)].

Definition world0 : ChunkMappingManager.world searcher Lease.manager :=
  ChunkMappingManager.init searcher Lease.manager searchers0 (Lease.Manager [] 0 [])
    NotFound NotFound.

Definition world7 : ChunkMappingManager.world searcher Lease.manager :=
  ChunkMappingManager.init searcher Lease.manager searchers0 (Lease.Manager [] 0 [])
    (Json (ChunkIndexMapping.MkJson (Some 8%Z)
             (Some [("7", [("keyword", 3); ("vector", 4)])])))
    (Json [("7", ChunkBlobMapping.BlobInfo "docs" "a.pdf")]).

End Example.

(** ** The lexical index manager: [stats], and the calls of a session *)

Module BM25Session.

(** The dictionary the [stats] property returns. *)
Record stats_t := Stats {
  num_documents : Z;
  active_documents : Z;
  vocabulary_size : Z
}.

Inductive call :=
  | Add (documents : BM25.str_or_list)
  | Remove (ids : BM25.int_or_list)
  | UnmarkDeleted (ids : BM25.int_or_list).

Section Session.

Variable tokenize : string → list string.
Variable Index : Type.
Variable BM25Okapi : list (list string) → R → R → result Index.
(** [len(index.idf)] *)
Variable vocabulary : Index → nat.

(** [stats]: the active documents are counted by subtracting the size of
    the tombstone set from the length of the document list. *)
Definition stats (m : BM25.manager Index) : stats_t :=
  match BM25.index m with
  | None => Stats 0 0 0
  | Some idx =>
      Stats (Z.of_nat (length (BM25.docs m)))
            (Z.of_nat (length (BM25.docs m)) - Z.of_nat (size (BM25.deleted_flags m)))
            (Z.of_nat (vocabulary idx))
  end.

(** One call on the manager.  An exception is the caller's to catch; the
    manager stays as the call left it. *)
Definition step (c : call) (m : BM25.manager Index) : BM25.manager Index :=
  match c with
  | Add documents => (BM25.add tokenize BM25Okapi documents m).1
  | Remove ids => (BM25.remove tokenize BM25Okapi ids m).1
  | UnmarkDeleted ids => (BM25.unmark_deleted tokenize BM25Okapi ids m).1
  end.

Definition run (calls : list call) (m : BM25.manager Index) : BM25.manager Index :=
  foldl (λ m c, step c m) m calls.

End Session.

Arguments stats {Index}.
Arguments step tokenize {Index}.
Arguments run tokenize {Index}.

End BM25Session.

(** ** The keyword searcher: [utils/searchers/keyword_search.py] *)

Module KeywordSearch.

(** What [blob_manager.read] finds at the blob of the index: no blob
    ([ResourceNotFoundError]), a blob without content, or the bytes an
    [export] wrote. *)
Inductive stored (Index : Type) : Type :=
  | Missing
  | Empty
  | Data (d : BM25.pickled Index).
Arguments Missing {Index}.
Arguments Empty {Index}.
Arguments Data {Index} d.

(** The JSON object of a chunk file, as far as [search] reads it. *)
Record chunk_data := ChunkData {
  cd_text : option string;
  cd_page_number : option Z
}.

(** One entry of the list [search] returns; [page_number] is [None] where
    the entry holds the empty string. *)
Record hit := Hit {
  hit_id : nat;
  hit_score : R;
  hit_chunk : string;
  hit_document_name : string;
  hit_page_number : option Z
}.

(** The name [search] reports for a chunk whose blob it does not know. *)
Definition unknown_document : string := "ファイルが見つかりません".

(** [f'chunks/chunk_{chunk_id}.json'] *)
Definition chunk_path (chunk_id : string) : string :=
  "chunks/chunk_" +:+ chunk_id +:+ ".json".

Section Searcher.

Variable tokenize : string → list string.
Variable Index : Type.
Variable BM25Okapi : list (list string) → R → R → result Index.
Variable get_scores : Index → list string → list R.

(** The keyword arguments [__init__] hands on to [BM25IndexManager]. *)
Record kwargs := Kwargs {
  kw_index : option Index;
  kw_docs : option (list string);
  kw_deleted_flags : option (gset nat);
  kw_k1 : R;
  kw_b : R
}.

(** The searcher with the storage it works on: the blob of the index, the
    two mapping files and the chunk files (by path).  The mapping object
    for the blobs is loaded once, by [__init__]; the one for the index ids
    reloads its file in every call.  Uploads are taken to succeed. *)
Record world := World {
  keyword_index : BM25.manager Index;
  chunk_blob_mapping : ChunkBlobMapping.t;
  index_blob : stored Index;
  blob_file : blob_read (dict ChunkBlobMapping.blob_info);
  index_file : blob_read ChunkIndexMapping.json;
  files : string → blob_read chunk_data
}.

Definition set_keyword_index (m : BM25.manager Index) (w : world) : world :=
  World m (chunk_blob_mapping w) (index_blob w) (blob_file w) (index_file w) (files w).
Definition set_index_blob (data : stored Index) (w : world) : world :=
  World (keyword_index w) (chunk_blob_mapping w) data (blob_file w) (index_file w) (files w).
Definition set_index_file (file : blob_read ChunkIndexMapping.json) (w : world) : world :=
  World (keyword_index w) (chunk_blob_mapping w) (index_blob w) (blob_file w) file (files w).

(** [__load_or_create_index]: only [ResourceNotFoundError] is caught. *)
Definition load_or_create_index (data : stored Index) (kw : kwargs)
    : result (BM25.manager Index) :=
  match data with
  | Data d => BM25.load_from_byte tokenize BM25Okapi d
  | Missing | Empty =>
      BM25.init tokenize BM25Okapi (kw_index kw) (kw_docs kw) (kw_deleted_flags kw)
                (kw_k1 kw) (kw_b kw)
  end.

(** [__init__] *)
Definition init (data : stored Index) (kw : kwargs)
    (bfile : blob_read (dict ChunkBlobMapping.blob_info))
    (ifile : blob_read ChunkIndexMapping.json)
    (chunk_files : string → blob_read chunk_data) : result world :=
  match load_or_create_index data kw with
  | Raise e => Raise e
  | Ok m =>
      let cb := ChunkBlobMapping.init bfile in
      let ci := ChunkIndexMapping.init ifile in
      Ok (World m cb.1 data cb.2 ci.2 chunk_files)
  end.

(** [__save]: the export is uploaded to the blob of the index; what
    [export] raises is logged and raised again. *)
Definition save (w : world) : world * result () :=
  match BM25.export (keyword_index w) with
  | Raise e => (w, Raise e)
  | Ok data => (set_index_blob (Data data) w, Ok ())
  end.

(** A call on the index followed by [__save]. *)
Definition then_save {A} (r : BM25.manager Index * result A) (w : world) : world * result A :=
  match r with
  | (m, Raise e) => (set_keyword_index m w, Raise e)
  | (m, Ok a) =>
      match save (set_keyword_index m w) with
      | (w, Raise e) => (w, Raise e)
      | (w, Ok _) => (w, Ok a)
      end
  end.

(** [add(texts, ids=None)]: with [ids] the call [self.keyword_index.add(texts, ids)]
    has one argument more than [BM25IndexManager.add] takes. *)
Definition add (texts : BM25.str_or_list) (ids : option (list nat)) (w : world)
    : world * result (list nat) :=
  match ids with
  | Some _ => (w, Raise TypeError)
  | None => then_save (BM25.add tokenize BM25Okapi texts (keyword_index w)) w
  end.

Definition remove (ids : BM25.int_or_list) (w : world) : world * result () :=
  then_save (BM25.remove tokenize BM25Okapi ids (keyword_index w)) w.

Definition restore (ids : BM25.int_or_list) (w : world) : world * result () :=
  then_save (BM25.unmark_deleted tokenize BM25Okapi ids (keyword_index w)) w.

(** The entry [search] builds for a hit whose chunk file it has read. *)
Definition entry (doc_id : nat) (score : R) (chunk_id : string) (cd : chunk_data)
    (w : world) : hit :=
  Hit doc_id score (default "" (cd_text cd))
      (match ChunkBlobMapping.get_blob_info chunk_id (chunk_blob_mapping w) with
       | Some blob_info => ChunkBlobMapping.blob blob_info
       | None => unknown_document
       end)
      (match cd_page_number cd with
       | Some n => if decide (n = 0%Z) then None else Some n
       | None => None
       end).

(** The loop of [search] over the hits.  [json.loads] of a chunk file that
    is empty or not JSON raises [JSONDecodeError], a [ValueError]. *)
Fixpoint collect (hits : list (nat * R)) (w : world) : world * result (list hit) :=
  match hits with
  | [] => (w, Ok [])
  | (doc_id, score) :: hits' =>
      let '(chunk_id, ci) := ChunkIndexMapping.get_chunk_id "keyword" doc_id (index_file w) in
      let w := set_index_file ci.2 w in
      match chunk_id with
      | None => collect hits' w
      | Some chunk_id =>
          if decide (chunk_id = "") then collect hits' w
          else
            match files w (chunk_path chunk_id) with
            | NotFound => (w, Raise ResourceNotFoundError)
            | EmptyBlob | Corrupt => (w, Raise ValueError)
            | Json cd =>
                match collect hits' w with
                | (w', Raise e) => (w', Raise e)
                | (w', Ok results) => (w', Ok (entry doc_id score chunk_id cd w :: results))
                end
            end
      end
  end.

Definition search (query : string) (k : Z) (w : world) : world * result (list hit) :=
  match BM25.search tokenize get_scores query k (keyword_index w) with
  | Raise e => (w, Raise e)
  | Ok (ids, scores) => collect (zip ids scores) w
  end.

(** The calls that change the index. *)
Inductive call :=
  | Add (texts : BM25.str_or_list)
  | Remove (ids : BM25.int_or_list)
  | Restore (ids : BM25.int_or_list).

Definition step (c : call) (w : world) : world * bool :=
  match c with
  | Add texts => let '(w, r) := add texts None w in (w, is_ok r)
  | Remove ids => let '(w, r) := remove ids w in (w, is_ok r)
  | Restore ids => let '(w, r) := restore ids w in (w, is_ok r)
  end.

End Searcher.

Arguments Kwargs {Index}.
Arguments kw_index {Index}.
Arguments kw_docs {Index}.
Arguments kw_deleted_flags {Index}.
Arguments kw_k1 {Index}.
Arguments kw_b {Index}.
Arguments World {Index}.
Arguments keyword_index {Index}.
Arguments chunk_blob_mapping {Index}.
Arguments index_blob {Index}.
Arguments blob_file {Index}.
Arguments index_file {Index}.
Arguments files {Index}.
Arguments set_keyword_index {Index}.
Arguments set_index_blob {Index}.
Arguments set_index_file {Index}.
Arguments load_or_create_index tokenize {Index}.
Arguments init tokenize {Index}.
Arguments save {Index}.
Arguments then_save {Index A}.
Arguments add tokenize {Index}.
Arguments remove tokenize {Index}.
Arguments restore tokenize {Index}.
Arguments entry {Index}.
Arguments collect {Index}.
Arguments search tokenize {Index}.
Arguments step tokenize {Index}.

End KeywordSearch.

(** ** Two mapping objects on one file

    The manager and each searcher construct a [ChunkBlobMapping] of their
    own on the same blob, and so does every process. *)

Module ChunkBlobSharing.

Record shared := Shared {
  first : ChunkBlobMapping.t;
  second : ChunkBlobMapping.t;
  file : blob_read (dict ChunkBlobMapping.blob_info)
}.

(** Both objects are constructed on the file, one after the other. *)
Definition open (f : blob_read (dict ChunkBlobMapping.blob_info)) : shared :=
  let a := ChunkBlobMapping.init f in
  let b := ChunkBlobMapping.init a.2 in
  Shared a.1 b.1 b.2.

Inductive actor := First | Second.

(** A call of one of the two objects: it works on the object's attributes
    and on the file as the other object left it. *)
Definition act (who : actor) (c : ChunkBlobMapping.call) (s : shared) : shared :=
  match who with
  | First =>
      let r := ChunkBlobMapping.step c (first s, file s) in Shared r.1 (second s) r.2
  | Second =>
      let r := ChunkBlobMapping.step c (second s, file s) in Shared (first s) r.1 r.2
  end.

End ChunkBlobSharing.

(** ** The mapping manager on the lease lock

    The container manager of a [ChunkMappingManager] is the
    [BlobContainerManager] of its blob manager: [acquire_lease] and
    [release_lease] are called with the name of a mapping file and the
    default budget. *)

Module LeasedManager.

(** [if blob_name:] in [get_client] and [release_lease]: an empty name
    stands for the container. *)
Definition as_blob_name (file : string) : option string :=
  if decide (file = "") then None else Some file.

Definition acquire_lease (s : Lease.store) (cm : Lease.manager) (container_name file : string)
    : Lease.manager * result string :=
  Lease.acquire_lease s container_name (as_blob_name file)
    Lease.max_retries_default Lease.retry_delay_default cm.

Definition release_lease (cm : Lease.manager) (container_name file : string) : Lease.manager :=
  Lease.release_lease container_name (as_blob_name file) cm.

End LeasedManager.

(** ** The document processor: [utils/blob_document_processor.py] *)

Module BlobDocumentProcessor.

(** One page as the parser returns it. *)
Record page := Page {
  texts : list string;
  page_number : Z
}.

(** What a blob of the database container holds: the JSON object of a
    chunk as the processor dumps it, or other bytes. *)
Record chunk_json := ChunkJson {
  cj_text : string;
  cj_document_name : string;
  cj_page_number : option Z;
  cj_created_at : string
}.

Inductive content :=
  | Chunk (c : chunk_json)
  | Bytes (data : string).

(** [f'pages/{blob_name}_{page_number}.txt'] and [f'texts/{blob_name}.txt'] *)
Definition page_path (blob_name : string) (n : Z) : string :=
  "pages/" +:+ blob_name +:+ "_" +:+ pretty n +:+ ".txt".
Definition text_path (blob_name : string) : string :=
  "texts/" +:+ blob_name +:+ ".txt".

(** The comprehensions of [__parse_document]. *)
Definition all_chunks_of (parsed : list page) : list (string * Z) :=
  p ← parsed; (λ text, (text, page_number p)) <$> texts p.
Definition page_chunks_of (parsed : list page) : list (string * Z) :=
  (λ p, (String.concat "" (texts p), page_number p)) <$> parsed.

Section Processor.

(** The collaborators of the mapping manager. *)
Variable Searcher : Type.
Variable searcher_add : Searcher → string → Searcher * result (list nat).
Variable searcher_remove : Searcher → nat → Searcher * result ().
Variable ContainerManager : Type.
Variable acquire_lease : ContainerManager → string → string → ContainerManager * result string.
Variable release_lease : ContainerManager → string → string → ContainerManager.

(** The libraries: [json.loads] on bytes the processor did not dump
    (as far as [page_number] is read), [os.path.splitext] with the
    normalisation of [__get_file_extension], the document parser, and the
    clock reading [datetime.now().isoformat()] for the file of a chunk. *)
Variable json_loads : string → result (option Z).
Variable get_file_extension : string → string.
Variable parse_by_page : string → string → result (list page).
Variable parse_full_text : string → string → result string.
Variable now_isoformat : string → string.

(** The processor with its mapping manager and the storage it works on:
    the blobs of the database container other than the mapping files, by
    name, and the document blobs with the metadata entry [chunk_ids], kept
    under [<container>/<blob>].  [upload], [delete] and [add_metadata] of
    the blob manager take the lease of their own blob and are taken to
    succeed ([delete] on a blob that does not exist creates it on the way
    and deletes it); [read] takes no lease and raises
    [ResourceNotFoundError] for a blob that does not exist. *)
Record world := World {
  mapping_manager : ChunkMappingManager.world Searcher ContainerManager;
  db_files : dict content;
  documents : string → string → option string;
  chunk_ids_metadata : dict (list string)
}.

Definition set_mapping_manager (m : ChunkMappingManager.world Searcher ContainerManager)
    (w : world) : world :=
  World m (db_files w) (documents w) (chunk_ids_metadata w).
Definition set_db_files (files : dict content) (w : world) : world :=
  World (mapping_manager w) files (documents w) (chunk_ids_metadata w).
Definition set_chunk_ids_metadata (md : dict (list string)) (w : world) : world :=
  World (mapping_manager w) (db_files w) (documents w) md.

(** [blob_manager.upload], [blob_manager.delete] and [blob_manager.blob_exist]
    on the database container. *)
Definition upload (name : string) (c : content) (w : world) : world :=
  set_db_files (dict_set (db_files w) name c) w.
Definition delete (name : string) (w : world) : world :=
  set_db_files (dict_del (db_files w) name) w.
Definition blob_exist (name : string) (w : world) : bool :=
  bool_decide (is_Some (dict_get (db_files w) name)).

(** [json.loads(self.blob_manager.read(...))] followed by
    [chunk_data.get('page_number')]. *)
Definition read_page_number (name : string) (w : world) : result (option Z) :=
  match dict_get (db_files w) name with
  | None => Raise ResourceNotFoundError
  | Some (Chunk c) => Ok (cj_page_number c)
  | Some (Bytes data) => json_loads data
  end.

(** The loop of [__delete_document_internal] over the chunk ids the
    reverse index listed when the method was entered. *)
Fixpoint delete_chunks (blob_name : string) (chunk_ids : list string) (w : world)
    : world * result () :=
  match chunk_ids with
  | [] => (w, Ok ())
  | chunk_id :: rest =>
      match read_page_number (KeywordSearch.chunk_path chunk_id) w with
      | Raise e => (w, Raise e)
      | Ok page =>
          match ChunkMappingManager.remove Searcher searcher_remove ContainerManager
                  acquire_lease release_lease chunk_id (mapping_manager w) with
          | (m, Raise e) => (set_mapping_manager m w, Raise e)
          | (m, Ok _) =>
              let w := delete (KeywordSearch.chunk_path chunk_id) (set_mapping_manager m w) in
              let w :=
                match page with
                | Some n =>
                    if negb (n =? 0)%Z && blob_exist (page_path blob_name n) w
                    then delete (page_path blob_name n) w else w
                | None => w
                end in
              delete_chunks blob_name rest w
          end
      end
  end.

Definition delete_document_internal (container_name blob_name : string) (w : world)
    : world * result () :=
  let chunk_ids :=
    ChunkBlobMapping.get_chunk_ids_by_blob container_name blob_name
      (ChunkMappingManager.chunk_blob_mapping_manager _ _ (mapping_manager w)) in
  match delete_chunks blob_name chunk_ids w with
  | (w, Raise e) => (w, Raise e)
  | (w, Ok _) => (delete (text_path blob_name) w, Ok ())
  end.

(** [delete_document] logs what the internal method raises and raises it again. *)
Definition delete_document (container_name blob_name : string) (w : world)
    : world * result () :=
  delete_document_internal container_name blob_name w.

(** The uploads of [process_and_save_document] after the chunks were added. *)
Definition upload_chunk (blob_name : string) (w : world)
    (entry : (string * string) * (string * Z)) : world :=
  let '((chunk_id, chunk), (_, page)) := entry in
  upload (KeywordSearch.chunk_path chunk_id)
         (Chunk (ChunkJson chunk blob_name (Some page) (now_isoformat chunk_id))) w.
Definition upload_page (blob_name : string) (w : world) (page_chunk : string * Z) : world :=
  upload (page_path blob_name page_chunk.2) (Bytes page_chunk.1) w.

(** The [try] block of [process_and_save_document]. *)
Definition process (container_name blob_name : string) (w : world) : world * result () :=
  let existing_chunk_ids :=
    ChunkBlobMapping.get_chunk_ids_by_blob container_name blob_name
      (ChunkMappingManager.chunk_blob_mapping_manager _ _ (mapping_manager w)) in
  let cleared :=
    match existing_chunk_ids with
    | [] => (w, Ok ())
    | _ :: _ => delete_document_internal container_name blob_name w
    end in
  match cleared with
  | (w, Raise e) => (w, Raise e)
  | (w, Ok _) =>
      match documents w container_name blob_name with
      | None => (w, Raise ResourceNotFoundError)
      | Some blob_content =>
          let ext := get_file_extension blob_name in
          match parse_by_page blob_content ext with
          | Raise e => (w, Raise e)
          | Ok parsed_content =>
              match parse_full_text blob_content ext with
              | Raise e => (w, Raise e)
              | Ok full_text =>
                  let all_chunks := all_chunks_of parsed_content in
                  let page_chunks := page_chunks_of parsed_content in
                  match ChunkMappingManager.add Searcher searcher_add ContainerManager
                          acquire_lease release_lease container_name blob_name
                          all_chunks.*1 (mapping_manager w) with
                  | (m, Raise e) => (set_mapping_manager m w, Raise e)
                  | (m, Ok chunk_info_list) =>
                      let w := set_mapping_manager m w in
                      let w := foldl (upload_chunk blob_name) w (zip chunk_info_list all_chunks) in
                      let w := foldl (upload_page blob_name) w page_chunks in
                      let w := upload (text_path blob_name) (Bytes full_text) w in
                      let key := container_name +:+ "/" +:+ blob_name in
                      (set_chunk_ids_metadata
                         (dict_set (chunk_ids_metadata w) key chunk_info_list.*1) w, Ok ())
                  end
              end
          end
      end
  end.

(** [process_and_save_document]: when the [try] block raises, the
    document is deleted and the error is raised again; what the deletion
    raises takes its place. *)
Definition process_and_save_document (container_name blob_name : string) (w : world)
    : world * result () :=
  match process container_name blob_name w with
  | (w, Ok _) => (w, Ok ())
  | (w, Raise e) =>
      match delete_document_internal container_name blob_name w with
      | (w, Raise e') => (w, Raise e')
      | (w, Ok _) => (w, Raise e)
      end
  end.

End Processor.

Arguments World {Searcher ContainerManager}.
Arguments mapping_manager {Searcher ContainerManager}.
Arguments db_files {Searcher ContainerManager}.
Arguments documents {Searcher ContainerManager}.
Arguments chunk_ids_metadata {Searcher ContainerManager}.
Arguments set_mapping_manager {Searcher ContainerManager}.
Arguments set_db_files {Searcher ContainerManager}.
Arguments upload {Searcher ContainerManager}.
Arguments delete {Searcher ContainerManager}.
Arguments blob_exist {Searcher ContainerManager}.
Arguments read_page_number {Searcher ContainerManager}.

End BlobDocumentProcessor.

(** ** More instances for the examples *)

Module Instances.

(** A resource another actor holds until time [T], on a service that grants
    the lease afterwards; and a resource that reads as free while the
    service refuses the lease. *)
Definition leased_until (T : nat) : Lease.store :=
  Lease.Store (Ok ()) (λ t, if decide (t < T) then Lease.Leased else Lease.Expired)
              (λ _ _, Ok "lease-2").
Definition refusing : Lease.store :=
  Lease.Store (Ok ()) (λ _, Lease.Available) (λ _ _, Raise AzureError).

(** A searcher whose [add] raises when it is [broken]. *)
Definition searcher_add (s : Example.searcher) (text : string)
    : Example.searcher * result (list nat) :=
  if Example.broken s then (s, Raise ValueError) else Example.searcher_add s text.

(** A working searcher in front of a broken one. *)
Definition searchers1 : dict Example.searcher :=
  [("vector", Example.Searcher 0 [] false); ("keyword", Example.Searcher 0 [] true)].

Definition world1 : ChunkMappingManager.world Example.searcher Lease.manager :=
  ChunkMappingManager.init Example.searcher Lease.manager searchers1 (Lease.Manager [] 0 [])
    NotFound NotFound.

(** Two working searchers. *)
Definition searchers2 : dict Example.searcher :=
  [("keyword", Example.Searcher 0 [] false); ("vector", Example.Searcher 0 [] false)].

Definition world2 : ChunkMappingManager.world Example.searcher Lease.manager :=
  ChunkMappingManager.init Example.searcher Lease.manager searchers2 (Lease.Manager [] 0 [])
    NotFound NotFound.

(** The lexical manager of the examples after [add(["a", "b"])] on a new
    manager, and the same manager after [remove(0)]. *)
Definition two_docs : BM25.manager RankBM25.t :=
  BM25.Manager (Example.index_of [["a"]; ["b"]]) ["a"; "b"] ∅ (Some [0; 1]) 1.5 0.75.
Definition second_only : BM25.manager RankBM25.t :=
  BM25.Manager (Example.index_of [["b"]]) ["a"; "b"] {[0]} (Some [1]) 1.5 0.75.

(** The keyword searcher of the examples, constructed on an empty store. *)
Definition no_kwargs : KeywordSearch.kwargs RankBM25.t :=
  KeywordSearch.Kwargs None None None 1.5 0.75.

Definition keyword0 : KeywordSearch.world RankBM25.t :=
  KeywordSearch.World Example.fresh (ChunkBlobMapping.Mk [] []) KeywordSearch.Missing
    (Json []) (Json (ChunkIndexMapping.MkJson (Some 0%Z) (Some []))) (λ _, NotFound).

(** The same searcher after [add("a")], and with the mapping and the chunk
    file the mapping manager and the document processor write for it. *)
Definition keyword_a : KeywordSearch.world RankBM25.t :=
  (KeywordSearch.step Example.tokenize RankBM25.BM25Okapi
     (KeywordSearch.Add (BM25.Str "a")) keyword0).1.

Definition keyword_ready : KeywordSearch.world RankBM25.t :=
  KeywordSearch.World (KeywordSearch.keyword_index keyword_a)
    (KeywordSearch.chunk_blob_mapping keyword_a) (KeywordSearch.index_blob keyword_a)
    (Json [("0", ChunkBlobMapping.BlobInfo "docs" "a.pdf")])
    (Json (ChunkIndexMapping.MkJson (Some 1%Z) (Some [("0", [("keyword", 0)])])))
    (λ path, if decide (path = "chunks/chunk_0.json")
             then Json (KeywordSearch.ChunkData (Some "a") (Some 1%Z)) else NotFound).

(** A searcher that takes one text and raises on the next, and a manager
    with that searcher on an empty store. *)
Definition searcher_add_one (s : Example.searcher) (text : string)
    : Example.searcher * result (list nat) :=
  if decide (Example.next_id s = 0) then Example.searcher_add s text
  else (s, Raise ValueError).

Definition searchers3 : dict Example.searcher :=
  [("keyword", Example.Searcher 0 [] false)].

Definition world3 : ChunkMappingManager.world Example.searcher Lease.manager :=
  ChunkMappingManager.init Example.searcher Lease.manager searchers3 (Lease.Manager [] 0 [])
    NotFound NotFound.

(** A document container with one text file, and a parser that returns one
    page, numbered 0 as the text parser numbers the first one, with two
    chunks. *)
Definition one_document (container_name blob_name : string) : option string :=
  if decide (container_name = "docs" ∧ blob_name = "a.txt") then Some "t1t2" else None.

Definition parse_by_page (blob_content ext : string)
    : result (list BlobDocumentProcessor.page) :=
  Ok [BlobDocumentProcessor.Page ["t1"; "t2"] 0].

Definition parse_full_text (blob_content ext : string) : result string :=
  Ok blob_content.

Definition json_loads (data : string) : result (option Z) := Raise ValueError.

Definition get_file_extension (blob_name : string) : string := "txt".

Definition now_isoformat (chunk_id : string) : string := "2024-01-01T00:00:00".

(** Processors on an empty database container: one whose manager holds
    chunk 7 of [a.pdf], one whose searcher raises on the second text, and
    one whose searchers work. *)
Definition processor7 : BlobDocumentProcessor.world Example.searcher Lease.manager :=
  BlobDocumentProcessor.World Example.world7 [] one_document [].

(** The processor whose manager holds chunk 7, with the document [a.pdf]
    and the files the processor wrote for it. *)
Definition stored_document (container_name blob_name : string) : option string :=
  if decide (container_name = "docs" ∧ blob_name = "a.pdf") then Some "t1t2" else None.

Definition processor7_stored : BlobDocumentProcessor.world Example.searcher Lease.manager :=
  BlobDocumentProcessor.World Example.world7
    [("chunks/chunk_7.json",
      BlobDocumentProcessor.Chunk
        (BlobDocumentProcessor.ChunkJson "t" "a.pdf" (Some 1%Z) "2024-01-01T00:00:00"));
     ("pages/a.pdf_1.txt", BlobDocumentProcessor.Bytes "t");
     ("texts/a.pdf.txt", BlobDocumentProcessor.Bytes "t")]
    stored_document [("docs/a.pdf", ["7"])].

Definition processor3 : BlobDocumentProcessor.world Example.searcher Lease.manager :=
  BlobDocumentProcessor.World world3 [] one_document [].

Definition processor2 : BlobDocumentProcessor.world Example.searcher Lease.manager :=
  BlobDocumentProcessor.World world2 [] one_document [].

End Instances.

(** ** Facts: dictionaries and the blob mapping *)

Module DictFacts.
Lemma dict_get_set {V} (d : dict V) k v k' :
  dict_get (dict_set d k v) k' = if decide (k = k') then Some v else dict_get d k'.
Proof.
  induction d as [|[k0 v0] d IH]; simpl.
  - done.
  - destruct (decide (k0 = k)) as [->|Hk]; simpl.
    + by destruct (decide (k = k')).
    + rewrite IH. destruct (decide (k0 = k')) as [->|]; [|done].
      by rewrite decide_False.
Qed.

Lemma dict_get_del {V} (d : dict V) k k' :
  dict_get (dict_del d k) k' = if decide (k = k') then None else dict_get d k'.
Proof.
  unfold dict_del. induction d as [|[k0 v0] d IH].
  - simpl. by destruct (decide (k = k')).
  - rewrite filter_cons. cbn [fst]. destruct (decide (k0 ≠ k)) as [Hne|Heq]; cbn [dict_get].
    + rewrite IH. destruct (decide (k0 = k')) as [->|]; [|done].
      by rewrite decide_False.
    + apply dec_stable in Heq as ->. rewrite IH.
      destruct (decide (k = k')); done.
Qed.

Lemma dict_set_new {V} (d : dict V) k v :
  dict_get d k = None → dict_set d k v = d ++ [(k, v)].
Proof.
  induction d as [|[k0 v0] d IH]; simpl; [done|].
  destruct (decide (k0 = k)); [done|]. intros H. by rewrite IH.
Qed.

Lemma dict_get_app {V} (d1 d2 : dict V) k :
  dict_get (d1 ++ d2) k = match dict_get d1 k with Some v => Some v | None => dict_get d2 k end.
Proof.
  induction d1 as [|[k0 v0] d1 IH]; simpl; [done|].
  by destruct (decide (k0 = k)).
Qed.
End DictFacts.

Module CBMFacts.
Import ChunkBlobMapping DictFacts.

Lemma reverse_step_get rev e k :
  dict_get (reverse_step rev e) k
  = if decide (key (container e.2) (blob e.2) = k)
    then Some (default [] (dict_get rev k) ++ [e.1])
    else dict_get rev k.
Proof.
  unfold reverse_step. rewrite dict_get_set.
  destruct (decide (key (container e.2) (blob e.2) = k)) as [<-|Hne].
  - destruct (dict_get rev _) eqn:E; [by rewrite E|].
    by rewrite dict_get_set, decide_True.
  - destruct (dict_get rev (key _ _)); [done|].
    by rewrite dict_get_set, decide_False.
Qed.

Lemma grouped_cons e m k :
  grouped (e :: m) k
  = (if decide (key (container e.2) (blob e.2) = k) then [e.1] else []) ++ grouped m k.
Proof. unfold grouped. rewrite filter_cons. by destruct (decide _). Qed.

Lemma grouped_app m1 m2 k : grouped (m1 ++ m2) k = grouped m1 k ++ grouped m2 k.
Proof. unfold grouped. by rewrite filter_app, fmap_app. Qed.

Lemma default_entry_of l : default [] (entry_of l) = l.
Proof. by destruct l. Qed.

Lemma update_reverse_mapping_spec m k :
  dict_get (update_reverse_mapping m) k = entry_of (grouped m k).
Proof.
  unfold update_reverse_mapping.
  assert (∀ rev g, (∀ k, dict_get rev k = entry_of (g k)) →
            ∀ k, dict_get (foldl reverse_step rev m) k = entry_of (g k ++ grouped m k)) as Hgen.
  { induction m as [|e m IH]; intros rev g Hrev k'.
    - simpl. by rewrite app_nil_r.
    - simpl. rewrite (IH _ (λ k, g k ++ (if decide (key (container e.2) (blob e.2) = k)
                                         then [e.1] else []))).
      + by rewrite grouped_cons, app_assoc.
      + intros k''. rewrite reverse_step_get, Hrev.
        destruct (decide _); [|by rewrite app_nil_r].
        rewrite default_entry_of. by destruct (g k''). }
  apply (Hgen [] (λ _, [])). done.
Qed.

Lemma init_reverse_ok file : reverse_ok (init file).1.
Proof.
  intros k. destruct file; simpl; try done. apply update_reverse_mapping_spec.
Qed.

Lemma step_reverse_ok c s : reverse_ok s.1 → reverse_ok (step c s).1.
Proof.
  intros Hs. destruct c; simpl.
  - intros k. apply update_reverse_mapping_spec.
  - unfold remove_mapping. destruct (dict_get _ _); [|done].
    intros k. apply update_reverse_mapping_spec.
  - apply init_reverse_ok.
Qed.

Lemma run_reverse_ok calls file : reverse_ok (run calls file).1.
Proof.
  unfold run. generalize (init_reverse_ok file). generalize (init file).
  induction calls as [|c calls IH]; intros s Hs; simpl; [done|].
  apply IH. by apply step_reverse_ok.
Qed.

Lemma get_chunk_ids_by_blob_grouped c container_name blob_name :
  reverse_ok c →
  get_chunk_ids_by_blob container_name blob_name c
  = grouped (mapping c) (key container_name blob_name).
Proof. intros H. unfold get_chunk_ids_by_blob. by rewrite H, default_entry_of. Qed.
End CBMFacts.


(** ** Facts: the chunk id allocator *)

Module CIMFacts.
Import ChunkIndexMapping.

Lemma get_new_id_spec file :
  let c := (load_from_storage file).1 in
  get_new_id file
  = (pretty (id_counter c),
     (Mk (id_counter c + 1) (id_map c),
      Json (MkJson (Some (id_counter c + 1)%Z) (Some (id_map c))))).
Proof. unfold get_new_id. by destruct (load_from_storage file). Qed.

Lemma step_counter c file :
  match (step c file).1 with
  | Some id => id = pretty (persisted_counter file)
               ∧ persisted_counter (step c file).2 = (persisted_counter file + 1)%Z
  | None => persisted_counter (step c file).2 = persisted_counter file
  end.
Proof.
  unfold persisted_counter.
  destruct c; simpl; try by destruct file as [| | |[[?|] [?|]]].
  unfold remove_mapping. destruct (load_from_storage file) as [c f] eqn:E.
  destruct (dict_get _ _); simpl; [done|].
  by destruct file as [| | |[[?|] [?|]]]; simplify_eq/=.
Qed.

Lemma run_increasing calls file :
  ∃ ns : list Z,
    (run calls file).1 = pretty <$> ns
    ∧ StronglySorted Z.lt ns
    ∧ Forall (λ n, persisted_counter file ≤ n)%Z ns.
Proof.
  revert file. induction calls as [|c calls IH]; intros file.
  - exists []. simpl. repeat split; constructor.
  - simpl. pose proof (step_counter c file) as Hstep.
    destruct (step c file) as [issued file'] eqn:Es. simpl in Hstep.
    destruct (IH file') as (ns & Hids & Hsorted & Hlow).
    destruct (run calls file') as [ids file''] eqn:Er. simpl in *.
    destruct issued as [id|].
    + destruct Hstep as [-> Hc]. exists (persisted_counter file :: ns).
      rewrite Hids. split; [done|]. split.
      * constructor; [done|]. eapply Forall_impl; [exact Hlow|]. simpl. lia.
      * constructor; [lia|]. eapply Forall_impl; [exact Hlow|]. simpl. lia.
    + exists ns. rewrite Hstep in Hlow. done.
Qed.

(** C6.  For every sequence of calls of [get_new_id], [add_mapping],
    [remove_mapping] and constructions that reload the file, from every
    content of the file, the ids returned are the decimal strings of a
    strictly increasing sequence of integers, and no id is returned twice;
    one call reloads the counter, returns it as a string, and stores and
    persists its successor. *)
Theorem get_new_id_never_repeats calls file :
  (∃ ns : list Z, (run calls file).1 = pretty <$> ns ∧ StronglySorted Z.lt ns)
  ∧ NoDup (run calls file).1
  ∧ (let c := (load_from_storage file).1 in
     get_new_id file
     = (pretty (id_counter c),
        (Mk (id_counter c + 1) (id_map c),
         Json (MkJson (Some (id_counter c + 1)%Z) (Some (id_map c)))))).
Proof.
  destruct (run_increasing calls file) as (ns & Hids & Hsorted & _).
  split; [by exists ns|]. split; [|apply get_new_id_spec].
  rewrite Hids. apply NoDup_fmap_2; [apply _|].
  clear Hids. induction Hsorted as [|n ns Hs IH Hall]; constructor; [|done].
  intros Hin. rewrite Forall_forall in Hall. specialize (Hall _ Hin). lia.
Qed.
End CIMFacts.


(** ** Facts: the mapping manager *)

Module ManagerFacts.
Import ChunkMappingManager DictFacts CBMFacts CIMFacts.

Lemma index_remove_mapping_spec chunk_id file :
  dict_get (ChunkIndexMapping.id_map (ChunkIndexMapping.remove_mapping chunk_id file).1) chunk_id = None
  ∧ (ChunkIndexMapping.get_index_ids chunk_id (ChunkIndexMapping.remove_mapping chunk_id file).2).1 = None.
Proof.
  unfold ChunkIndexMapping.remove_mapping, ChunkIndexMapping.get_index_ids.
  destruct (ChunkIndexMapping.load_from_storage file) as [c f] eqn:E.
  destruct (dict_get (ChunkIndexMapping.id_map c) chunk_id) eqn:Eg; simpl.
  - rewrite dict_get_del, decide_True by done. done.
  - split; [done|].
    assert (ChunkIndexMapping.load_from_storage f = (c, f)) as ->; [|done].
    destruct file as [| | |j]; simplify_eq/=; done.
Qed.

Lemma blob_remove_mapping_spec chunk_id c file :
  let r := ChunkBlobMapping.remove_mapping chunk_id c file in
  ChunkBlobMapping.get_blob_info chunk_id r.1 = None
  ∧ (ChunkBlobMapping.mapping (ChunkBlobMapping.init file).1 = ChunkBlobMapping.mapping c →
     ChunkBlobMapping.get_blob_info chunk_id (ChunkBlobMapping.init r.2).1 = None).
Proof.
  unfold ChunkBlobMapping.remove_mapping, ChunkBlobMapping.get_blob_info.
  destruct (dict_get (ChunkBlobMapping.mapping c) chunk_id) eqn:Eg; simpl.
  - rewrite dict_get_del, decide_True by done. done.
  - split; [done|]. by intros ->.
Qed.

Section Facts.
Context {Searcher ContainerManager : Type}.
Variable searcher_add : Searcher → string → Searcher * result (list nat).
Variable searcher_remove : Searcher → nat → Searcher * result ().
Variable acquire_lease : ContainerManager → string → string → ContainerManager * result string.
Variable release_lease : ContainerManager → string → string → ContainerManager.

Abbreviation world := (world Searcher ContainerManager).
Abbreviation remove := (remove Searcher searcher_remove ContainerManager acquire_lease release_lease).
Abbreviation add := (add Searcher searcher_add ContainerManager acquire_lease release_lease).
Abbreviation release_if := (release_if Searcher ContainerManager release_lease).

Lemma remove_from_searchers_spec chunk_id index_ids ss :
  (remove_from_searchers Searcher searcher_remove chunk_id index_ids ss).1
  = all_attempted Searcher searcher_remove index_ids ss
  ∧ ∀ name s id e, (name, s) ∈ ss → dict_get index_ids name = Some id →
      (searcher_remove s id).2 = Raise e →
      RemoveFailed chunk_id name e
      ∈ (remove_from_searchers Searcher searcher_remove chunk_id index_ids ss).2.
Proof.
  induction ss as [|[name s] ss [IH1 IH2]]; simpl.
  - split; [done|]. intros ???? Hin. by apply elem_of_nil in Hin.
  - destruct (remove_from_searchers _ _ _ _ ss) as [rest warnings] eqn:Er. simpl in *.
    destruct (dict_get index_ids name) as [id|] eqn:Eg.
    + destruct (searcher_remove s id) as [s' [[]|e]] eqn:Es; simpl.
      * split; [by rewrite IH1|]. intros name' s0 id' e' Hin Hg Hr.
        apply elem_of_cons in Hin as [[= -> ->]|Hin]; [|by eapply IH2].
        rewrite Eg in Hg. simplify_eq. by rewrite Es in Hr.
      * split; [by rewrite IH1|]. intros name' s0 id' e' Hin Hg Hr.
        apply elem_of_cons in Hin as [[= -> ->]|Hin].
        -- rewrite Eg in Hg. simplify_eq. rewrite Es in Hr. simpl in Hr.
           simplify_eq. apply elem_of_cons. by left.
        -- apply elem_of_cons. right. by eapply IH2.
    + split; [by rewrite IH1|]. intros name' s0 id' e' Hin Hg Hr.
      apply elem_of_cons in Hin as [[= -> ->]|Hin]; [congruence|by eapply IH2].
Qed.

Lemma all_attempted_nil ss : all_attempted Searcher searcher_remove [] ss = ss.
Proof.
  unfold all_attempted. induction ss as [|[??] ss IH]; [done|].
  by rewrite fmap_cons, IH.
Qed.

Lemma release_if_frame o file (w : world) :
  let w' := release_if o file w in
  searchers _ _ w' = searchers _ _ w
  ∧ chunk_id_mapping_manager _ _ w' = chunk_id_mapping_manager _ _ w
  ∧ chunk_blob_mapping_manager _ _ w' = chunk_blob_mapping_manager _ _ w
  ∧ index_file _ _ w' = index_file _ _ w
  ∧ blob_file _ _ w' = blob_file _ _ w
  ∧ log _ _ w' = log _ _ w.
Proof. destruct o as [id|]; simpl; [destruct (decide (id = ""))|]; done. Qed.

Lemma with_leases_granted {A} (body : world → world * result A) (w : world) cm1 id1 cm2 id2 :
  acquire_lease (container_manager _ _ w) db_container chunk_index_mapping_file = (cm1, Ok id1) →
  acquire_lease cm1 db_container chunk_blob_mapping_file = (cm2, Ok id2) →
  with_leases Searcher ContainerManager acquire_lease release_lease body w
  = (release_if (Some id2) chunk_blob_mapping_file
       (release_if (Some id1) chunk_index_mapping_file
          (body (set_container_manager _ _ cm2 (set_container_manager _ _ cm1 w))).1),
     (body (set_container_manager _ _ cm2 (set_container_manager _ _ cm1 w))).2).
Proof.
  intros H1 H2. unfold with_leases. rewrite H1. cbn [container_manager set_container_manager].
  rewrite H2. by destruct (body _).
Qed.

Lemma remove_body_spec (chunk_id : string) (w : world) :
  let index_ids := default [] (ChunkIndexMapping.get_index_ids chunk_id (index_file _ _ w)).1 in
  let w' := (remove_body Searcher searcher_remove ContainerManager chunk_id w).1 in
  (remove_body Searcher searcher_remove ContainerManager chunk_id w).2 = Ok ()
  ∧ searchers _ _ w' = all_attempted Searcher searcher_remove index_ids (searchers _ _ w)
  ∧ (∀ name s id e, (name, s) ∈ searchers _ _ w → dict_get index_ids name = Some id →
       (searcher_remove s id).2 = Raise e → RemoveFailed chunk_id name e ∈ log _ _ w')
  ∧ dict_get (ChunkIndexMapping.id_map (chunk_id_mapping_manager _ _ w')) chunk_id = None
  ∧ (ChunkIndexMapping.get_index_ids chunk_id (index_file _ _ w')).1 = None
  ∧ ChunkBlobMapping.get_blob_info chunk_id (chunk_blob_mapping_manager _ _ w') = None
  ∧ (ChunkBlobMapping.mapping (ChunkBlobMapping.init (blob_file _ _ w)).1
     = ChunkBlobMapping.mapping (chunk_blob_mapping_manager _ _ w) →
     ChunkBlobMapping.get_blob_info chunk_id (ChunkBlobMapping.init (blob_file _ _ w')).1 = None).
Proof.
  unfold remove_body.
  destruct (ChunkIndexMapping.get_index_ids chunk_id (index_file _ _ w)) as [oids ci] eqn:Eids.
  cbn [fst snd].
  set (w1 := match oids with
             | Some (entry :: ids) => _
             | _ => _
             end).
  assert (searchers _ _ w1 = all_attempted Searcher searcher_remove (default [] oids) (searchers _ _ w)
          ∧ (∀ name s id e, (name, s) ∈ searchers _ _ w → dict_get (default [] oids) name = Some id →
               (searcher_remove s id).2 = Raise e → RemoveFailed chunk_id name e ∈ log _ _ w1)
          ∧ chunk_blob_mapping_manager _ _ w1 = chunk_blob_mapping_manager _ _ w
          ∧ blob_file _ _ w1 = blob_file _ _ w) as (Hss & Hlog & Hcb & Hbf).
  { subst w1. destruct oids as [[|entry ids]|]; simpl.
    - rewrite all_attempted_nil. repeat split; done.
    - destruct (remove_from_searchers_spec chunk_id (entry :: ids) (searchers _ _ w)) as [H1 H2].
      destruct (remove_from_searchers _ _ _ _ _) as [ss warnings]. simpl in *.
      repeat split; try done. intros name s id e Hin Hg Hr.
      apply elem_of_app. right. by eapply H2.
    - rewrite all_attempted_nil. repeat split; done. }
  simpl.
  destruct (index_remove_mapping_spec chunk_id (index_file _ _ w1)) as [Hi1 Hi2].
  destruct (blob_remove_mapping_spec chunk_id (chunk_blob_mapping_manager _ _ w1)
              (blob_file _ _ w1)) as [Hb1 Hb2].
  rewrite Hcb, Hbf in Hb1, Hb2.
  repeat split; try done.
  - intros name s id e Hin Hg Hr. apply elem_of_app. left. by eapply Hlog.
  - by rewrite Hcb, Hbf.
  - by rewrite Hcb, Hbf.
Qed.

(** C3.  Where the two leases are granted, [remove] returns without
    raising, whatever the searchers do: every searcher named in the chunk's
    index ids has its [remove] called, a searcher that raises is logged, and
    afterwards neither mapping object nor mapping file holds the chunk (the
    file of the blob mapping: when the object was in step with its file). *)
Theorem remove_cleans_mappings (chunk_id : string) (w : world) cm1 id1 cm2 id2 :
  acquire_lease (container_manager _ _ w) db_container chunk_index_mapping_file = (cm1, Ok id1) →
  acquire_lease cm1 db_container chunk_blob_mapping_file = (cm2, Ok id2) →
  let index_ids := default [] (ChunkIndexMapping.get_index_ids chunk_id (index_file _ _ w)).1 in
  ∃ w', remove chunk_id w = (w', Ok ())
    ∧ searchers _ _ w' = all_attempted Searcher searcher_remove index_ids (searchers _ _ w)
    ∧ (∀ name s id e, (name, s) ∈ searchers _ _ w → dict_get index_ids name = Some id →
         (searcher_remove s id).2 = Raise e → RemoveFailed chunk_id name e ∈ log _ _ w')
    ∧ dict_get (ChunkIndexMapping.id_map (chunk_id_mapping_manager _ _ w')) chunk_id = None
    ∧ (ChunkIndexMapping.get_index_ids chunk_id (index_file _ _ w')).1 = None
    ∧ ChunkBlobMapping.get_blob_info chunk_id (chunk_blob_mapping_manager _ _ w') = None
    ∧ (ChunkBlobMapping.mapping (ChunkBlobMapping.init (blob_file _ _ w)).1
       = ChunkBlobMapping.mapping (chunk_blob_mapping_manager _ _ w) →
       ChunkBlobMapping.get_blob_info chunk_id (ChunkBlobMapping.init (blob_file _ _ w')).1 = None).
Proof.
  intros Hacq1 Hacq2 index_ids.
  unfold ChunkMappingManager.remove. rewrite (with_leases_granted _ _ _ _ _ _ Hacq1 Hacq2).
  set (w0 := set_container_manager _ _ cm2 (set_container_manager _ _ cm1 w)).
  destruct (remove_body_spec chunk_id w0) as (Hr & Hss & Hlog & Hi1 & Hi2 & Hb1 & Hb2).
  eexists. split; [by rewrite Hr|].
  destruct (release_if_frame (Some id1) chunk_index_mapping_file
              (remove_body Searcher searcher_remove ContainerManager chunk_id w0).1)
    as (F1 & F2 & F3 & F4 & F5 & F6).
  destruct (release_if_frame (Some id2) chunk_blob_mapping_file
              (release_if (Some id1) chunk_index_mapping_file
                 (remove_body Searcher searcher_remove ContainerManager chunk_id w0).1))
    as (G1 & G2 & G3 & G4 & G5 & G6).
  cbv zeta in *.
  rewrite G1, G2, G3, G4, G5, G6, F1, F2, F3, F4, F5, F6.
  done.
Qed.
Lemma add_to_searchers_ok text ss index_ids :
  (∀ s text, ∃ s' id ids, searcher_add s text = (s', Ok (id :: ids))) →
  ∃ ss' ids', add_to_searchers Searcher searcher_add text ss index_ids = (ss', Ok ids').
Proof.
  intros Hadd. revert index_ids. induction ss as [|[name s] ss IH]; intros index_ids; simpl.
  - by eexists _, _.
  - destruct (Hadd s text) as (s' & id & ids & ->).
    destruct (IH (dict_set index_ids name id)) as (ss' & ids' & ->). by eexists _, _.
Qed.

Lemma add_chunks_cons blob_container blob_name text texts added (w : world) :
  (∀ s text, ∃ s' id ids, searcher_add s text = (s', Ok (id :: ids))) →
  ∃ w2,
    add_chunks Searcher searcher_add ContainerManager blob_container blob_name
               (text :: texts) added w
    = add_chunks Searcher searcher_add ContainerManager blob_container blob_name texts
               (added ++ [(pretty (ChunkIndexMapping.persisted_counter (index_file _ _ w)), text)]) w2
    ∧ ChunkIndexMapping.persisted_counter (index_file _ _ w2) = (ChunkIndexMapping.persisted_counter (index_file _ _ w) + 1)%Z
    ∧ chunk_blob_mapping_manager _ _ w2
      = (ChunkBlobMapping.add_mapping (pretty (ChunkIndexMapping.persisted_counter (index_file _ _ w)))
           blob_container blob_name (chunk_blob_mapping_manager _ _ w)).1.
Proof.
  intros Hadd. cbn [add_chunks]. rewrite get_new_id_spec. cbn [fst snd].
  destruct (add_to_searchers_ok text
              (searchers _ _ (set_index_mapping Searcher ContainerManager
                 (ChunkIndexMapping.Mk
                    (ChunkIndexMapping.id_counter (ChunkIndexMapping.load_from_storage (index_file _ _ w)).1 + 1)
                    (ChunkIndexMapping.id_map (ChunkIndexMapping.load_from_storage (index_file _ _ w)).1),
                  Json (ChunkIndexMapping.MkJson
                    (Some (ChunkIndexMapping.id_counter (ChunkIndexMapping.load_from_storage (index_file _ _ w)).1 + 1)%Z)
                    (Some (ChunkIndexMapping.id_map (ChunkIndexMapping.load_from_storage (index_file _ _ w)).1)))) w))
              [] Hadd) as (ss' & ids' & ->).
  eexists. split; [reflexivity|]. split; reflexivity.
Qed.

Lemma scenario_D_general blob_container blob_name text1 text2 (w : world) :
  (∀ cm file, ∃ cm' id, acquire_lease cm db_container file = (cm', Ok id)) →
  (∀ s text, ∃ s' id ids, searcher_add s text = (s', Ok (id :: ids))) →
  let n := ChunkIndexMapping.persisted_counter (index_file _ _ w) in
  let m := ChunkBlobMapping.mapping (chunk_blob_mapping_manager _ _ w) in
  ChunkBlobMapping.grouped m (ChunkBlobMapping.key blob_container blob_name) = [] →
  dict_get m (pretty n) = None →
  dict_get m (pretty (n + 1)%Z) = None →
  ∃ w', add blob_container blob_name [text1; text2] w
        = (w', Ok [(pretty n, text1); (pretty (n + 1)%Z, text2)])
    ∧ ChunkBlobMapping.get_chunk_ids_by_blob blob_container blob_name
        (chunk_blob_mapping_manager _ _ w')
      = [pretty n; pretty (n + 1)%Z].
Proof.
  intros Hlease Hadd n m Hnone Hn1 Hn2.
  destruct (Hlease (container_manager _ _ w) chunk_index_mapping_file) as (cm1 & id1 & H1).
  destruct (Hlease cm1 chunk_blob_mapping_file) as (cm2 & id2 & H2).
  unfold ChunkMappingManager.add. rewrite (with_leases_granted _ _ _ _ _ _ H1 H2).
  set (w0 := set_container_manager _ _ cm2 (set_container_manager _ _ cm1 w)).
  destruct (add_chunks_cons blob_container blob_name text1 [text2] [] w0 Hadd)
    as (w1 & -> & Hc1 & Hm1).
  destruct (add_chunks_cons blob_container blob_name text2 []
              ([] ++ [(pretty (ChunkIndexMapping.persisted_counter (index_file _ _ w0)), text1)]) w1 Hadd)
    as (w2 & -> & Hc2 & Hm2).
  cbn [add_chunks fst snd]. rewrite Hc1. change (ChunkIndexMapping.persisted_counter (index_file _ _ w0)) with n.
  eexists. split; [reflexivity|].
  destruct (release_if_frame (Some id1) chunk_index_mapping_file w2) as (_ & _ & F3 & _).
  destruct (release_if_frame (Some id2) chunk_blob_mapping_file
              (release_if (Some id1) chunk_index_mapping_file w2)) as (_ & _ & G3 & _).
  cbv zeta in *. rewrite G3, F3, Hm2, Hm1, Hc1.
  change (ChunkIndexMapping.persisted_counter (index_file _ _ w0)) with n.
  change (chunk_blob_mapping_manager _ _ w0) with (chunk_blob_mapping_manager _ _ w).
  unfold ChunkBlobMapping.add_mapping, ChunkBlobMapping.get_chunk_ids_by_blob. cbn [fst ChunkBlobMapping.mapping ChunkBlobMapping.reverse_mapping].
  rewrite update_reverse_mapping_spec. fold m.
  rewrite (dict_set_new m) by done.
  rewrite dict_set_new.
  - rewrite !grouped_app, Hnone. unfold ChunkBlobMapping.grouped. rewrite !filter_cons, !filter_nil. simpl.
    rewrite !decide_True by done. done.
  - rewrite dict_get_app, Hn2. simpl. rewrite decide_False; [done|].
    intros Heq. apply (inj pretty) in Heq. lia.
Qed.
(** C7.  The reverse index of a mapping object is, after the construction
    and after every call, the grouping of the forward map by the key of the
    blob, in the order of the forward map, and [get_chunk_ids_by_blob]
    returns that group.  Scenario D: where the leases are granted and the
    searchers accept the texts, the manager's [add] of two texts for a blob
    that has no chunk yet returns the next two chunk ids, and
    [get_chunk_ids_by_blob] then returns those two, in that order. *)
Theorem reverse_index_follows_forward_map blob_container blob_name text1 text2 (w : world) :
  (∀ cm file, ∃ cm' id, acquire_lease cm db_container file = (cm', Ok id)) →
  (∀ s text, ∃ s' id ids, searcher_add s text = (s', Ok (id :: ids))) →
  let n := ChunkIndexMapping.persisted_counter (index_file _ _ w) in
  let m := ChunkBlobMapping.mapping (chunk_blob_mapping_manager _ _ w) in
  ChunkBlobMapping.grouped m (ChunkBlobMapping.key blob_container blob_name) = [] →
  dict_get m (pretty n) = None →
  dict_get m (pretty (n + 1)%Z) = None →
  (∀ calls file,
     ChunkBlobMapping.reverse_ok (ChunkBlobMapping.run calls file).1
     ∧ ∀ container_name name,
         ChunkBlobMapping.get_chunk_ids_by_blob container_name name
           (ChunkBlobMapping.run calls file).1
         = ChunkBlobMapping.grouped
             (ChunkBlobMapping.mapping (ChunkBlobMapping.run calls file).1)
             (ChunkBlobMapping.key container_name name))
  ∧ ∃ w', add blob_container blob_name [text1; text2] w
          = (w', Ok [(pretty n, text1); (pretty (n + 1)%Z, text2)])
      ∧ ChunkBlobMapping.get_chunk_ids_by_blob blob_container blob_name
          (chunk_blob_mapping_manager _ _ w')
        = [pretty n; pretty (n + 1)%Z].
Proof.
  intros Hlease Hadd n m Hnone Hn1 Hn2. split.
  - intros calls file. split; [apply run_reverse_ok|].
    intros. apply get_chunk_ids_by_blob_grouped, run_reverse_ok.
  - by apply scenario_D_general.
Qed.

End Facts.
Lemma example_leases_granted (cm : Lease.manager) (file : string) :
  ∃ cm' id, Example.acquire_lease cm db_container file = (cm', Ok id).
Proof. by eexists _, _. Qed.

Lemma example_searchers_accept (s : Example.searcher) (text : string) :
  ∃ s' id ids, Example.searcher_add s text = (s', Ok (id :: ids)).
Proof. by eexists _, _, _. Qed.

Lemma reverse_index_follows_forward_map_witness :
  ChunkBlobMapping.grouped
    (ChunkBlobMapping.mapping (chunk_blob_mapping_manager _ _ Example.world0))
    (ChunkBlobMapping.key "docs" "a.pdf") = []
  ∧ ∃ w', add Example.searcher Example.searcher_add Lease.manager Example.acquire_lease
            Example.release_lease "docs" "a.pdf" ["t1"; "t2"] Example.world0
          = (w', Ok [("0", "t1"); ("1", "t2")])
      ∧ ChunkBlobMapping.get_chunk_ids_by_blob "docs" "a.pdf"
          (chunk_blob_mapping_manager _ _ w')
        = ["0"; "1"].
Proof.
  split; [reflexivity|].
  exact (proj2 (reverse_index_follows_forward_map Example.searcher_add Example.acquire_lease
                  Example.release_lease "docs" "a.pdf" "t1" "t2" Example.world0
                  example_leases_granted example_searchers_accept eq_refl eq_refl eq_refl)).
Defined.

Lemma remove_cleans_mappings_witness :
  ∃ cm1 cm2,
    Example.acquire_lease (container_manager _ _ Example.world7) db_container
      chunk_index_mapping_file = (cm1, Ok "lease-1")
    ∧ Example.acquire_lease cm1 db_container chunk_blob_mapping_file = (cm2, Ok "lease-1")
    ∧ ∃ w', remove Example.searcher Example.searcher_remove Lease.manager
              Example.acquire_lease Example.release_lease "7" Example.world7 = (w', Ok ())
        ∧ RemoveFailed "7" "keyword" ValueError ∈ log _ _ w'
        ∧ ChunkBlobMapping.get_blob_info "7" (chunk_blob_mapping_manager _ _ w') = None
        ∧ (ChunkIndexMapping.get_index_ids "7" (index_file _ _ w')).1 = None.
Proof.
  eexists _, _. split; [reflexivity|]. split; [reflexivity|].
  destruct (remove_cleans_mappings Example.searcher_remove Example.acquire_lease
              Example.release_lease "7" Example.world7 _ _ _ _ eq_refl eq_refl)
    as (w' & Hr & _ & Hlog & _ & Hi & Hb & _).
  exists w'. split; [exact Hr|]. split; [|split; [exact Hb|exact Hi]].
  apply (Hlog "keyword" (Example.Searcher 0 [] true) 3 ValueError);
    [apply elem_of_cons; by left|reflexivity|reflexivity].
Defined.

End ManagerFacts.


(** ** Facts: the lease lock *)

Module LeaseFacts.
Import Lease.

Lemma attempts_while_leased s key n d r m :
  (∀ t, lease_state_at s t = Leased) → r ≤ n →
  attempts s key n d r m
  = (Manager (leases m) (now m + d * (r - 1)) (trace m ++ blocked_trace d r (now m)),
     Raise AzureError).
Proof.
  intros Hleased. revert m. induction r as [|r IH]; intros m Hr.
  - simpl. rewrite Nat.mul_0_r, Nat.add_0_r, app_nil_r. by destruct m.
  - cbn [attempts]. rewrite decide_True by apply Hleased.
    destruct r as [|r].
    + rewrite decide_False by lia. simpl.
      rewrite Nat.mul_0_r, Nat.add_0_r. done.
    + rewrite decide_True by lia. rewrite IH by lia.
      unfold sleep, record; simpl. f_equal. f_equal; [lia|].
      rewrite <- !app_assoc. done.
Qed.

(** C8.  On a resource that exists and whose lease state is [Leased] at
    every instant, [acquire_lease] with the default budget reads the
    properties twelve times, sleeps five time units between two readings
    (eleven sleeps, none after the last reading), never asks for the lease,
    and then raises AzureError, 55 time units after the call. *)
Theorem acquire_lease_contended s container_name blob_name m :
  get_client s = Ok () →
  (∀ t, lease_state_at s t = Leased) →
  let t := now m in
  acquire_lease s container_name blob_name max_retries_default retry_delay_default m
  = (Manager (leases m) (t + 55)
       (trace m ++
        [GetProperties t; Sleep 5; GetProperties (t + 5); Sleep 5;
         GetProperties (t + 10); Sleep 5; GetProperties (t + 15); Sleep 5;
         GetProperties (t + 20); Sleep 5; GetProperties (t + 25); Sleep 5;
         GetProperties (t + 30); Sleep 5; GetProperties (t + 35); Sleep 5;
         GetProperties (t + 40); Sleep 5; GetProperties (t + 45); Sleep 5;
         GetProperties (t + 50); Sleep 5; GetProperties (t + 55)]),
     Raise AzureError).
Proof.
  intros Hclient Hleased t. unfold acquire_lease. rewrite Hclient.
  rewrite attempts_while_leased by done.
  unfold max_retries_default, retry_delay_default. subst t. simpl blocked_trace.
  repeat (f_equal; try lia).
Qed.

Lemma acquire_lease_contended_witness :
  get_client always_leased = Ok ()
  ∧ (∀ t, lease_state_at always_leased t = Leased)
  ∧ acquire_lease always_leased "docs" (Some "a.pdf") 12 5 (Manager [] 0 [])
    = (Manager [] 55
        [GetProperties 0; Sleep 5; GetProperties 5; Sleep 5;
         GetProperties 10; Sleep 5; GetProperties 15; Sleep 5;
         GetProperties 20; Sleep 5; GetProperties 25; Sleep 5;
         GetProperties 30; Sleep 5; GetProperties 35; Sleep 5;
         GetProperties 40; Sleep 5; GetProperties 45; Sleep 5;
         GetProperties 50; Sleep 5; GetProperties 55], Raise AzureError).
Proof.
  split; [reflexivity|]. split; [reflexivity|].
  exact (acquire_lease_contended always_leased "docs" (Some "a.pdf") (Manager [] 0 [])
           eq_refl (λ _, eq_refl)).
Defined.
End LeaseFacts.


(** ** Facts: the vector index manager *)

Module VoyagerFacts.
Import Voyager.

Lemma init_keeps_index_with_vectors (i : Index) nd st m :
  idx_len i ≠ 0 → init (Some i) nd st = Ok m → index m = i ∧ stats m = Raise AttributeError.
Proof.
  intros Hlen. unfold init. destruct (space_map st); [|done].
  assert (truthy i = true) as -> by (unfold truthy; apply negb_true_iff, Nat.eqb_neq, Hlen).
  by intros [= <-].
Qed.

(** C10.  A manager constructed with an index that holds a vector keeps
    that index and never assigns the dimension attribute, so [stats] raises
    AttributeError; [load_from_byte] and [load_from_file] construct their
    manager this way from the index [Index.load] returns, and raise what
    [Index.load] raises.  But an index that holds no vector is falsy in
    [if index:]: constructed with the empty Euclidean index of 128
    dimensions and [ndims=3], the manager drops the index it was given,
    creates a cosine index of 3 dimensions, assigns the dimension
    attribute, and [stats] returns. *)
Theorem stats_of_a_given_index :
  (∀ (i : Index) nd st m,
     idx_len i ≠ 0 → init (Some i) nd st = Ok m →
     index m = i ∧ stats m = Raise AttributeError)
  ∧ (∀ bytes (Index_load : bytes → result Index) data i,
       Index_load data = Ok i → idx_len i ≠ 0 →
       ∃ m, load_from_byte Index_load data = Ok m
            ∧ index m = i ∧ stats m = Raise AttributeError)
  ∧ (∀ (Index_load_file : string → result Index) file_path i,
       Index_load_file file_path = Ok i → idx_len i ≠ 0 →
       ∃ m, load_from_file Index_load_file file_path = Ok m
            ∧ index m = i ∧ stats m = Raise AttributeError)
  ∧ (∀ bytes (Index_load : bytes → result Index) data e,
       Index_load data = Raise e → load_from_byte Index_load data = Raise e)
  ∧ init (Some (new_Index Euclidean 128)) 3 "cosine"
    = Ok (Manager Cosine (new_Index Cosine 3) (Some 3))
  ∧ stats (Manager Cosine (new_Index Cosine 3) (Some 3)) = Ok (Stats 0 3 Cosine).
Proof.
  split; [intros i nd st m; apply init_keeps_index_with_vectors|].
  split; [|split; [|split; [|by split]]].
  - intros bytes Index_load data i Hload Hlen. unfold load_from_byte. rewrite Hload.
    destruct (init (Some i) 3072 "cosine") as [m|e] eqn:E.
    + exists m. split; [done|]. by apply (init_keeps_index_with_vectors i 3072 "cosine").
    + unfold init in E. simpl in E. by destruct (truthy i).
  - intros Index_load_file file_path i Hload Hlen. unfold load_from_file. rewrite Hload.
    destruct (init (Some i) 3072 "cosine") as [m|e] eqn:E.
    + exists m. split; [done|]. by apply (init_keeps_index_with_vectors i 3072 "cosine").
    + unfold init in E. simpl in E. by destruct (truthy i).
  - intros bytes Index_load data e Hload. unfold load_from_byte. by rewrite Hload.
Qed.

End VoyagerFacts.


(** ** Facts: the lexical index manager, for every ranking library *)

Module BM25Facts.
Import BM25.

Lemma filter_all {A} (P : A → Prop) `{∀ x, Decision (P x)} (l : list A) :
  Forall P l → filter P l = l.
Proof.
  induction 1 as [|x l Hx Hl IH]; [done|]. by rewrite filter_cons_True, IH.
Qed.

Lemma filter_none {A} (P : A → Prop) `{∀ x, Decision (P x)} (l : list A) :
  Forall (λ x, ¬ P x) l → filter P l = [].
Proof.
  induction 1 as [|x l Hx Hl IH]; [done|]. by rewrite filter_cons_False.
Qed.

Lemma enumerate_from {A} (P : nat → Prop) `{∀ i, Decision (P i)} (l : list A) k :
  (filter (λ p, P p.1) (imap (λ i x, (k + i, x)) l)).*1 = filter P (seq k (length l)).
Proof.
  revert k. induction l as [|x l IH]; intros k; [done|].
  cbn [imap length seq]. rewrite !filter_cons. cbn [fst]. rewrite Nat.add_0_r.
  rewrite (imap_ext _ (λ i x, (S k + i, x))) by (intros; simpl; f_equal; lia).
  destruct (decide (P k)); cbn [fmap list_fmap fst]; by rewrite <- IH.
Qed.

Lemma enumerate_fst {A} (l : list A) : (enumerate l).*1 = seq 0 (length l).
Proof.
  unfold enumerate. pose proof (enumerate_from (λ _, True) l 0) as H.
  rewrite !filter_all in H by (by apply Forall_true). done.
Qed.

Lemma enumerate_snd {A} (l : list A) : (enumerate l).*2 = l.
Proof.
  unfold enumerate. rewrite fmap_imap.
  rewrite (imap_ext _ (λ _ x, x)) by done.
  induction l as [|x l IH]; [done|]. rewrite imap_cons. f_equal.
  rewrite (imap_ext _ (λ _ x, x)) by done. done.
Qed.

Lemma insert_desc_Forall (P : nat * R → Prop) x l :
  P x → Forall P l → Forall P (insert_desc x l).
Proof.
  intros Hx. induction 1 as [|y l Hy Hl IH]; simpl.
  - by constructor.
  - destruct (Rlt_dec x.2 y.2); repeat constructor; done.
Qed.

Lemma sorted_desc_Forall (P : nat * R → Prop) l :
  Forall P l → Forall P (sorted_desc l).
Proof.
  induction 1 as [|x l Hx Hl IH]; simpl; [constructor|].
  by apply insert_desc_Forall.
Qed.

Lemma insert_desc_length x l : length (insert_desc x l) = S (length l).
Proof.
  induction l as [|y l IH]; simpl; [done|].
  destruct (Rlt_dec x.2 y.2); simpl; by rewrite ?IH.
Qed.

Lemma sorted_desc_length l : length (sorted_desc l) = length l.
Proof.
  induction l as [|x l IH]; simpl; [done|]. by rewrite insert_desc_length, IH.
Qed.

Lemma insert_desc_sorted x l :
  StronglySorted ranked_before l → Forall (λ y, x.1 < y.1) l →
  StronglySorted ranked_before (insert_desc x l).
Proof.
  induction 1 as [|y l Hl IH Hy]; intros Hx; simpl.
  - repeat constructor.
  - apply Forall_cons in Hx as [Hxy Hx].
    destruct (Rlt_dec x.2 y.2) as [Hlt|Hge].
    + constructor; [by apply IH|].
      apply insert_desc_Forall; [by left|done].
    + constructor; [by constructor|].
      constructor.
      * unfold ranked_before. destruct (Rlt_dec y.2 x.2); [by left|right].
        split; [lra|done].
      * rewrite Forall_forall in Hy, Hx |- *. intros z Hz.
        specialize (Hy z Hz). specialize (Hx z Hz). unfold ranked_before in *.
        destruct (Rlt_dec z.2 x.2); [by left|right]. split; [lra|done].
Qed.

Lemma sorted_desc_sorted (l : list R) k :
  StronglySorted ranked_before (sorted_desc (imap (λ i x, (k + i, x)) l))
  ∧ Forall (λ p, k ≤ p.1 < k + length l) (sorted_desc (imap (λ i x, (k + i, x)) l)).
Proof.
  revert k. induction l as [|x l IH]; intros k; [by repeat constructor|].
  rewrite imap_cons. cbn [sorted_desc].
  rewrite (imap_ext _ (λ i x, (S k + i, x))) by (intros; simpl; f_equal; lia).
  destruct (IH (S k)) as [IH1 IH2]. split.
  - apply insert_desc_sorted; [done|].
    eapply Forall_impl; [exact IH2|]. simpl. lia.
  - apply insert_desc_Forall; [simpl; lia|].
    eapply Forall_impl; [exact IH2|]. simpl. lia.
Qed.

Lemma sorted_desc_enumerate (scores : list R) :
  StronglySorted ranked_before (sorted_desc (enumerate scores))
  ∧ Forall (λ p, p.1 < length scores) (sorted_desc (enumerate scores)).
Proof.
  destruct (sorted_desc_sorted scores 0) as [H1 H2]. split; [done|].
  eapply Forall_impl; [exact H2|]. simpl. lia.
Qed.

Lemma slice_to_take {A} (k : Z) (l : list A) :
  (0 ≤ k)%Z → slice_to k l = take (Z.to_nat k) l.
Proof. intros Hk. unfold slice_to. by rewrite (proj2 (Z.leb_le 0 k) Hk). Qed.

Lemma slice_to_is_take {A} (k : Z) (l : list A) : ∃ n, slice_to k l = take n l.
Proof. unfold slice_to. destruct (0 <=? k)%Z; by eexists. Qed.

Lemma StronglySorted_take {A} (R : relation A) n l :
  StronglySorted R l → StronglySorted R (take n l).
Proof.
  intros H. revert n. induction H as [|x l Hl IH Hx]; intros [|n]; simpl; try constructor.
  - apply IH.
  - by apply Forall_take.
Qed.

Lemma StronglySorted_lt_lookup (act : list nat) a b i j :
  StronglySorted lt act → act !! a = Some i → act !! b = Some j → a < b → i < j.
Proof.
  intros Hs. revert a b. induction Hs as [|x act Hs IH Hx]; intros a b Ha Hb Hab; [done|].
  destruct b as [|b]; [lia|]. destruct a as [|a]; simpl in *.
  - simplify_eq. rewrite Forall_forall in Hx. apply Hx. by eapply list_elem_of_lookup_2.
  - eapply IH; [done..|lia].
Qed.

Lemma ranked_hits (act : list nat) (top_n : list (nat * R)) (ids : list nat) :
  StronglySorted lt act →
  StronglySorted ranked_before top_n →
  Forall2 (λ p i, act !! p.1 = Some i) top_n ids →
  StronglySorted ranked_before (zip ids top_n.*2).
Proof.
  intros Hact Hs H2. induction H2 as [|p i top_n ids Hp H2 IH]; [constructor|].
  apply StronglySorted_inv in Hs as [Hs Hall]. cbn [fmap list_fmap zip zip_with].
  constructor; [by apply IH|].
  clear IH Hs. induction H2 as [|q j top_n ids Hq H2 IH]; [constructor|].
  apply Forall_cons in Hall as [Hpq Hall]. cbn [fmap list_fmap zip zip_with].
  constructor; [|by apply IH].
  destruct Hpq as [Hlt|[Heq Hidx]]; [by left|right]. split; [done|]. simpl.
  by eapply StronglySorted_lt_lookup.
Qed.

Lemma insert_desc_perm x l : insert_desc x l ≡ₚ x :: l.
Proof.
  induction l as [|y l IH]; simpl; [done|].
  destruct (Rlt_dec x.2 y.2); [|done]. rewrite IH. apply Permutation_swap.
Qed.

Lemma sorted_desc_perm l : sorted_desc l ≡ₚ l.
Proof.
  induction l as [|x l IH]; simpl; [done|]. by rewrite insert_desc_perm, IH.
Qed.

Lemma hits_NoDup (act : list nat) (top_n : list (nat * R)) (ids : list nat) :
  NoDup act → NoDup top_n.*1 →
  Forall2 (λ p i, act !! p.1 = Some i) top_n ids → NoDup ids.
Proof.
  intros Hact Hnd H2. induction H2 as [|p i top_n ids Hp H2 IH]; [constructor|].
  rewrite fmap_cons in Hnd. apply NoDup_cons in Hnd as [Hp' Hnd].
  constructor; [|by apply IH]. intros Hi.
  apply list_elem_of_lookup in Hi as [n Hn].
  destruct (Forall2_lookup_r _ _ _ n i H2 Hn) as (q & Hq & Hqi).
  assert (p.1 = q.1) as Heq by exact (NoDup_lookup act _ _ i Hact Hp Hqi).
  apply Hp'. rewrite Heq. apply list_elem_of_fmap. exists q. split; [done|].
  by eapply list_elem_of_lookup_2.
Qed.

Lemma StronglySorted_lt_NoDup (l : list nat) : StronglySorted lt l → NoDup l.
Proof.
  induction 1 as [|x l Hs IH Hx]; constructor; [|done].
  intros Hin. rewrite Forall_forall in Hx. specialize (Hx x Hin). lia.
Qed.

Section Facts.
Context (tokenize : string → list string) {Index : Type}.
Context (BM25Okapi : list (list string) → R → R → result Index).
Context (get_scores : Index → list string → list R).

Implicit Types m : @manager Index.

Lemma active_positions_fst m :
  (filter (λ p, p.1 ∉ deleted_flags m) (enumerate (docs m))).*1 = active_positions m.
Proof. exact (enumerate_from (λ i, i ∉ deleted_flags m) (docs m) 0). Qed.

Lemma active_docs_length m : length (active_docs m) = length (active_positions m).
Proof. unfold active_docs. by rewrite <- active_positions_fst, !length_fmap. Qed.

Lemma active_no_flags (idx : option Index) d a k1 b :
  active_docs (Manager idx d ∅ a k1 b) = d
  ∧ active_positions (Manager idx d ∅ a k1 b) = seq 0 (length d).
Proof.
  unfold active_docs, active_positions. cbn [deleted_flags docs].
  rewrite !filter_all by (apply Forall_true; set_solver).
  by rewrite enumerate_snd.
Qed.

Lemma active_all_tombstoned m :
  (∀ i, i < length (docs m) → i ∈ deleted_flags m) →
  active_docs m = [] ∧ active_positions m = [].
Proof.
  intros Hall.
  assert (active_positions m = []) as Hp.
  { unfold active_positions. apply filter_none, Forall_forall. intros i Hi.
    apply elem_of_seq in Hi. intros Hni. apply Hni, Hall. lia. }
  split; [|done]. apply nil_length_inv. by rewrite active_docs_length, Hp.
Qed.

Lemma active_positions_elem m i :
  i ∈ active_positions m ↔ i < length (docs m) ∧ i ∉ deleted_flags m.
Proof.
  unfold active_positions. rewrite list_elem_of_filter, elem_of_seq. intuition lia.
Qed.

Lemma active_positions_sorted m : StronglySorted lt (active_positions m).
Proof.
  unfold active_positions. generalize 0 (length (docs m)). intros k n. revert k.
  induction n as [|n IH]; intros k; [constructor|].
  cbn [seq]. rewrite filter_cons. destruct (decide _); [|apply IH].
  constructor; [apply IH|]. apply Forall_forall. intros j Hj.
  apply list_elem_of_filter in Hj as [_ Hj]. apply elem_of_seq in Hj. lia.
Qed.

Lemma update_index_ok m idx :
  BM25Okapi (tokenize <$> active_docs m) (param_k1 m) (param_b m) = Ok idx →
  update_index tokenize BM25Okapi m
  = (Manager (Some idx) (docs m) (deleted_flags m) (Some (active_positions m))
       (param_k1 m) (param_b m), Ok ()).
Proof. intros H. unfold update_index. by rewrite H. Qed.

Lemma update_index_raises m e :
  BM25Okapi (tokenize <$> active_docs m) (param_k1 m) (param_b m) = Raise e →
  update_index tokenize BM25Okapi m = (m, Raise e).
Proof. intros H. unfold update_index. by rewrite H. Qed.

Lemma update_index_consistent m m' :
  update_index tokenize BM25Okapi m = (m', Ok ()) → consistent tokenize BM25Okapi m'.
Proof.
  unfold update_index. destruct (BM25Okapi _ _ _) as [idx|] eqn:E; [|done].
  intros [= <-]. by exists idx.
Qed.

Lemma search_consistent query k m :
  scores_every_document BM25Okapi get_scores → consistent tokenize BM25Okapi m → (0 ≤ k)%Z →
  ∃ ids scores,
    search tokenize get_scores query k m = Ok (ids, scores)
    ∧ length scores = length ids
    ∧ length ids = Z.to_nat k `min` length (active_positions m)
    ∧ Forall (λ i, i < length (docs m) ∧ i ∉ deleted_flags m) ids
    ∧ StronglySorted ranked_before (zip ids scores)
    ∧ NoDup ids.
Proof.
  intros Hlib (idx & Hidx & Hact & Hbuild) Hk.
  unfold search, index_is_empty. rewrite Hidx, Hact.
  destruct (bool_decide (length (active_positions m) = 0)) eqn:Hempty.
  - apply bool_decide_eq_true in Hempty. exists [], []. rewrite Hempty.
    repeat split; try done; [simpl; lia|constructor|constructor].
  - cbv zeta. rewrite slice_to_take by done.
    set (scores := get_scores idx (tokenize query)).
    assert (length scores = length (active_positions m)) as Hlen.
    { unfold scores. rewrite (Hlib _ _ _ _ _ Hbuild), length_fmap. apply active_docs_length. }
    destruct (sorted_desc_enumerate scores) as [Hsorted Hbound].
    set (top_n := take (Z.to_nat k) (sorted_desc (enumerate scores))).
    assert (StronglySorted ranked_before top_n) as Htop by by apply StronglySorted_take.
    assert (Forall (λ p, p.1 < length (active_positions m)) top_n) as Htopb.
    { apply Forall_take. by rewrite <- Hlen. }
    destruct (mapM (λ p, active_positions m !! p.1) top_n) as [ids|] eqn:Eids.
    + apply mapM_Some in Eids. exists ids, top_n.*2.
      split; [done|]. split; [by rewrite length_fmap, (Forall2_length _ _ _ Eids)|].
      split.
      { rewrite <- (Forall2_length _ _ _ Eids). unfold top_n.
        rewrite length_take, sorted_desc_length. unfold enumerate.
        rewrite length_imap. lia. }
      split.
      { apply Forall_forall. intros i Hi.
        apply list_elem_of_lookup in Hi as [n Hn].
        destruct (Forall2_lookup_r _ _ _ n i Eids Hn) as (p & _ & Hp).
        apply active_positions_elem. by eapply list_elem_of_lookup_2. }
      split; [by apply (ranked_hits (active_positions m)); [apply active_positions_sorted|..]|].
      apply (hits_NoDup (active_positions m) top_n); [|  |done].
      { apply StronglySorted_lt_NoDup, active_positions_sorted. }
      unfold top_n. rewrite fmap_take. eapply sublist_NoDup; [|apply sublist_take].
      rewrite sorted_desc_perm, enumerate_fst. apply NoDup_seq.
    + exfalso. apply mapM_None in Eids. apply Exists_exists in Eids as (p & Hp & Hnone).
      rewrite Forall_forall in Htopb. specialize (Htopb p Hp).
      apply lookup_lt_is_Some_2 in Htopb as [? ?]. congruence.
Qed.

Lemma search_returns_all_active query k m :
  scores_every_document BM25Okapi get_scores → consistent tokenize BM25Okapi m →
  (Z.of_nat (length (active_positions m)) ≤ k)%Z →
  ∃ ids scores,
    search tokenize get_scores query k m = Ok (ids, scores)
    ∧ ids ≡ₚ active_positions m.
Proof.
  intros Hlib Hm Hk.
  destruct (search_consistent query k m Hlib Hm) as (ids & scores & Hs & _ & Hlen & Hin & _ & Hnd);
    [lia|].
  exists ids, scores. split; [done|].
  apply submseteq_length_Permutation; [|lia].
  apply NoDup_submseteq; [done|]. intros i Hi. apply active_positions_elem.
  rewrite Forall_forall in Hin. by apply Hin.
Qed.

Lemma roundtrip_consistent m :
  consistent tokenize BM25Okapi m →
  ∃ data, export m = Ok data ∧ load_from_byte tokenize BM25Okapi data = Ok m.
Proof.
  intros (idx & Hidx & Hact & Hbuild). unfold export. rewrite Hidx.
  eexists. split; [done|]. unfold load_from_byte, init. cbn [p_index p_docs p_deleted_flags p_k1 p_b].
  assert (update_index tokenize BM25Okapi
            (Manager (Some idx) (docs m) (deleted_flags m) None (param_k1 m) (param_b m))
          = (m, Ok ())) as ->.
  { unfold update_index, active_docs, active_positions in *. cbn [docs deleted_flags param_k1 param_b].
    rewrite Hbuild. destruct m; simpl in *. by rewrite Hidx, Hact. }
  assert (update_index tokenize BM25Okapi m = (m, Ok ())) as Hm.
  { unfold update_index. rewrite Hbuild. destruct m; simpl in *. by rewrite Hidx, Hact. }
  destruct (docs m); [done|]. by rewrite Hm.
Qed.

Lemma fresh_manager_spec documents ids query k idx :
  BM25Okapi (tokenize <$> as_docs documents) 1.5 0.75 = Ok idx →
  add tokenize BM25Okapi documents fresh
  = (Manager (Some idx) (as_docs documents) ∅
       (Some (seq 0 (length (as_docs documents)))) 1.5 0.75,
     Ok (seq 0 (length (as_docs documents))))
  ∧ remove tokenize BM25Okapi ids fresh = (fresh, Raise ValueError)
  ∧ search tokenize get_scores query k fresh = Ok ([], []).
Proof.
  intros Hbuild. split; [|done].
  unfold add, fresh, index_is_empty, set_docs, set_deleted_flags.
  cbn [index docs deleted_flags active_indices param_k1 param_b app length].
  rewrite Nat.sub_0_r.
  destruct (active_no_flags None (as_docs documents) None 1.5 0.75) as [Hd Hp].
  unfold update_index. rewrite Hd, Hp. cbn [docs deleted_flags param_k1 param_b].
  by rewrite Hbuild.
Qed.

(** [add] on a new manager returns only if the library builds the model
    of the documents. *)
Lemma fresh_add_inv documents m' ids :
  add tokenize BM25Okapi documents fresh = (m', Ok ids) →
  ∃ idx, BM25Okapi (tokenize <$> as_docs documents) 1.5 0.75 = Ok idx.
Proof.
  unfold add, fresh, index_is_empty, set_docs, set_deleted_flags.
  cbn [index docs deleted_flags active_indices param_k1 param_b app length].
  destruct (active_no_flags None (as_docs documents) None 1.5 0.75) as [Hd _].
  unfold update_index. rewrite Hd. cbn [docs deleted_flags param_k1 param_b].
  destruct (BM25Okapi _ _ _) as [idx|e]; [by exists idx|done].
Qed.

Lemma add_tombstoned_spec m documents idx0 act idx :
  index m = Some idx0 →
  active_indices m = Some act →
  (∀ i, i ∈ deleted_flags m ↔ i < length (docs m)) →
  let new_ids := seq (length (docs m)) (length (as_docs documents)) in
  let all_docs := docs m ++ as_docs documents in
  BM25Okapi (tokenize <$> (if decide (act = []) then all_docs else as_docs documents))
            (param_k1 m) (param_b m) = Ok idx →
  add tokenize BM25Okapi documents m
  = (Manager (Some idx) all_docs
       (if decide (act = []) then ∅ else deleted_flags m)
       (Some (if decide (act = []) then seq 0 (length all_docs) else new_ids))
       (param_k1 m) (param_b m),
     Ok new_ids).
Proof.
  intros Hidx Hact Hall new_ids all_docs Hbuild.
  unfold add, index_is_empty, set_docs.
  cbn [index docs deleted_flags active_indices param_k1 param_b].
  rewrite Hidx, Hact, length_app.
  replace (length (docs m) + length (as_docs documents) - length (docs m))
    with (length (as_docs documents)) by lia.
  fold new_ids. fold all_docs.
  destruct (decide (act = [])) as [->|Hne].
  - cbn [length bool_decide decide_rel]. rewrite bool_decide_eq_true_2 by done.
    unfold set_deleted_flags. cbn [index docs deleted_flags active_indices param_k1 param_b].
    destruct (active_no_flags (Some idx0) all_docs (Some []) (param_k1 m) (param_b m)) as [Hd Hp].
    unfold update_index. rewrite Hd, Hp. cbn [docs deleted_flags param_k1 param_b].
    by rewrite Hbuild.
  - rewrite bool_decide_eq_false_2 by (by destruct act).
    assert (active_docs (Manager (Some idx0) all_docs (deleted_flags m) (Some act)
                           (param_k1 m) (param_b m)) = as_docs documents
            ∧ active_positions (Manager (Some idx0) all_docs (deleted_flags m) (Some act)
                           (param_k1 m) (param_b m)) = new_ids) as [Hd Hp].
    { unfold active_docs, active_positions. cbn [docs deleted_flags].
      unfold all_docs, enumerate. rewrite imap_app, length_app, seq_app, !filter_app, fmap_app.
      rewrite (filter_none _ (imap _ (docs m))).
      2:{ apply Forall_forall. intros [i d] Hin. simpl. intros Hni. apply Hni, Hall.
          apply list_elem_of_lookup in Hin as [j Hj]. apply list_lookup_imap_Some in Hj
            as (d' & Hd' & [= -> ->]). by eapply lookup_lt_Some. }
      rewrite (filter_none _ (seq 0 _)).
      2:{ apply Forall_forall. intros i Hin. apply elem_of_seq in Hin. intros Hni.
          apply Hni, Hall. lia. }
      rewrite (filter_all _ (imap _ (as_docs documents))).
      2:{ apply Forall_forall. intros [i d] Hin. simpl. rewrite Hall.
          apply list_elem_of_lookup in Hin as [j Hj]. apply list_lookup_imap_Some in Hj
            as (d' & Hd' & [= -> ->]). simpl. lia. }
      rewrite (filter_all _ (seq _ _)).
      2:{ apply Forall_forall. intros i Hin. apply elem_of_seq in Hin. rewrite Hall. lia. }
      simpl. split; [|done]. rewrite fmap_imap.
      rewrite (imap_ext _ (λ _ x, x)) by done.
      clear. induction (as_docs documents) as [|x l IH]; [done|].
      rewrite imap_cons. f_equal. by rewrite (imap_ext _ (λ _ x, x)). }
    unfold update_index. rewrite Hd, Hp. cbn [docs deleted_flags param_k1 param_b].
    by rewrite Hbuild.
Qed.

Lemma add_ok_consistent documents m m' ids :
  add tokenize BM25Okapi documents m = (m', Ok ids) → consistent tokenize BM25Okapi m'.
Proof.
  unfold add. destruct (index_is_empty _) as [empty|]; [|done].
  destruct (update_index _ _ _) as [m3 [[]|e]] eqn:Eu; [|done].
  intros [= <- _]. by eapply update_index_consistent.
Qed.

End Facts.
End BM25Facts.


(** ** Facts: the ranking library *)

Module RankFacts.
Import RankBM25.

Lemma BM25Okapi_empty k1 b : BM25Okapi [] k1 b = Raise ZeroDivisionError.
Proof. reflexivity. Qed.

Lemma BM25Okapi_shape corpus k1 b i :
  BM25Okapi corpus k1 b = Ok i →
  corpus_size i = length corpus ∧ length (doc_freqs i) = length corpus
  ∧ length (doc_len i) = length corpus ∧ corpus ≠ [].
Proof.
  unfold BM25Okapi. destruct (decide (length corpus = 0)) as [|Hne]; [done|].
  destruct (calc_idf _ _ _); [|done]. intros [= <-]; simpl.
  rewrite !length_fmap. repeat split. by intros ->.
Qed.

Lemma get_scores_length corpus k1 b i query :
  BM25Okapi corpus k1 b = Ok i → length (get_scores i query) = length corpus.
Proof.
  intros (Hn & Hf & Hl & _)%BM25Okapi_shape. unfold get_scores.
  assert (∀ score, length score = length corpus →
    length (foldl (λ score q, zip_with Rplus score
              (zip_with (term_score i q) (doc_freqs i) (doc_len i))) score query)
    = length corpus) as Hgen.
  { induction query as [|q query IH]; intros score Hs; [done|]. simpl.
    apply IH. rewrite !length_zip_with. lia. }
  apply Hgen. by rewrite length_replicate.
Qed.

Lemma dict_get_bump d w w' :
  dict_get (dict_bump d w) w'
  = if decide (w = w') then Some (S (default 0 (dict_get d w'))) else dict_get d w'.
Proof.
  induction d as [|[k v] d IH]; simpl.
  - by repeat case_decide; simplify_eq.
  - destruct (decide (k = w)) as [->|Hkw]; simpl.
    + by destruct (decide (w = w')).
    + rewrite IH. destruct (decide (k = w')) as [->|Hkw']; [|done].
      by rewrite decide_False.
Qed.

Lemma dict_bump_keys d w :
  NoDup d.*1 → NoDup (dict_bump d w).*1 ∧ ∀ k, k ∈ (dict_bump d w).*1 ↔ k = w ∨ k ∈ d.*1.
Proof.
  induction d as [|[k v] d IH]; simpl; intros Hnd.
  - split; [apply NoDup_singleton|]. intros k. set_solver.
  - apply NoDup_cons in Hnd as [Hk Hnd]. destruct (IH Hnd) as [IH1 IH2].
    case_decide; simplify_eq; simpl.
    + split; [by apply NoDup_cons|]. set_solver.
    + split.
      * apply NoDup_cons. split; [|done]. rewrite IH2. set_solver.
      * intros k'. rewrite !elem_of_cons, IH2. set_solver.
Qed.

Lemma frequencies_keys document :
  NoDup (frequencies document).*1 ∧ ∀ k, k ∈ (frequencies document).*1 ↔ k ∈ document.
Proof.
  unfold frequencies.
  assert (∀ d, NoDup d.*1 →
    NoDup (foldl dict_bump d document).*1
    ∧ ∀ k, k ∈ (foldl dict_bump d document).*1 ↔ k ∈ d.*1 ∨ k ∈ document) as Hgen.
  { induction document as [|w document IH]; intros d Hd; simpl.
    - split; [done|]. set_solver.
    - destruct (dict_bump_keys d w Hd) as [H1 H2].
      destruct (IH _ H1) as [H3 H4]. split; [done|].
      intros k. rewrite H4, H2. set_solver. }
  destruct (Hgen [] (NoDup_nil_2)) as [H1 H2]. split; [done|].
  intros k. rewrite H2. set_solver.
Qed.

Lemma count_documents_get nd freqs w :
  NoDup freqs.*1 →
  dict_get (count_documents nd freqs) w
  = if decide (w ∈ freqs.*1) then Some (S (default 0 (dict_get nd w))) else dict_get nd w.
Proof.
  unfold count_documents. revert nd.
  induction freqs as [|[k v] freqs IH]; intros nd Hnd.
  - done.
  - rewrite fmap_cons in Hnd |- *. cbn [foldl fst].
    apply NoDup_cons in Hnd as [Hk Hnd]. rewrite (IH _ Hnd), dict_get_bump.
    destruct (decide (k = w)) as [->|Hkw].
    + rewrite (decide_False (P := w ∈ freqs.*1)) by done.
      rewrite decide_True; [done|set_solver].
    + destruct (decide (w ∈ freqs.*1)).
      * rewrite decide_True; [done|set_solver].
      * rewrite decide_False; [done|set_solver].
Qed.

Lemma dict_get_fmap {V W} (f : V → W) (d : dict V) w :
  dict_get ((λ p, (p.1, f p.2)) <$> d) w = f <$> dict_get d w.
Proof.
  induction d as [|[k v] d IH]; simpl; [done|]. by case_decide.
Qed.

Lemma BM25Okapi_fields corpus k1 b i :
  BM25Okapi corpus k1 b = Ok i →
  ∃ eps, idf i = floor_idf eps ((λ p, (p.1, raw_idf (length corpus) p.2)) <$> nd_of corpus)
    ∧ doc_freqs i = frequencies <$> corpus
    ∧ doc_len i = length <$> corpus
    ∧ corpus_size i = length corpus
    ∧ RankBM25.k1 i = k1 ∧ RankBM25.b i = b.
Proof.
  unfold BM25Okapi, calc_idf. destruct (decide (length corpus = 0)); [done|].
  destruct (decide _); [done|]. intros [= <-]. by eexists.
Qed.

Lemma BM25Okapi_builds corpus k1 b :
  corpus ≠ [] → nd_of corpus ≠ [] → ∃ i, BM25Okapi corpus k1 b = Ok i.
Proof.
  intros Hc Hnd. unfold BM25Okapi, calc_idf.
  rewrite decide_False by (by destruct corpus).
  rewrite decide_False by (rewrite length_fmap; by destruct (nd_of corpus)).
  by eexists.
Qed.

Lemma BM25Okapi_raises corpus k1 b e :
  BM25Okapi corpus k1 b = Raise e →
  e = ZeroDivisionError ∧ (corpus = [] ∨ nd_of corpus = []).
Proof.
  unfold BM25Okapi, calc_idf. destruct (decide (length corpus = 0)) as [H0|].
  - intros [= <-]. split; [done|]. left. by destruct corpus.
  - destruct (decide _) as [H0|]; [|done]. intros [= <-]. split; [done|]. right.
    rewrite length_fmap in H0. by destruct (nd_of corpus).
Qed.

(** In a corpus of two documents a word of exactly one of them has idf
    [ln 1.5 - ln 1.5]. *)
Lemma nd_of_two_docs t0 t1 w :
  w ∈ t0 → w ∉ t1 → dict_get (nd_of [t0; t1]) w = Some 1.
Proof.
  intros H0 H1. unfold nd_of. cbn [foldl].
  destruct (frequencies_keys t0) as [Hnd0 Hk0]. destruct (frequencies_keys t1) as [Hnd1 Hk1].
  rewrite count_documents_get by done. rewrite decide_False by (by rewrite Hk1).
  rewrite count_documents_get by done. rewrite decide_True by (by rewrite Hk0). done.
Qed.

Lemma raw_idf_2_1 : raw_idf 2 1 = 0%R.
Proof.
  unfold raw_idf. simpl INR.
  replace (1 + 1 - 1 + 0.5)%R with (1 + 0.5)%R by lra. lra.
Qed.

Lemma dict_get_floor_idf eps d w :
  dict_get (floor_idf eps d) w = (λ v, if Rlt_dec v 0 then eps else v) <$> dict_get d w.
Proof. unfold floor_idf. exact (dict_get_fmap (λ v, if Rlt_dec v 0 then eps else v) d w). Qed.

Lemma two_docs_scores t0 t1 w k1 b i :
  w ∈ t0 → w ∉ t1 →
  BM25Okapi [t0; t1] k1 b = Ok i → get_scores i [w] = [0%R; 0%R].
Proof.
  intros H0 H1 Hi. destruct (BM25Okapi_fields _ _ _ _ Hi) as (eps & Hidf & Hf & Hl & Hn & _).
  assert (dict_get (idf i) w = Some 0%R) as Hw.
  { rewrite Hidf, dict_get_floor_idf, dict_get_fmap, (nd_of_two_docs _ _ _ H0 H1).
    cbn [fmap option_fmap option_map length]. rewrite raw_idf_2_1.
    destruct (Rlt_dec 0 0); [lra|done]. }
  unfold get_scores. rewrite Hf, Hl, Hn. cbn [foldl length replicate fmap list_fmap zip_with].
  unfold term_score. rewrite Hw. cbn [default]. by rewrite !Rmult_0_l, !Rplus_0_l.
Qed.

Lemma rank_bm25_scores_every_document : BM25.scores_every_document BM25Okapi get_scores.
Proof. intros corpus k1 b idx query. apply get_scores_length. Qed.

(** [dict_bump] never leaves an empty dictionary, so the vocabulary is
    empty exactly when no document has a token. *)
Lemma dict_bump_not_nil d w : dict_bump d w ≠ [].
Proof. destruct d as [|[k v] d]; simpl; [done|]. by destruct (decide (k = w)). Qed.

Lemma foldl_bump_nil {A} (f : A → string) (d : list (string * nat)) (l : list A) :
  foldl (λ d x, dict_bump d (f x)) d l = [] ↔ d = [] ∧ l = [].
Proof.
  revert d. induction l as [|x l IH]; intros d; simpl; [naive_solver|].
  rewrite IH. split; [|naive_solver]. intros [H _]. by apply dict_bump_not_nil in H.
Qed.

Lemma frequencies_nil document : frequencies document = [] ↔ document = [].
Proof.
  unfold frequencies. rewrite (foldl_bump_nil (λ w, w) [] document). naive_solver.
Qed.

Lemma nd_of_nil corpus : nd_of corpus = [] ↔ Forall (λ document, document = []) corpus.
Proof.
  unfold nd_of.
  assert (∀ nd, foldl (λ nd document, count_documents nd (frequencies document)) nd corpus = []
            ↔ nd = [] ∧ Forall (λ document, document = []) corpus) as Hgen.
  { induction corpus as [|document corpus IH]; intros nd; simpl.
    - split; [intros ->; by split|by intros [-> _]].
    - rewrite IH. unfold count_documents at 1. rewrite (foldl_bump_nil fst), frequencies_nil.
      rewrite Forall_cons. naive_solver. }
  rewrite Hgen. naive_solver.
Qed.

End RankFacts.


(** ** Facts: the lexical manager on the ranking library *)

Module ExampleFacts.
Import BM25Facts RankFacts Example.

Lemma index_of_builds corpus :
  corpus ≠ [] → RankBM25.nd_of corpus ≠ [] →
  ∃ i, RankBM25.BM25Okapi corpus 1.5 0.75 = Ok i ∧ index_of corpus = Some i.
Proof.
  intros Hc Hnd. destruct (BM25Okapi_builds corpus 1.5 0.75 Hc Hnd) as [i Hi].
  exists i. split; [done|]. unfold index_of. by rewrite Hi.
Qed.

Lemma search_two_zero_scores (tokenizer : string → list string) idx d0 d1 query w fl k1 b :
  tokenizer query = [w] →
  RankBM25.get_scores idx [w] = [0%R; 0%R] →
  BM25.search tokenizer RankBM25.get_scores query 5
    (BM25.Manager (Some idx) [d0; d1] fl (Some [0; 1]) k1 b)
  = Ok ([0; 1], [0%R; 0%R]).
Proof.
  intros Hq Hs. unfold BM25.search, BM25.index_is_empty.
  cbn [BM25.index BM25.active_indices length bool_decide decide_rel].
  rewrite bool_decide_eq_false_2 by done. rewrite Hq, Hs.
  cbn [enumerate imap BM25.sorted_desc BM25.insert_desc snd fst compose].
  destruct (Rlt_dec 0 0) as [Hlt|_]; [lra|]. done.
Qed.

(** Scenario A for any tokenizer that finds the query word in the first
    document only. *)
Lemma scenario_A_general (tokenizer : string → list string) d0 d1 query w :
  tokenizer query = [w] → w ∈ tokenizer d0 → w ∉ tokenizer d1 →
  ∃ idx,
    BM25.add tokenizer RankBM25.BM25Okapi (BM25.Strs [d0; d1]) BM25.fresh
    = (BM25.Manager (Some idx) [d0; d1] ∅ (Some [0; 1]) 1.5 0.75, Ok [0; 1])
    ∧ BM25.search tokenizer RankBM25.get_scores query 5
        (BM25.Manager (Some idx) [d0; d1] ∅ (Some [0; 1]) 1.5 0.75)
      = Ok ([0; 1], [0%R; 0%R]).
Proof.
  intros Hq H0 H1.
  destruct (BM25Okapi_builds [tokenizer d0; tokenizer d1] 1.5 0.75) as [idx Hidx]; [done| |].
  { intros Hnil. pose proof (nd_of_two_docs _ _ _ H0 H1) as Hw. by rewrite Hnil in Hw. }
  exists idx. split.
  - by destruct (fresh_manager_spec tokenizer RankBM25.BM25Okapi RankBM25.get_scores
                   (BM25.Strs [d0; d1]) (BM25.Int 0) query 5 idx Hidx) as [-> _].
  - apply (search_two_zero_scores _ _ _ _ _ w); [done|].
    by apply (two_docs_scores _ _ _ _ _ _ H0 H1 Hidx).
Qed.

Lemma tokenize_examples :
  tokenize "cat" = ["cat"]
  ∧ tokenize "the cat sat on the mat" = ["the"; "cat"; "sat"; "on"; "the"; "mat"]
  ∧ tokenize "the dog ran in the park" = ["the"; "dog"; "ran"; "in"; "the"; "park"]
  ∧ tokenize "a" = ["a"] ∧ tokenize "b" = ["b"] ∧ tokenize "" = [].
Proof. repeat split; reflexivity. Qed.

Lemma cat_in_first : "cat" ∈ tokenize "the cat sat on the mat".
Proof.
  rewrite (proj1 (proj2 tokenize_examples)).
  apply elem_of_cons. right. apply elem_of_cons. by left.
Qed.

Lemma cat_not_in_second : "cat" ∉ tokenize "the dog ran in the park".
Proof.
  rewrite (proj1 (proj2 (proj2 tokenize_examples))). intros Hin.
  repeat (apply elem_of_cons in Hin as [Hin|Hin]; [discriminate Hin|]).
  by apply elem_of_nil in Hin.
Qed.

Lemma index_a :
  ∃ i, RankBM25.BM25Okapi [["a"]] 1.5 0.75 = Ok i ∧ index_of [["a"]] = Some i.
Proof. apply index_of_builds; [done|]. vm_compute. done. Qed.

Lemma stale_all_tombstoned :
  BM25.active_docs stale = [] ∧ BM25.active_positions stale = [].
Proof.
  apply active_all_tombstoned. simpl. intros i Hi. assert (i = 0) as -> by lia. set_solver.
Qed.

(** [add("a")] on a new manager, then [remove(0)]: the rebuild on an empty
    corpus raises after the tombstone has been set. *)
Lemma stale_reached :
  add (BM25.Str "a") fresh
  = (BM25.Manager (index_of [["a"]]) ["a"] ∅ (Some [0]) 1.5 0.75, Ok [0])
  ∧ remove (BM25.Int 0) (BM25.Manager (index_of [["a"]]) ["a"] ∅ (Some [0]) 1.5 0.75)
    = (stale, Raise ZeroDivisionError).
Proof.
  destruct index_a as (i & Hb & Hi). rewrite Hi. split.
  - unfold add, fresh.
    by destruct (fresh_manager_spec tokenize RankBM25.BM25Okapi RankBM25.get_scores
                   (BM25.Str "a") (BM25.Int 0) "a" 5 i Hb) as [-> _].
  - unfold remove, BM25.remove. cbn [BM25.index BM25.as_ids BM25.mark_deleted foldl
      BM25.docs BM25.deleted_flags length].
    rewrite decide_True by lia. rewrite (left_id_L ∅ (∪)).
    unfold BM25.set_deleted_flags. cbn [BM25.index BM25.docs BM25.active_indices
      BM25.param_k1 BM25.param_b].
    pose proof stale_all_tombstoned as [Hd _]. unfold stale in Hd. rewrite Hi in Hd.
    unfold BM25.update_index. rewrite Hd. cbn [fmap list_fmap BM25.param_k1 BM25.param_b].
    rewrite BM25Okapi_empty. unfold stale. by rewrite Hi.
Qed.

Lemma stale_search :
  ∃ score, search "a" 5 stale = Ok ([0], [score]).
Proof.
  destruct index_a as (i & Hb & Hi). unfold stale. rewrite Hi.
  pose proof (get_scores_length _ _ _ _ (tokenize "a") Hb) as Hlen.
  destruct (RankBM25.get_scores i (tokenize "a")) as [|score [|]] eqn:Es; try done.
  exists score. unfold search, BM25.search, BM25.index_is_empty.
  cbn [BM25.index BM25.active_indices length]. rewrite bool_decide_eq_false_2 by done.
  rewrite Es. done.
Qed.

Lemma stale_roundtrip :
  ∃ data, BM25.export stale = Ok data ∧ load_from_byte data = Raise ZeroDivisionError.
Proof.
  destruct index_a as (i & Hb & Hi). unfold stale, BM25.export.
  cbn [BM25.index]. rewrite Hi. eexists. split; [done|].
  unfold load_from_byte, BM25.load_from_byte, BM25.init.
  cbn [BM25.p_index BM25.p_docs BM25.p_deleted_flags BM25.p_k1 BM25.p_b BM25.docs
       BM25.deleted_flags BM25.param_k1 BM25.param_b].
  assert (BM25.active_docs (BM25.Manager (Some i) ["a"] {[0]} None 1.5 0.75) = []) as Hd.
  { apply active_all_tombstoned. simpl. intros j Hj. assert (j = 0) as -> by lia. set_solver. }
  unfold BM25.update_index. rewrite Hd. cbn [fmap list_fmap BM25.param_k1 BM25.param_b].
  by rewrite BM25Okapi_empty.
Qed.

Lemma stale_add_nothing :
  add (BM25.Strs []) stale = (stale, Raise ZeroDivisionError).
Proof.
  destruct index_a as (i & Hb & Hi).
  pose proof stale_all_tombstoned as [Hd _]. revert Hd. unfold stale. rewrite Hi. intros Hd.
  unfold add, BM25.add, BM25.index_is_empty, BM25.set_docs.
  cbn [BM25.as_docs app BM25.docs BM25.index BM25.active_indices BM25.deleted_flags
       BM25.param_k1 BM25.param_b length].
  rewrite bool_decide_eq_false_2 by done.
  unfold BM25.update_index. rewrite Hd. cbn [fmap list_fmap BM25.param_k1 BM25.param_b].
  by rewrite BM25Okapi_empty.
Qed.

Lemma index_b :
  ∃ i, RankBM25.BM25Okapi [["b"]] 1.5 0.75 = Ok i ∧ index_of [["b"]] = Some i.
Proof. apply index_of_builds; [done|]. vm_compute. done. Qed.

Lemma stale_flags i : i ∈ BM25.deleted_flags stale ↔ i < length (BM25.docs stale).
Proof.
  simpl. split; [intros ->%elem_of_singleton; lia|].
  intros Hi. assert (i = 0) as -> by lia. by apply elem_of_singleton.
Qed.

Lemma index_a_b :
  ∃ i, RankBM25.BM25Okapi [["a"]; ["b"]] 1.5 0.75 = Ok i ∧ index_of [["a"]; ["b"]] = Some i.
Proof. apply index_of_builds; [done|]. vm_compute. done. Qed.

End ExampleFacts.


(** ** The lexical index manager: the statements of the specification *)

Module LexicalClaims.
Import BM25 BM25Facts RankFacts ExampleFacts.

Section Generic.
Context (tokenize : string → list string) {Index : Type}.
Context (BM25Okapi : list (list string) → R → R → result Index).
Context (get_scores : Index → list string → list R).

(** C4 (as amended).  On a manager on which [add] has never been called,
    [add] succeeds whenever the ranking model of the documents can be built
    and returns the positions [0 .. n-1]; [remove] fails with the state
    error ([ValueError]); [search] does not fail: it returns the pair of
    empty lists. *)
Theorem uninitialized_manager documents ids query k idx :
  BM25Okapi (tokenize <$> as_docs documents) 1.5 0.75 = Ok idx →
  add tokenize BM25Okapi documents fresh
  = (Manager (Some idx) (as_docs documents) ∅
       (Some (seq 0 (length (as_docs documents)))) 1.5 0.75,
     Ok (seq 0 (length (as_docs documents))))
  ∧ remove tokenize BM25Okapi ids fresh = (fresh, Raise ValueError)
  ∧ search tokenize get_scores query k fresh = Ok ([], []).
Proof. apply fresh_manager_spec. Qed.

End Generic.

(** C2 (as amended).  Scenario A, for every tokenizer that finds the word
    of the query in the first document only.  [add] returns the positions
    [0, 1].  Whatever the ranking library, as long as it scores every
    document, the search for "cat" returns both positions: no hit is left
    out for its score.  On rank_bm25 both scores are 0 (a word of one of two
    documents has idf [ln 1.5 - ln 1.5]) and the order is [0, 1]. *)
Theorem scenario_A (tokenizer : string → list string) :
  tokenizer "cat" = ["cat"] →
  "cat" ∈ tokenizer "the cat sat on the mat" →
  "cat" ∉ tokenizer "the dog ran in the park" →
  (∀ Index (BM25Okapi : list (list string) → R → R → result Index)
     (get_scores : Index → list string → list R) m' ids,
     scores_every_document BM25Okapi get_scores →
     add tokenizer BM25Okapi
       (Strs ["the cat sat on the mat"; "the dog ran in the park"]) fresh = (m', Ok ids) →
     ids = [0; 1]
     ∧ ∃ hits scores, search tokenizer get_scores "cat" 5 m' = Ok (hits, scores)
                      ∧ hits ≡ₚ [0; 1])
  ∧ ∃ idx,
      add tokenizer RankBM25.BM25Okapi
        (Strs ["the cat sat on the mat"; "the dog ran in the park"]) fresh
      = (Manager (Some idx) ["the cat sat on the mat"; "the dog ran in the park"] ∅
           (Some [0; 1]) 1.5 0.75, Ok [0; 1])
      ∧ search tokenizer RankBM25.get_scores "cat" 5
          (Manager (Some idx) ["the cat sat on the mat"; "the dog ran in the park"] ∅
             (Some [0; 1]) 1.5 0.75)
        = Ok ([0; 1], [0%R; 0%R]).
Proof.
  intros Hq H0 H1. split; [|by apply (scenario_A_general tokenizer _ _ "cat" "cat")].
  intros Index BM25Okapi get_scores m' ids Hlib Hadd.
  destruct (fresh_add_inv _ _ _ _ _ Hadd) as [idx Hbuild].
  destruct (fresh_manager_spec tokenizer BM25Okapi get_scores _ (Ints []) "cat" 5%Z idx Hbuild)
    as [Hadd' _].
  rewrite Hadd' in Hadd. injection Hadd as <- <-. split; [done|].
  destruct (search_returns_all_active tokenizer BM25Okapi get_scores "cat" 5
              (Manager (Some idx) ["the cat sat on the mat"; "the dog ran in the park"] ∅
                 (Some [0; 1]) 1.5 0.75) Hlib) as (hits & scores & Hs & Hperm).
  - exists idx. split; [done|].
    destruct (active_no_flags (Some idx) ["the cat sat on the mat"; "the dog ran in the park"]
                (Some [0; 1]) 1.5 0.75) as [Hd Hp].
    rewrite Hd, Hp. by split.
  - rewrite (proj2 (active_no_flags _ _ _ _ _)). simpl. lia.
  - exists hits, scores. split; [done|].
    by rewrite (proj2 (active_no_flags _ _ _ _ _)) in Hperm.
Qed.

(** C2, the exception.  Scenario A with the tokenizer of the examples: the
    search for "cat" returns two ids, and no score is positive. *)
Lemma scenario_A_returns_both :
  ∃ idx,
    Example.add (Strs ["the cat sat on the mat"; "the dog ran in the park"]) Example.fresh
    = (Manager (Some idx) ["the cat sat on the mat"; "the dog ran in the park"] ∅
         (Some [0; 1]) 1.5 0.75, Ok [0; 1])
    ∧ Example.search "cat" 5
        (Manager (Some idx) ["the cat sat on the mat"; "the dog ran in the park"] ∅
           (Some [0; 1]) 1.5 0.75)
      = Ok ([0; 1], [0%R; 0%R]).
Proof.
  apply (scenario_A_general Example.tokenize _ _ "cat" "cat");
    [done|apply cat_in_first|apply cat_not_in_second].
Qed.

Lemma scenario_A_witness :
  Example.tokenize "cat" = ["cat"]
  ∧ "cat" ∈ Example.tokenize "the cat sat on the mat"
  ∧ ("cat" ∉ Example.tokenize "the dog ran in the park")
  ∧ ∃ idx,
      add Example.tokenize RankBM25.BM25Okapi
        (Strs ["the cat sat on the mat"; "the dog ran in the park"]) fresh
      = (Manager (Some idx) ["the cat sat on the mat"; "the dog ran in the park"] ∅
           (Some [0; 1]) 1.5 0.75, Ok [0; 1])
      ∧ search Example.tokenize RankBM25.get_scores "cat" 5
          (Manager (Some idx) ["the cat sat on the mat"; "the dog ran in the park"] ∅
             (Some [0; 1]) 1.5 0.75)
        = Ok ([0; 1], [0%R; 0%R]).
Proof.
  split; [reflexivity|]. split; [exact cat_in_first|]. split; [exact cat_not_in_second|].
  exact (proj2 (scenario_A Example.tokenize eq_refl cat_in_first cat_not_in_second)).
Defined.

(** C4, the exception.  A search on a manager that was just constructed
    returns the pair of empty lists; it raises nothing.  ([add] of no
    document does raise there: rank_bm25 divides by the corpus size.) *)
Lemma search_on_uninitialized :
  Example.search "cat" 5 Example.fresh = Ok ([], [])
  ∧ Example.add (Strs []) Example.fresh = (Example.fresh, Raise ZeroDivisionError).
Proof. split; reflexivity. Qed.

Lemma uninitialized_manager_witness :
  ∃ idx,
    RankBM25.BM25Okapi (Example.tokenize <$> as_docs (Str "a")) 1.5 0.75 = Ok idx
    ∧ add Example.tokenize RankBM25.BM25Okapi (Str "a") fresh
      = (Manager (Some idx) ["a"] ∅ (Some [0]) 1.5 0.75, Ok [0])
    ∧ remove Example.tokenize RankBM25.BM25Okapi (Ints [0; 1]) fresh = (fresh, Raise ValueError)
    ∧ search Example.tokenize RankBM25.get_scores "a" 5 fresh = Ok ([], []).
Proof.
  destruct index_a as (i & Hb & _). exists i. split; [exact Hb|].
  exact (uninitialized_manager Example.tokenize RankBM25.BM25Okapi RankBM25.get_scores
           (Str "a") (Ints [0; 1]) "a" 5 i Hb).
Defined.

(** C5.  On every manager that the last rebuild left in step with its
    tombstones, for every library that scores every document and every
    [k >= 0], [search] returns at most [k] ids, none of them tombstoned,
    ranked by score with equal scores by position, and no id when no
    document is active.  But a rebuild that raises leaves the manager out of
    step: after [add("a")] and [remove(0)] (which raises inside the rebuild,
    the tombstone already set) no document is active, and the search still
    returns position 0, which is tombstoned. *)
Theorem search_returns_tombstoned :
  (∀ (tokenize : string → list string) Index
     (BM25Okapi : list (list string) → R → R → result Index)
     (get_scores : Index → list string → list R) query k (m : manager Index),
     scores_every_document BM25Okapi get_scores →
     consistent tokenize BM25Okapi m → (0 ≤ k)%Z →
     ∃ ids scores,
       search tokenize get_scores query k m = Ok (ids, scores)
       ∧ length scores = length ids
       ∧ (Z.of_nat (length ids) ≤ k)%Z
       ∧ Forall (λ i, i < length (docs m) ∧ i ∉ deleted_flags m) ids
       ∧ StronglySorted ranked_before (zip ids scores)
       ∧ (active_positions m = [] → ids = [] ∧ scores = []))
  ∧ Example.add (Str "a") Example.fresh
    = (Manager (Example.index_of [["a"]]) ["a"] ∅ (Some [0]) 1.5 0.75, Ok [0])
  ∧ Example.remove (Int 0) (Manager (Example.index_of [["a"]]) ["a"] ∅ (Some [0]) 1.5 0.75)
    = (Example.stale, Raise ZeroDivisionError)
  ∧ 0 ∈ deleted_flags Example.stale
  ∧ active_positions Example.stale = []
  ∧ ∃ score, Example.search "a" 5 Example.stale = Ok ([0], [score]).
Proof.
  split.
  { intros tokenize Index BM25Okapi get_scores query k m Hlib Hm Hk.
    destruct (search_consistent tokenize BM25Okapi get_scores query k m Hlib Hm Hk)
      as (ids & scores & Hs & Hl1 & Hl2 & Hin & Hsorted & _).
    exists ids, scores. split; [done|]. split; [done|]. split; [lia|].
    split; [done|]. split; [done|].
    intros Hnone. rewrite Hnone in Hl2. simpl in Hl2. rewrite Nat.min_0_r in Hl2.
    assert (ids = []) as -> by by apply nil_length_inv.
    split; [done|]. by apply nil_length_inv. }
  destruct stale_reached as [H1 H2]. split; [done|]. split; [done|].
  split; [by apply elem_of_singleton|].
  split; [apply stale_all_tombstoned|apply stale_search].
Qed.

(** C9.  A manager that the last rebuild left in step with its tombstones
    exports, and [load_from_byte] of what it exported is that manager again:
    documents, tombstones, hyperparameters, index and active list, hence
    every search.  But the manager left by [add("a")] and [remove(0)]
    exports, and [load_from_byte] of what it exported raises: the
    constructor rebuilds the index on no document. *)
Theorem reload_fails_when_all_tombstoned :
  (∀ (tokenize : string → list string) Index
     (BM25Okapi : list (list string) → R → R → result Index) (m : manager Index),
     consistent tokenize BM25Okapi m →
     ∃ data, export m = Ok data ∧ load_from_byte tokenize BM25Okapi data = Ok m)
  ∧ Example.remove (Int 0) (Manager (Example.index_of [["a"]]) ["a"] ∅ (Some [0]) 1.5 0.75)
    = (Example.stale, Raise ZeroDivisionError)
  ∧ ∃ data, export Example.stale = Ok data
            ∧ Example.load_from_byte data = Raise ZeroDivisionError.
Proof.
  split; [intros; by apply roundtrip_consistent|].
  split; [apply stale_reached|apply stale_roundtrip].
Qed.

End LexicalClaims.


(** ** More facts: the lexical index manager in use *)

Module SessionFacts.
Import BM25 BM25Facts.

Lemma elem_of_mark_deleted n (D : gset nat) ids x :
  x ∈ mark_deleted n D ids ↔ x ∈ D ∨ (x ∈ ids ∧ x < n).
Proof.
  unfold mark_deleted. revert D. induction ids as [|i ids IH]; intros D; simpl.
  - split; [by left|]. intros [?|[H _]]; [done|]. by apply elem_of_nil in H.
  - rewrite IH, elem_of_cons. destruct (decide (i < n)).
    + rewrite elem_of_union, elem_of_singleton. naive_solver.
    + split; [naive_solver|]. intros [?|[[->|?] ?]]; [by left|lia|by right].
Qed.

Lemma elem_of_unmark (D : gset nat) ids x :
  x ∈ unmark D ids ↔ x ∈ D ∧ x ∉ ids.
Proof.
  unfold unmark. revert D. induction ids as [|i ids IH]; intros D; simpl.
  - split; [intros ?; split; [done|apply not_elem_of_nil]|by intros [? _]].
  - rewrite IH, elem_of_difference, elem_of_singleton, not_elem_of_cons. naive_solver.
Qed.

Lemma filter_agree {A} (P Q : A → Prop) `{∀ x, Decision (P x)} `{∀ x, Decision (Q x)}
    (l : list A) :
  Forall (λ x, P x ↔ Q x) l → filter P l = filter Q l.
Proof.
  induction 1 as [|x l Hx Hl IH]; [done|]. rewrite !filter_cons, IH.
  destruct (decide (P x)), (decide (Q x)); naive_solver.
Qed.

(** The number of positions that are not tombstoned, when every tombstone
    is a position. *)
Lemma active_count (D : gset nat) n :
  (∀ i, i ∈ D → i < n) →
  length (filter (λ i, i ∉ D) (seq 0 n)) + size D = n.
Proof.
  revert D. induction n as [|n IH]; intros D HD.
  - assert (D = ∅) as -> by (apply set_eq; intros i; split; [intros Hi%HD; lia|set_solver]).
    by rewrite size_empty.
  - rewrite seq_S, filter_app, length_app. cbn [plus]. rewrite filter_cons, filter_nil.
    destruct (decide (n ∈ D)) as [Hn|Hn].
    + rewrite decide_False by (by intros H; apply H).
      assert (D = {[n]} ∪ D ∖ {[n]}) as HDn.
      { apply set_eq. intros i. rewrite elem_of_union, elem_of_difference, elem_of_singleton.
        destruct (decide (i = n)); naive_solver. }
      pose proof (size_union ({[n]} : gset nat) (D ∖ {[n]})) as Hsz.
      rewrite <- HDn, size_singleton in Hsz.
      assert (size D = S (size (D ∖ {[n]}))) as -> by (apply Hsz; set_solver).
      assert (∀ i, i ∈ D ∖ {[n]} → i < n) as HD'.
      { intros i [Hi Hne]%elem_of_difference. apply HD in Hi.
        rewrite elem_of_singleton in Hne. lia. }
      pose proof (IH _ HD') as IH'.
      assert (filter (λ i, i ∉ D) (seq 0 n) = filter (λ i, i ∉ D ∖ {[n]}) (seq 0 n)) as ->.
      { apply filter_agree. apply Forall_forall. intros i Hi%elem_of_seq.
        rewrite elem_of_difference, elem_of_singleton. split; [naive_solver|].
        intros H HiD. apply H. split; [done|lia]. }
      simpl. lia.
    + rewrite decide_True by done. simpl.
      assert (∀ i, i ∈ D → i < n) as HD'.
      { intros i Hi. specialize (HD i Hi). destruct (decide (i = n)) as [->|]; [done|lia]. }
      pose proof (IH _ HD') as IH'. lia.
Qed.

Section Facts.
Context (tokenize : string → list string) {Index : Type}.
Context (BM25Okapi : list (list string) → R → R → result Index).
Context (get_scores : Index → list string → list R).
Context (vocabulary : Index → nat).

Implicit Types m : @manager Index.

Lemma update_index_frame m :
  docs (update_index tokenize BM25Okapi m).1 = docs m
  ∧ deleted_flags (update_index tokenize BM25Okapi m).1 = deleted_flags m.
Proof. unfold update_index. by destruct (BM25Okapi _ _ _). Qed.

Lemma consistent_update m :
  consistent tokenize BM25Okapi m → update_index tokenize BM25Okapi m = (m, Ok ()).
Proof.
  intros (idx & Hidx & Hact & Hbuild). unfold update_index. rewrite Hbuild.
  destruct m; simpl in *. by rewrite Hidx, Hact.
Qed.

Lemma set_deleted_flags_same m : set_deleted_flags (deleted_flags m) m = m.
Proof. by destruct m. Qed.

Lemma add_docs documents m :
  docs (add tokenize BM25Okapi documents m).1 = docs m ++ as_docs documents.
Proof.
  unfold add. destruct (index_is_empty _) as [empty|e]; [|done].
  match goal with |- context [update_index _ _ ?m2] =>
    pose proof (update_index_frame m2) as [Hd _];
    destruct (update_index tokenize BM25Okapi m2) as [m3 [[]|e]] end;
    simpl in *; rewrite Hd; by destruct empty.
Qed.


Lemma step_flags_in_range c m :
  (∀ i, i ∈ deleted_flags m → i < length (docs m)) →
  ∀ i, i ∈ deleted_flags (BM25Session.step tokenize BM25Okapi c m) →
       i < length (docs (BM25Session.step tokenize BM25Okapi c m)).
Proof.
  intros Hm i. destruct c as [documents|ids|ids]; simpl.
  - rewrite add_docs, length_app. unfold add.
    destruct (index_is_empty _) as [empty|e]; [|simpl; intros Hi%Hm; lia].
    match goal with |- context [update_index _ _ ?m2] =>
      pose proof (update_index_frame m2) as [_ Hf];
      destruct (update_index tokenize BM25Okapi m2) as [m3 [[]|e]] end;
      cbn [fst] in *; rewrite Hf; destruct empty; cbn [deleted_flags set_deleted_flags set_docs];
      first [by intros ?%elem_of_empty|intros Hi%Hm; lia].
  - unfold remove. destruct (index m); [|apply Hm].
    match goal with |- context [update_index _ _ ?m2] =>
      pose proof (update_index_frame m2) as [Hd Hf] end.
    rewrite Hd, Hf. simpl. rewrite elem_of_mark_deleted. intros [Hi|[_ Hi]]; [by apply Hm|done].
  - unfold unmark_deleted. destruct (index m); [|apply Hm].
    match goal with |- context [update_index _ _ ?m2] =>
      pose proof (update_index_frame m2) as [Hd Hf] end.
    rewrite Hd, Hf. simpl. rewrite elem_of_unmark. intros [Hi _]. by apply Hm.
Qed.

Lemma run_flags_in_range calls m :
  (∀ i, i ∈ deleted_flags m → i < length (docs m)) →
  ∀ i, i ∈ deleted_flags (BM25Session.run tokenize BM25Okapi calls m) →
       i < length (docs (BM25Session.run tokenize BM25Okapi calls m)).
Proof.
  revert m. induction calls as [|c calls IH]; intros m Hm; [done|].
  apply IH. by apply step_flags_in_range.
Qed.


(** X2.  On a manager that the last rebuild left in step, [remove] of ids
    that are no position of the list or are tombstoned already, and
    [unmark_deleted] of ids that are not tombstoned, return without an
    error and leave the manager as it was. *)
Theorem remove_and_unmark_ignore_other_ids removed restored m :
  consistent tokenize BM25Okapi m →
  Forall (λ i, length (docs m) ≤ i ∨ i ∈ deleted_flags m) (as_ids removed) →
  Forall (λ i, i ∉ deleted_flags m) (as_ids restored) →
  remove tokenize BM25Okapi removed m = (m, Ok ())
  ∧ unmark_deleted tokenize BM25Okapi restored m = (m, Ok ()).
Proof.
  intros Hm Hr Hu. pose proof Hm as (idx & Hidx & _).
  unfold remove, unmark_deleted. rewrite Hidx.
  rewrite Forall_forall in Hr, Hu. split.
  - assert (mark_deleted (length (docs m)) (deleted_flags m) (as_ids removed) = deleted_flags m)
      as ->.
    { apply set_eq. intros x. rewrite elem_of_mark_deleted. split; [|by left].
      intros [?|[Hx Hlt]]; [done|]. destruct (Hr x Hx); [lia|done]. }
    rewrite set_deleted_flags_same. by apply consistent_update.
  - assert (unmark (deleted_flags m) (as_ids restored) = deleted_flags m) as ->.
    { apply set_eq. intros x. rewrite elem_of_unmark. split; [by intros [? _]|].
      intros Hx. split; [done|]. intros Hin. by apply (Hu x Hin). }
    rewrite set_deleted_flags_same. by apply consistent_update.
Qed.

(** X3.  [unmark_deleted] undoes [remove]: when [remove] of ids that were
    not tombstoned returns, [unmark_deleted] of the same ids returns and
    the manager is again what it was before the [remove]. *)
Theorem unmark_deleted_undoes_remove ids m m1 :
  consistent tokenize BM25Okapi m →
  Forall (λ i, i ∉ deleted_flags m) (as_ids ids) →
  remove tokenize BM25Okapi ids m = (m1, Ok ()) →
  unmark_deleted tokenize BM25Okapi ids m1 = (m, Ok ()).
Proof.
  intros Hm Hids Hrem. pose proof Hm as (idx & Hidx & Hact & Hbuild).
  unfold remove in Hrem. rewrite Hidx in Hrem.
  unfold update_index in Hrem. destruct (BM25Okapi _ _ _) as [idx1|] eqn:E1; [|done].
  injection Hrem as <-. unfold unmark_deleted. cbn [index deleted_flags set_deleted_flags docs
    param_k1 param_b active_indices].
  assert (unmark (mark_deleted (length (docs m)) (deleted_flags m) (as_ids ids)) (as_ids ids)
          = deleted_flags m) as ->.
  { apply set_eq. intros x. rewrite elem_of_unmark, elem_of_mark_deleted.
    rewrite Forall_forall in Hids. split; [intros [[?|[? _]] ?]; done|].
    intros Hx. split; [by left|]. intros Hin. by apply (Hids x Hin). }
  clear E1. unfold update_index, set_deleted_flags, active_docs, active_positions in *.
  simpl. rewrite Hbuild.
  destruct m; simpl in *. by rewrite Hidx, Hact.
Qed.

(** X4.  Along every sequence of [add], [remove] and [unmark_deleted] on a
    new manager, whatever they raise, every tombstone is a position of the
    document list.  So the number [stats] reports as [active_documents], a
    difference of two sizes, is the number of positions that are not
    tombstoned while the index is set (and 0 while it is not), and lies
    between 0 and [num_documents]. *)
Theorem stats_counts_active_documents calls :
  let m := BM25Session.run tokenize BM25Okapi calls fresh in
  (∀ i, i ∈ deleted_flags m → i < length (docs m))
  ∧ BM25Session.active_documents (BM25Session.stats vocabulary m)
    = match index m with
      | Some _ => Z.of_nat (length (active_positions m))
      | None => 0%Z
      end
  ∧ (0 ≤ BM25Session.active_documents (BM25Session.stats vocabulary m)
       ≤ BM25Session.num_documents (BM25Session.stats vocabulary m))%Z.
Proof.
  intros m.
  assert (∀ i, i ∈ deleted_flags m → i < length (docs m)) as Hm.
  { apply run_flags_in_range. simpl. set_solver. }
  split; [done|]. pose proof (active_count _ _ Hm) as Hc.
  unfold BM25Session.stats, active_positions.
  destruct (index m); simpl; [|lia]. lia.
Qed.

(** The hits of a search are a prefix of the ranking of all active
    documents; its length is what the slice [[:k]] leaves. *)
Lemma search_prefix query k m :
  scores_every_document BM25Okapi get_scores → consistent tokenize BM25Okapi m →
  ∃ all_ids all_scores,
    search tokenize get_scores query (Z.of_nat (length (active_positions m))) m
    = Ok (all_ids, all_scores)
    ∧ length all_ids = length (active_positions m)
    ∧ length all_scores = length (active_positions m)
    ∧ let n := if (0 <=? k)%Z then Z.to_nat k
               else length (active_positions m) - Z.to_nat (- k) in
      search tokenize get_scores query k m = Ok (take n all_ids, take n all_scores).
Proof.
  intros Hlib (idx & Hidx & Hact & Hbuild).
  unfold search, index_is_empty. rewrite Hidx, Hact.
  destruct (bool_decide (length (active_positions m) = 0)) eqn:Hempty.
  - apply bool_decide_eq_true in Hempty. exists [], []. rewrite Hempty.
    repeat split; try done. simpl. by rewrite !take_nil.
  - cbv zeta.
    set (scores := get_scores idx (tokenize query)).
    assert (length scores = length (active_positions m)) as Hlen.
    { unfold scores. rewrite (Hlib _ _ _ _ _ Hbuild), length_fmap. apply active_docs_length. }
    destruct (sorted_desc_enumerate scores) as [_ Hbound].
    set (ranked := sorted_desc (enumerate scores)) in *.
    assert (length ranked = length (active_positions m)) as Hrl.
    { unfold ranked, enumerate. by rewrite sorted_desc_length, length_imap. }
    assert (∃ ids, mapM (λ p, active_positions m !! p.1) ranked = Some ids) as [ids Hids].
    { destruct (mapM _ ranked) as [ids|] eqn:E; [by eexists|]. exfalso.
      apply mapM_None in E. apply Exists_exists in E as (p & Hp & Hnone).
      rewrite Forall_forall in Hbound. specialize (Hbound p Hp). rewrite Hlen in Hbound.
      apply lookup_lt_is_Some_2 in Hbound as [? ?]. congruence. }
    assert (∀ n, mapM (λ p, active_positions m !! p.1) (take n ranked) = Some (take n ids))
      as Htake.
    { intros n. apply mapM_Some. apply Forall2_take. by apply mapM_Some. }
    exists ids, ranked.*2.
    assert (length ids = length (active_positions m)) as Hil.
    { apply mapM_Some, Forall2_length in Hids. lia. }
    rewrite slice_to_take by lia. rewrite Nat2Z.id, <- Hrl, firstn_all, Hids.
    split; [done|]. split; [lia|]. split; [by rewrite length_fmap|].
    unfold slice_to. destruct (0 <=? k)%Z.
    + by rewrite Htake, fmap_take.
    + by rewrite Hrl, Htake, fmap_take.
Qed.

(** X5.  [search] does not check [k].  With a negative [k] the slice
    [[:k]] counts from the end: the search returns the ranking of all
    active documents without its last [-k] hits (nothing, if there are no
    more than [-k]); it raises nothing. *)
Theorem search_with_negative_k query k m :
  scores_every_document BM25Okapi get_scores → consistent tokenize BM25Okapi m →
  (k < 0)%Z →
  ∃ all_ids all_scores,
    search tokenize get_scores query (Z.of_nat (length (active_positions m))) m
    = Ok (all_ids, all_scores)
    ∧ length all_ids = length (active_positions m)
    ∧ search tokenize get_scores query k m
      = Ok (take (length all_ids - Z.to_nat (- k)) all_ids,
            take (length all_ids - Z.to_nat (- k)) all_scores).
Proof.
  intros Hlib Hm Hk.
  destruct (search_prefix query k m Hlib Hm) as (ids & scores & Hall & Hl & _ & Hs).
  exists ids, scores. split; [done|]. split; [done|].
  cbv zeta in Hs. rewrite (proj2 (Z.leb_gt 0 k)) in Hs by lia. by rewrite Hl.
Qed.

End Facts.

(** X6.  A manager constructed without an index holds no document,
    whatever documents and tombstones the constructor is given: it sets
    both aside and, if documents were given, rebuilds the index on the
    empty list.  With rank_bm25 that rebuild raises. *)
Theorem constructor_without_index_drops_documents (tokenize : string → list string) Index
    (BM25Okapi : list (list string) → R → R → result Index) d D k1 b :
  match init tokenize BM25Okapi None d D k1 b with
  | Ok m => docs m = [] ∧ deleted_flags m = ∅
            ∧ (index m = None ↔ d = None ∨ d = Some [])
  | Raise e => (∃ x l, d = Some (x :: l)) ∧ BM25Okapi [] k1 b = Raise e
  end
  ∧ ∀ x l, init tokenize RankBM25.BM25Okapi None (Some (x :: l)) D k1 b
           = Raise ZeroDivisionError.
Proof.
  split; [|done].
  unfold init. destruct d as [[|x l]|]; simpl; try (split; [done|split; [done|naive_solver]]).
  unfold update_index. simpl. destruct (BM25Okapi [] k1 b) as [idx|e]; simpl.
  - split; [done|]. split; [done|]. naive_solver.
  - split; [by exists x, l|done].
Qed.

Import RankFacts ExampleFacts.

Lemma two_docs_consistent :
  consistent Example.tokenize RankBM25.BM25Okapi Instances.two_docs.
Proof.
  destruct index_a_b as (i & Hb & Hi). exists i. unfold Instances.two_docs. rewrite Hi.
  destruct (active_no_flags (Some i) ["a"; "b"] (Some [0; 1]) 1.5 0.75) as [Hd Hp].
  split; [done|]. split; [by rewrite Hp|]. by rewrite Hd.
Qed.

Lemma first_tombstoned (idx : option RankBM25.t) a k1 b :
  active_docs (Manager idx ["a"; "b"] {[0]} a k1 b) = ["b"]
  ∧ active_positions (Manager idx ["a"; "b"] {[0]} a k1 b) = [1].
Proof.
  unfold active_docs, active_positions, enumerate. simpl.
  rewrite !filter_cons, !filter_nil. simpl.
  rewrite !decide_False by (intros H; apply H; by apply elem_of_singleton).
  by rewrite !decide_True by (by intros ?%elem_of_singleton).
Qed.

Lemma two_docs_remove :
  Example.remove (Int 0) Instances.two_docs = (Instances.second_only, Ok ()).
Proof.
  destruct index_a_b as (i & Hb & Hi). destruct index_b as (i1 & Hb1 & Hi1).
  unfold Example.remove, remove, Instances.two_docs, Instances.second_only.
  rewrite Hi, Hi1. cbn [index as_ids mark_deleted foldl docs deleted_flags length].
  rewrite decide_True by lia. rewrite (left_id_L ∅ (∪)).
  unfold set_deleted_flags. cbn [index docs active_indices param_k1 param_b].
  destruct (first_tombstoned (Some i) (Some [0; 1]) 1.5 0.75) as [Hd Hp].
  unfold update_index. rewrite Hd, Hp. cbn [fmap list_fmap param_k1 param_b].
  change (Example.tokenize "b") with ["b"]. by rewrite Hb1.
Qed.

Lemma remove_and_unmark_ignore_other_ids_witness :
  consistent Example.tokenize RankBM25.BM25Okapi Instances.two_docs
  ∧ Forall (λ i, length (docs Instances.two_docs) ≤ i ∨ i ∈ deleted_flags Instances.two_docs)
           (as_ids (Ints [2; 7]))
  ∧ Forall (λ i, i ∉ deleted_flags Instances.two_docs) (as_ids (Int 1))
  ∧ Example.remove (Ints [2; 7]) Instances.two_docs = (Instances.two_docs, Ok ())
  ∧ unmark_deleted Example.tokenize RankBM25.BM25Okapi (Int 1) Instances.two_docs
    = (Instances.two_docs, Ok ()).
Proof.
  assert (Forall (λ i, length (docs Instances.two_docs) ≤ i ∨ i ∈ deleted_flags Instances.two_docs)
            (as_ids (Ints [2; 7]))) as H1.
  { repeat constructor; simpl; left; lia. }
  assert (Forall (λ i, i ∉ deleted_flags Instances.two_docs) (as_ids (Int 1))) as H2.
  { repeat constructor. simpl. apply not_elem_of_empty. }
  split; [exact two_docs_consistent|]. split; [exact H1|]. split; [exact H2|].
  exact (remove_and_unmark_ignore_other_ids Example.tokenize RankBM25.BM25Okapi
           (Ints [2; 7]) (Int 1) Instances.two_docs two_docs_consistent H1 H2).
Defined.

Lemma unmark_deleted_undoes_remove_witness :
  consistent Example.tokenize RankBM25.BM25Okapi Instances.two_docs
  ∧ Forall (λ i, i ∉ deleted_flags Instances.two_docs) (as_ids (Int 0))
  ∧ Example.remove (Int 0) Instances.two_docs = (Instances.second_only, Ok ())
  ∧ unmark_deleted Example.tokenize RankBM25.BM25Okapi (Int 0) Instances.second_only
    = (Instances.two_docs, Ok ()).
Proof.
  assert (Forall (λ i, i ∉ deleted_flags Instances.two_docs) (as_ids (Int 0))) as H.
  { repeat constructor. simpl. apply not_elem_of_empty. }
  split; [exact two_docs_consistent|]. split; [exact H|]. split; [exact two_docs_remove|].
  exact (unmark_deleted_undoes_remove Example.tokenize RankBM25.BM25Okapi (Int 0)
           Instances.two_docs Instances.second_only two_docs_consistent H two_docs_remove).
Defined.

Lemma search_with_negative_k_witness :
  consistent Example.tokenize RankBM25.BM25Okapi Instances.two_docs
  ∧ (-1 < 0)%Z
  ∧ ∃ all_ids all_scores,
      Example.search "a" 2 Instances.two_docs = Ok (all_ids, all_scores)
      ∧ length all_ids = 2
      ∧ Example.search "a" (-1) Instances.two_docs
        = Ok (take 1 all_ids, take 1 all_scores).
Proof.
  split; [exact two_docs_consistent|]. split; [lia|].
  destruct (search_with_negative_k Example.tokenize RankBM25.BM25Okapi RankBM25.get_scores
              "a" (-1) Instances.two_docs rank_bm25_scores_every_document
              two_docs_consistent ltac:(lia))
    as (ids & scores & Hall & Hlen & Hneg).
  assert (length (active_positions Instances.two_docs) = 2) as Hn.
  { unfold Instances.two_docs. by rewrite (proj2 (active_no_flags _ _ _ _ _)). }
  rewrite Hn in Hall, Hlen. rewrite Hlen in Hneg.
  exists ids, scores. split; [exact Hall|]. split; [exact Hlen|]. exact Hneg.
Defined.

End SessionFacts.


(** ** The lexical index manager when every position is tombstoned *)

Module TombstoneFacts.
Import BM25 BM25Facts RankFacts ExampleFacts SessionFacts.

Section Generic.
Context (tokenize : string → list string) {Index : Type}.
Context (BM25Okapi : list (list string) → R → R → result Index).
Context (get_scores : Index → list string → list R).

Implicit Types m : @manager Index.

(** What every manager of a session satisfies when the library raises on
    the empty corpus, as rank_bm25 does: without an index there is no
    tombstone, and with an index the stored active list is not empty. *)
Abbreviation in_session m :=
  ((index m = None → deleted_flags m = ∅)
   ∧ (∀ idx, index m = Some idx → ∃ act, active_indices m = Some act ∧ act ≠ [])).

Lemma update_index_in_session m :
  (∀ k1 b, is_ok (BM25Okapi [] k1 b) = false) →
  in_session m → in_session (update_index tokenize BM25Okapi m).1.
Proof.
  intros Hempty Hm. unfold update_index.
  destruct (BM25Okapi _ _ _) as [idx|e] eqn:E; [|exact Hm].
  cbn [fst index active_indices deleted_flags]. split; [done|].
  intros idx' _. exists (active_positions m). split; [done|]. intros Hnil.
  assert (active_docs m = []) as Hd
    by (apply nil_length_inv; by rewrite active_docs_length, Hnil).
  rewrite Hd in E. cbn in E. specialize (Hempty (param_k1 m) (param_b m)).
  by rewrite E in Hempty.
Qed.

Lemma step_in_session c m :
  (∀ k1 b, is_ok (BM25Okapi [] k1 b) = false) →
  in_session m → in_session (BM25Session.step tokenize BM25Okapi c m).
Proof.
  intros Hempty [Hnone Hsome]. destruct c as [documents|ids|ids]; cbn [BM25Session.step].
  - unfold add. set (m1 := set_docs (docs m ++ as_docs documents) m).
    destruct (index m) as [idx|] eqn:Ei.
    + destruct (Hsome idx eq_refl) as (act & Ha & Hne).
      assert (index_is_empty m1 = Ok false) as ->.
      { unfold index_is_empty, m1. cbn [set_docs index active_indices]. rewrite Ei, Ha.
        by rewrite bool_decide_eq_false_2 by (by destruct act). }
      pose proof (update_index_in_session m1 Hempty) as H.
      destruct (update_index tokenize BM25Okapi m1) as [m3 [[]|e]]; cbn [fst] in *;
        apply H; (split; unfold m1; cbn [set_docs index active_indices deleted_flags];
                  [by rewrite Ei|intros idx' _; by exists act]).
    + assert (index_is_empty m1 = Ok true) as ->.
      { unfold index_is_empty, m1. cbn [set_docs index]. by rewrite Ei. }
      pose proof (update_index_in_session (set_deleted_flags ∅ m1) Hempty) as H.
      destruct (update_index tokenize BM25Okapi (set_deleted_flags ∅ m1)) as [m3 [[]|e]];
        cbn [fst] in *; apply H;
        (split; unfold m1; cbn [set_deleted_flags set_docs index active_indices deleted_flags];
         [done|by rewrite Ei]).
  - unfold remove. destruct (index m) as [idx|] eqn:Ei; [|cbn [fst]; rewrite Ei; by split].
    apply (update_index_in_session _ Hempty).
    split; cbn [set_deleted_flags index active_indices]; [by rewrite Ei|].
    intros idx' _. by apply (Hsome idx).
  - unfold unmark_deleted. destruct (index m) as [idx|] eqn:Ei; [|cbn [fst]; rewrite Ei; by split].
    apply (update_index_in_session _ Hempty).
    split; cbn [set_deleted_flags index active_indices]; [by rewrite Ei|].
    intros idx' _. by apply (Hsome idx).
Qed.

Lemma run_in_session calls m :
  (∀ k1 b, is_ok (BM25Okapi [] k1 b) = false) →
  in_session m → in_session (BM25Session.run tokenize BM25Okapi calls m).
Proof.
  intros Hempty. revert m. induction calls as [|c calls IH]; intros m Hm; [done|].
  apply IH. by apply step_in_session.
Qed.

(** [add] on a manager of a session in which every position is
    tombstoned, where the model of the new documents is built. *)
Lemma add_in_session_all_tombstoned k1 b calls documents idx :
  scores_every_document BM25Okapi get_scores →
  (∀ k1 b, is_ok (BM25Okapi [] k1 b) = false) →
  let m := BM25Session.run tokenize BM25Okapi calls (Manager None [] ∅ None k1 b) in
  let new_ids := seq (length (docs m)) (length (as_docs documents)) in
  (∀ i, i < length (docs m) → i ∈ deleted_flags m) →
  BM25Okapi (tokenize <$> as_docs documents) (param_k1 m) (param_b m) = Ok idx →
  ∃ m', add tokenize BM25Okapi documents m = (m', Ok new_ids)
    ∧ docs m' = docs m ++ as_docs documents
    ∧ ∀ query k, (0 ≤ k)%Z →
        ∃ ids scores, search tokenize get_scores query k m' = Ok (ids, scores)
                      ∧ Forall (λ i, i ∈ new_ids ∧ i ∉ deleted_flags m) ids.
Proof.
  intros Hlib Hempty m new_ids Htomb Hbuild.
  assert (in_session m) as [Hnone Hsome] by (by apply run_in_session).
  assert (∀ i, i ∈ deleted_flags m ↔ i < length (docs m)) as Hall.
  { intros i. split; [|apply Htomb].
    apply (run_flags_in_range tokenize BM25Okapi calls (Manager None [] ∅ None k1 b)).
    by intros j ?%elem_of_empty. }
  assert (∃ m', add tokenize BM25Okapi documents m = (m', Ok new_ids)
                ∧ docs m' = docs m ++ as_docs documents
                ∧ deleted_flags m' ⊆ deleted_flags m
                ∧ (∀ i, i ∈ deleted_flags m → i ∈ deleted_flags m' ∨ docs m = []))
    as (m' & Hadd & Hdocs & _ & Hkeep).
  { destruct (index m) as [idx0|] eqn:Ei.
    - destruct (Hsome idx0 eq_refl) as (act & Ha & Hne).
      pose proof (add_tombstoned_spec tokenize BM25Okapi m documents idx0 act idx Ei Ha Hall)
        as Hspec. cbv zeta in Hspec. rewrite decide_False in Hspec by done.
      rewrite !decide_False in Hspec by done.
      eexists. split; [exact (Hspec Hbuild)|]. cbn [docs deleted_flags].
      split; [done|]. split; [done|]. intros i Hi. by left.
    - assert (docs m = []) as Hd.
      { destruct (docs m) as [|d ds] eqn:Ed; [done|].
        assert (0 ∈ deleted_flags m) as H0 by (apply Htomb; simpl; lia).
        rewrite (Hnone eq_refl) in H0. by apply elem_of_empty in H0. }
      subst new_ids. rewrite Hd. cbn [length app].
      unfold add, index_is_empty. cbn [set_docs index]. rewrite Ei, Hd. cbn [app length].
      rewrite Nat.sub_0_r. unfold set_deleted_flags.
      cbn [set_docs index docs active_indices param_k1 param_b]. rewrite Ei.
      destruct (active_no_flags (index m) (as_docs documents) (active_indices m)
                  (param_k1 m) (param_b m)) as [Had Hap].
      rewrite Ei in Had, Hap.
      unfold update_index. rewrite Had, Hap. cbn [docs deleted_flags param_k1 param_b].
      rewrite Hbuild. eexists. split; [reflexivity|]. cbn [docs deleted_flags].
      split; [done|]. split; [set_solver|]. intros i Hi. by right. }
  exists m'. split; [exact Hadd|]. split; [exact Hdocs|].
  intros query k Hk.
  pose proof (add_ok_consistent _ _ _ _ _ _ Hadd) as Hcons.
  destruct (search_consistent tokenize BM25Okapi get_scores query k m' Hlib Hcons Hk)
    as (ids & scores & Hs & _ & _ & Hin & _).
  exists ids, scores. split; [exact Hs|]. eapply Forall_impl; [exact Hin|].
  cbn beta. intros i [Hlt Hnot]. rewrite Hdocs, length_app in Hlt.
  assert (i ∉ deleted_flags m) as Hold.
  { intros Hi. destruct (Hkeep i Hi) as [Hi'|Hd]; [done|].
    apply Hall in Hi. rewrite Hd in Hi. simpl in Hi. lia. }
  split; [|exact Hold]. subst new_ids. apply elem_of_seq.
  split; [|lia]. destruct (decide (i < length (docs m))) as [Hi|]; [|lia].
  by apply Htomb in Hi.
Qed.

End Generic.

(** C1.  In every manager a session of calls on a new manager reaches,
    with every position tombstoned, [add] returns whenever the ranking model
    of the new documents is built (the library, like rank_bm25, scoring
    every document and raising on the empty corpus): it appends the
    documents, returns their positions, and every search afterwards returns
    new positions only, none that was tombstoned.  But [add] of no document
    does not succeed there: after [add("a")] and [remove(0)], which leave
    position 0 tombstoned, [add([])] raises ZeroDivisionError, the rebuild
    on the empty corpus having raised; [add("b")] on the same manager
    returns position 1, and the search returns position 1 only. *)
Theorem add_fails_when_all_tombstoned :
  (∀ (tokenize : string → list string) Index
     (BM25Okapi : list (list string) → R → R → result Index)
     (get_scores : Index → list string → list R) k1 b calls documents idx,
     scores_every_document BM25Okapi get_scores →
     (∀ k1 b, is_ok (BM25Okapi [] k1 b) = false) →
     let m := BM25Session.run tokenize BM25Okapi calls (Manager None [] ∅ None k1 b) in
     let new_ids := seq (length (docs m)) (length (as_docs documents)) in
     (∀ i, i < length (docs m) → i ∈ deleted_flags m) →
     BM25Okapi (tokenize <$> as_docs documents) (param_k1 m) (param_b m) = Ok idx →
     ∃ m', add tokenize BM25Okapi documents m = (m', Ok new_ids)
       ∧ docs m' = docs m ++ as_docs documents
       ∧ ∀ query k, (0 ≤ k)%Z →
           ∃ ids scores, search tokenize get_scores query k m' = Ok (ids, scores)
                         ∧ Forall (λ i, i ∈ new_ids ∧ i ∉ deleted_flags m) ids)
  ∧ scores_every_document RankBM25.BM25Okapi RankBM25.get_scores
  ∧ (∀ k1 b, is_ok (RankBM25.BM25Okapi [] k1 b) = false)
  ∧ BM25Session.run Example.tokenize RankBM25.BM25Okapi
      [BM25Session.Add (Str "a"); BM25Session.Remove (Int 0)] Example.fresh = Example.stale
  ∧ (∀ i, i < length (docs Example.stale) → i ∈ deleted_flags Example.stale)
  ∧ Example.add (Strs []) Example.stale = (Example.stale, Raise ZeroDivisionError)
  ∧ ∃ m', Example.add (Str "b") Example.stale = (m', Ok [1])
      ∧ ∃ ids scores, Example.search "a" 5 m' = Ok (ids, scores) ∧ ids = [1].
Proof.
  split.
  { intros tokenize Index BM25Okapi get_scores k1 b calls documents idx.
    apply add_in_session_all_tombstoned. }
  split; [exact rank_bm25_scores_every_document|].
  split; [intros k1 b; by rewrite BM25Okapi_empty|].
  assert (BM25Session.run Example.tokenize RankBM25.BM25Okapi
            [BM25Session.Add (Str "a"); BM25Session.Remove (Int 0)] Example.fresh
          = Example.stale) as Hrun.
  { destruct stale_reached as [H1 H2]. unfold BM25Session.run. cbn [foldl BM25Session.step].
    unfold Example.add, Example.remove in *. rewrite H1. cbn [fst]. by rewrite H2. }
  split; [exact Hrun|]. split; [intros i Hi; by apply stale_flags|].
  split; [exact stale_add_nothing|].
  destruct index_a as (i0 & Hb0 & Hi0). destruct index_b as (i & Hb & Hi).
  pose proof (add_tombstoned_spec Example.tokenize RankBM25.BM25Okapi Example.stale
                (Str "b") i0 [0] i Hi0 eq_refl stale_flags) as Hspec.
  cbv zeta in Hspec. rewrite !decide_False in Hspec by done. specialize (Hspec Hb).
  eexists. split; [exact Hspec|].
  destruct (search_consistent Example.tokenize RankBM25.BM25Okapi RankBM25.get_scores "a" 5
              _ rank_bm25_scores_every_document (add_ok_consistent _ _ _ _ _ _ Hspec)
              ltac:(lia)) as (ids & scores & Hs & _ & Hlen & Hin & _).
  exists ids, scores. split; [exact Hs|].
  assert (length ids = 1) as Hone by (rewrite Hlen; by vm_compute).
  destruct ids as [|x [|y ids]]; try done. apply Forall_singleton in Hin as [Hx Hnot].
  cbn [docs deleted_flags Example.stale length app as_docs] in Hx, Hnot.
  f_equal. destruct x as [|[|x]]; [|done|lia]. exfalso. apply Hnot. by apply elem_of_singleton.
Qed.

End TombstoneFacts.


(** ** More facts: waiting for a lease *)

Module LeaseWaitFacts.
Import Lease.

(** The loop of [acquire_lease] up to the first reading that does not say
    [leased]: the request made there decides the call. *)
Lemma attempts_until_free s key n d r j m :
  (∀ i, i < j → lease_state_at s (now m + i * d) = Leased) →
  lease_state_at s (now m + j * d) ≠ Leased →
  j < r → r ≤ n →
  attempts s key n d r m
  = match client_acquire_lease s (now m + j * d) 20 with
    | Raise e =>
        (Manager (leases m) (now m + j * d)
           (trace m ++ blocked_trace d (S j) (now m) ++ [AcquireLease (now m + j * d)]),
         Raise e)
    | Ok id =>
        (Manager (dict_set (leases m) key id) (now m + j * d)
           (trace m ++ blocked_trace d (S j) (now m) ++ [AcquireLease (now m + j * d)]),
         Ok id)
    end.
Proof.
  revert r m. induction j as [|j IH]; intros r m Hleased Hfree Hj Hr.
  - destruct r as [|r]; [lia|]. cbn [attempts]. unfold record at 1. cbn [now].
    rewrite Nat.mul_0_l, Nat.add_0_r in Hfree |- *.
    rewrite decide_False by done.
    unfold BlobLeaseManager_acquire_lease, record. cbn [now leases trace blocked_trace].
    change (negb (20 =? -1)%Z && negb ((15 <=? 20)%Z && (20 <=? 60)%Z)) with false.
    cbv iota. rewrite <- !app_assoc.
    by destruct (client_acquire_lease s (now m) 20).
  - destruct r as [|r]; [lia|]. cbn [attempts]. unfold record at 1. cbn [now].
    rewrite decide_True.
    2:{ specialize (Hleased 0 ltac:(lia)). by rewrite Nat.mul_0_l, Nat.add_0_r in Hleased. }
    rewrite decide_True by lia.
    rewrite IH; unfold sleep, record; cbn [now leases trace].
    + replace (now m + d + j * d) with (now m + S j * d) by lia.
      cbn [blocked_trace]. rewrite <- !app_assoc. cbn [app]. done.
    + intros i Hi. specialize (Hleased (S i) ltac:(lia)).
      by replace (now m + d + i * d) with (now m + S i * d) by lia.
    + by replace (now m + d + j * d) with (now m + S j * d) by lia.
    + lia.
    + lia.
Qed.

(** X7.  While the readings say [leased], [acquire_lease] sleeps and reads
    again.  At the first reading that does not say [leased], if the budget
    reaches that far, it requests the lease, and if the service grants it
    the call returns the lease id at that moment, having slept once per
    earlier reading, and the registry holds the id under the key of the
    resource (in place of an id it held there before): [container/blob]
    for a blob, the name of the container when there is no blob name or
    an empty one. *)
Theorem acquire_lease_when_lease_ends s container_name blob_name max_retries retry_delay j id m :
  get_client s = Ok () →
  j < max_retries →
  (∀ i, i < j → lease_state_at s (now m + i * retry_delay) = Leased) →
  lease_state_at s (now m + j * retry_delay) ≠ Leased →
  client_acquire_lease s (now m + j * retry_delay) 20 = Ok id →
  acquire_lease s container_name blob_name max_retries retry_delay m
  = (Manager (dict_set (leases m) (resource_key container_name blob_name) id)
       (now m + j * retry_delay)
       (trace m ++ blocked_trace retry_delay (S j) (now m)
        ++ [AcquireLease (now m + j * retry_delay)]),
     Ok id).
Proof.
  intros Hclient Hj Hleased Hfree Hgrant. unfold acquire_lease. rewrite Hclient.
  rewrite (attempts_until_free s _ max_retries retry_delay max_retries j m) by (done || lia).
  by rewrite Hgrant.
Qed.

Lemma acquire_lease_when_lease_ends_witness :
  get_client (Instances.leased_until 20) = Ok ()
  ∧ 4 < max_retries_default
  ∧ (∀ i, i < 4 → lease_state_at (Instances.leased_until 20) (0 + i * 5) = Leased)
  ∧ lease_state_at (Instances.leased_until 20) (0 + 4 * 5) ≠ Leased
  ∧ acquire_lease (Instances.leased_until 20) "db-container"
      (Some "mapping/chunk_index_mapping.json") 12 5
      (Manager [("db-container/mapping/chunk_index_mapping.json", "lease-1")] 0 [])
    = (Manager [("db-container/mapping/chunk_index_mapping.json", "lease-2")] 20
         [GetProperties 0; Sleep 5; GetProperties 5; Sleep 5; GetProperties 10; Sleep 5;
          GetProperties 15; Sleep 5; GetProperties 20; AcquireLease 20],
       Ok "lease-2").
Proof.
  assert (∀ i, i < 4 → lease_state_at (Instances.leased_until 20) (0 + i * 5) = Leased) as H.
  { intros i Hi. unfold Instances.leased_until. cbn [lease_state_at].
    by rewrite decide_True by lia. }
  assert (lease_state_at (Instances.leased_until 20) (0 + 4 * 5) ≠ Leased) as H'.
  { unfold Instances.leased_until. cbn [lease_state_at]. by rewrite decide_False by lia. }
  split; [reflexivity|]. split; [unfold max_retries_default; lia|].
  split; [exact H|]. split; [exact H'|].
  exact (acquire_lease_when_lease_ends (Instances.leased_until 20) "db-container"
           (Some "mapping/chunk_index_mapping.json") 12 5 4 "lease-2"
           (Manager [("db-container/mapping/chunk_index_mapping.json", "lease-1")] 0 [])
           eq_refl ltac:(lia) H H' eq_refl).
Defined.

(** X8.  The retries of [acquire_lease] cover a resource that reads as
    [leased] only.  When a reading does not say [leased] and the request
    for the lease raises, the call raises that error at once: it does not
    sleep, does not read again, and registers nothing, however much of the
    budget is left. *)
Theorem acquire_lease_does_not_retry_a_refusal s container_name blob_name max_retries
    retry_delay j e m :
  get_client s = Ok () →
  j < max_retries →
  (∀ i, i < j → lease_state_at s (now m + i * retry_delay) = Leased) →
  lease_state_at s (now m + j * retry_delay) ≠ Leased →
  client_acquire_lease s (now m + j * retry_delay) 20 = Raise e →
  acquire_lease s container_name blob_name max_retries retry_delay m
  = (Manager (leases m) (now m + j * retry_delay)
       (trace m ++ blocked_trace retry_delay (S j) (now m)
        ++ [AcquireLease (now m + j * retry_delay)]),
     Raise e).
Proof.
  intros Hclient Hj Hleased Hfree Hrefused. unfold acquire_lease. rewrite Hclient.
  rewrite (attempts_until_free s _ max_retries retry_delay max_retries j m) by (done || lia).
  by rewrite Hrefused.
Qed.

Lemma acquire_lease_does_not_retry_a_refusal_witness :
  get_client Instances.refusing = Ok ()
  ∧ 0 < max_retries_default
  ∧ (∀ i, i < 0 → lease_state_at Instances.refusing (7 + i * 5) = Leased)
  ∧ lease_state_at Instances.refusing (7 + 0 * 5) ≠ Leased
  ∧ acquire_lease Instances.refusing "docs" (Some "a.pdf") 12 5 (Manager [] 7 [])
    = (Manager [] 7 [GetProperties 7; AcquireLease 7], Raise AzureError).
Proof.
  assert (∀ i, i < 0 → lease_state_at Instances.refusing (7 + i * 5) = Leased) as H
    by (intros i Hi; lia).
  assert (lease_state_at Instances.refusing (7 + 0 * 5) ≠ Leased) as H' by done.
  split; [reflexivity|]. split; [unfold max_retries_default; lia|].
  split; [exact H|]. split; [exact H'|].
  exact (acquire_lease_does_not_retry_a_refusal Instances.refusing "docs" (Some "a.pdf")
           12 5 0 AzureError (Manager [] 7 []) eq_refl ltac:(lia) H H' eq_refl).
Defined.

End LeaseWaitFacts.


(** ** More facts: the two mappings as dictionaries *)

Module MappingFacts.
Import DictFacts CBMFacts.

Lemma dict_get_elem {V} (d : dict V) k v :
  NoDup d.*1 → (k, v) ∈ d → dict_get d k = Some v.
Proof.
  induction d as [|[k0 v0] d IH]; intros Hnd Hin; [by apply elem_of_nil in Hin|].
  rewrite fmap_cons in Hnd. apply NoDup_cons in Hnd as [Hk0 Hnd]. simpl.
  apply elem_of_cons in Hin as [[= -> ->]|Hin].
  - by rewrite decide_True.
  - rewrite decide_False; [by apply IH|]. intros ->. apply Hk0.
    apply list_elem_of_fmap. by exists (k, v).
Qed.

Lemma dict_get_Some_elem {V} (d : dict V) k v : dict_get d k = Some v → (k, v) ∈ d.
Proof.
  induction d as [|[k0 v0] d IH]; simpl; [done|].
  destruct (decide (k0 = k)) as [->|]; [intros [= ->]; by left|].
  intros H. right. by apply IH.
Qed.

Lemma dict_get_None_keys {V} (d : dict V) k : dict_get d k = None ↔ k ∉ d.*1.
Proof.
  induction d as [|[k0 v0] d IH]; simpl; [split; [intros _; apply not_elem_of_nil|done]|].
  rewrite not_elem_of_cons. destruct (decide (k0 = k)) as [->|]; [naive_solver|].
  rewrite IH. naive_solver.
Qed.

Lemma dict_set_keys {V} (d : dict V) k v :
  (dict_set d k v).*1 = match dict_get d k with Some _ => d.*1 | None => d.*1 ++ [k] end.
Proof.
  induction d as [|[k0 v0] d IH]; simpl; [done|].
  destruct (decide (k0 = k)) as [->|]; [done|]. rewrite fmap_cons, IH. simpl.
  by destruct (dict_get d k).
Qed.

Lemma dict_set_NoDup {V} (d : dict V) k v : NoDup d.*1 → NoDup (dict_set d k v).*1.
Proof.
  intros Hnd. rewrite dict_set_keys. destruct (dict_get d k) eqn:E; [done|].
  apply NoDup_app. split; [done|]. split; [|apply NoDup_singleton].
  intros x Hx ->%list_elem_of_singleton. by apply dict_get_None_keys in E.
Qed.

Lemma dict_del_NoDup {V} (d : dict V) k : NoDup d.*1 → NoDup (dict_del d k).*1.
Proof.
  intros Hnd. eapply sublist_NoDup; [done|]. unfold dict_del.
  apply fmap_sublist, sublist_filter.
Qed.

Lemma dict_del_set_new {V} (d : dict V) k v :
  dict_get d k = None → dict_del (dict_set d k v) k = d.
Proof.
  intros Hnone. rewrite dict_set_new by done. unfold dict_del.
  rewrite filter_app, filter_cons, filter_nil. simpl.
  rewrite decide_False by (by intros H; apply H). rewrite app_nil_r.
  apply dict_get_None_keys in Hnone.
  induction d as [|[k0 v0] d IH]; [done|]. rewrite fmap_cons, not_elem_of_cons in Hnone.
  destruct Hnone as [Hne Hnone]. rewrite filter_cons. simpl.
  rewrite decide_True by done. by rewrite IH.
Qed.

End MappingFacts.

Module IndexMappingFacts.
Import ChunkIndexMapping DictFacts MappingFacts.

Lemma load_saved c : load_from_storage (save_to_storage c) = (c, save_to_storage c).
Proof. by destruct c. Qed.

(** X10.  The index ids are persisted per chunk.  After [add_mapping],
    a process that reads the file finds the new index ids for that chunk
    and what it found before for every other chunk; after [remove_mapping]
    it finds nothing for that chunk and what it found before for every
    other chunk.  Neither call changes the persisted counter. *)
Theorem index_ids_are_persisted_per_chunk chunk_id index_ids other file :
  (get_index_ids other (add_mapping chunk_id index_ids file).2).1
  = (if decide (chunk_id = other) then Some index_ids else (get_index_ids other file).1)
  ∧ (get_index_ids other (remove_mapping chunk_id file).2).1
    = (if decide (chunk_id = other) then None else (get_index_ids other file).1)
  ∧ persisted_counter (add_mapping chunk_id index_ids file).2 = persisted_counter file
  ∧ persisted_counter (remove_mapping chunk_id file).2 = persisted_counter file.
Proof.
  unfold get_index_ids, add_mapping, remove_mapping, persisted_counter.
  destruct (load_from_storage file) as [c f] eqn:E. cbn [fst snd].
  assert (load_from_storage f = (c, f)) as Hf.
  { destruct file as [| | |j]; simplify_eq/=; done. }
  split; [|split; [|split]].
  - rewrite load_saved. cbn [fst snd id_map]. by rewrite dict_get_set.
  - destruct (dict_get (id_map c) chunk_id) eqn:Eg; cbn [fst snd].
    + rewrite load_saved. cbn [fst snd id_map]. by rewrite dict_get_del.
    + rewrite Hf. cbn [fst]. destruct (decide (chunk_id = other)) as [<-|]; done.
  - by rewrite load_saved.
  - destruct (dict_get (id_map c) chunk_id); cbn [fst snd]; by rewrite ?load_saved, ?Hf.
Qed.

Lemma filter_dict_set {V} (P : string * V → Prop) `{∀ p, Decision (P p)} (d : dict V) k v :
  filter P d = [] → P (k, v) → filter P (dict_set d k v) = [(k, v)].
Proof.
  intros Hd Hkv. induction d as [|[k0 v0] d IH]; simpl.
  - by rewrite filter_cons, decide_True.
  - rewrite filter_cons in Hd. destruct (decide (P (k0, v0))); [done|].
    destruct (decide (k0 = k)) as [->|].
    + by rewrite filter_cons, decide_True, Hd.
    + rewrite filter_cons, decide_False by done. by apply IH.
Qed.

(** X11.  The reverse lookup finds a chunk that was just added: when no
    chunk of the file has the index id under the index name, then after
    [add_mapping] of index ids that hold it, [get_chunk_id] returns the
    chunk id. *)
Theorem get_chunk_id_finds_the_added_chunk index_name index_id chunk_id index_ids file :
  (get_chunk_id index_name index_id file).1 = None →
  dict_get index_ids index_name = Some index_id →
  (get_chunk_id index_name index_id (add_mapping chunk_id index_ids file).2).1 = Some chunk_id.
Proof.
  unfold get_chunk_id, add_mapping. destruct (load_from_storage file) as [c f]. cbn [fst snd].
  intros Hnone Hids. rewrite load_saved. cbn [fst snd id_map].
  rewrite (filter_dict_set _ (id_map c) chunk_id index_ids); [done| |done].
  destruct (filter _ (id_map c)); [done|discriminate].
Qed.

Lemma get_chunk_id_finds_the_added_chunk_witness :
  (get_chunk_id "keyword" 3 NotFound).1 = None
  ∧ dict_get [("keyword", 3); ("vector", 4)] "keyword" = Some 3
  ∧ (get_chunk_id "keyword" 3
       (add_mapping "0" [("keyword", 3); ("vector", 4)] NotFound).2).1 = Some "0".
Proof.
  split; [reflexivity|]. split; [reflexivity|].
  exact (get_chunk_id_finds_the_added_chunk "keyword" 3 "0" [("keyword", 3); ("vector", 4)]
           NotFound eq_refl eq_refl).
Defined.

(** X12.  The reverse lookup agrees with the forward one: on a file whose
    map has each chunk id once (a JSON object has), the chunk id
    [get_chunk_id] returns for an index id is a chunk whose index ids, as
    [get_index_ids] returns them, hold that index id under the index name. *)
Theorem get_chunk_id_agrees_with_get_index_ids index_name index_id chunk_id file :
  NoDup (id_map (load_from_storage file).1).*1 →
  (get_chunk_id index_name index_id file).1 = Some chunk_id →
  ∃ index_ids, (get_index_ids chunk_id file).1 = Some index_ids
               ∧ dict_get index_ids index_name = Some index_id.
Proof.
  unfold get_chunk_id, get_index_ids. destruct (load_from_storage file) as [c f]. cbn [fst snd].
  intros Hnd Hhead.
  destruct (filter _ (id_map c)) as [|[k ids] rest] eqn:E; [done|].
  simpl in Hhead. injection Hhead as ->.
  assert ((chunk_id, ids) ∈ filter (λ p, dict_get p.2 index_name = Some index_id) (id_map c))
    as Hin by (rewrite E; by left).
  apply list_elem_of_filter in Hin as [HP Hin]. exists ids. split; [|done].
  by apply dict_get_elem.
Qed.

Lemma get_chunk_id_agrees_with_get_index_ids_witness :
  NoDup (id_map (load_from_storage
                   (Json (MkJson (Some 8%Z)
                            (Some [("7", [("keyword", 3); ("vector", 4)])])))).1).*1
  ∧ (get_chunk_id "vector" 4
       (Json (MkJson (Some 8%Z) (Some [("7", [("keyword", 3); ("vector", 4)])])))).1
    = Some "7"
  ∧ ∃ index_ids,
      (get_index_ids "7"
         (Json (MkJson (Some 8%Z) (Some [("7", [("keyword", 3); ("vector", 4)])])))).1
      = Some index_ids
      ∧ dict_get index_ids "vector" = Some 4.
Proof.
  assert (NoDup (id_map (load_from_storage
                   (Json (MkJson (Some 8%Z)
                            (Some [("7", [("keyword", 3); ("vector", 4)])])))).1).*1) as H.
  { simpl. apply NoDup_singleton. }
  split; [exact H|]. split; [reflexivity|].
  exact (get_chunk_id_agrees_with_get_index_ids "vector" 4 "7" _ H eq_refl).
Defined.

End IndexMappingFacts.

Module BlobMappingFacts.
Import ChunkBlobMapping DictFacts CBMFacts MappingFacts.

Lemma step_NoDup c s : NoDup (mapping s.1).*1 →
  match s.2 with Json j => NoDup j.*1 | _ => True end →
  NoDup (mapping (step c s).1).*1
  ∧ match (step c s).2 with Json j => NoDup j.*1 | _ => True end.
Proof.
  intros Hm Hf. destruct c as [chunk_id bc bn|chunk_id|]; simpl.
  - split; by apply dict_set_NoDup.
  - unfold remove_mapping. destruct (dict_get _ _); [|done].
    split; by apply dict_del_NoDup.
  - unfold init, load_from_storage. destruct s.2; simpl; try done; split; constructor.
Qed.

Lemma run_NoDup calls file :
  match file with Json j => NoDup j.*1 | _ => True end →
  NoDup (mapping (run calls file).1).*1.
Proof.
  intros Hf. unfold run.
  assert (NoDup (mapping (init file).1).*1
          ∧ match (init file).2 with Json j => NoDup j.*1 | _ => True end) as Hinit.
  { unfold init, load_from_storage. destruct file; simpl; try done; split; constructor. }
  revert Hinit. generalize (init file). clear Hf.
  induction calls as [|c calls IH]; intros s [Hm Hs]; [done|].
  simpl. apply IH. by apply step_NoDup.
Qed.

(** X13.  Whatever calls were made on a mapping object constructed on a
    file whose map has each chunk id once, [get_chunk_ids_by_blob] lists a
    chunk id exactly when [get_blob_info] gives that chunk a blob with the
    key asked for, and lists no chunk id twice. *)
Theorem chunk_ids_by_blob_are_the_chunks_of_the_blob calls file chunk_id container_name
    blob_name :
  match file with Json j => NoDup j.*1 | _ => True end →
  (chunk_id ∈ get_chunk_ids_by_blob container_name blob_name (run calls file).1
   ↔ ∃ info, get_blob_info chunk_id (run calls file).1 = Some info
             ∧ key (container info) (blob info) = key container_name blob_name)
  ∧ NoDup (get_chunk_ids_by_blob container_name blob_name (run calls file).1).
Proof.
  intros Hf. pose proof (run_NoDup calls _ Hf) as Hnd.
  rewrite (get_chunk_ids_by_blob_grouped _ _ _ (run_reverse_ok calls file)).
  unfold grouped, get_blob_info. split.
  - rewrite list_elem_of_fmap. split.
    + intros ([k info] & -> & [HP Hin]%list_elem_of_filter). exists info.
      split; [by apply dict_get_elem|done].
    + intros (info & Hget & Hkey). exists (chunk_id, info). split; [done|].
      apply list_elem_of_filter. split; [done|]. by apply dict_get_Some_elem.
  - eapply sublist_NoDup; [exact Hnd|]. apply fmap_sublist, sublist_filter.
Qed.

Lemma chunk_ids_by_blob_are_the_chunks_of_the_blob_witness :
  NoDup [("7", BlobInfo "docs" "a.pdf")].*1
  ∧ ("8" ∈ get_chunk_ids_by_blob "docs" "a.pdf"
             (run [AddMapping "8" "docs" "a.pdf"; RemoveMapping "7"]
                  (Json [("7", BlobInfo "docs" "a.pdf")])).1
     ↔ ∃ info, get_blob_info "8"
                 (run [AddMapping "8" "docs" "a.pdf"; RemoveMapping "7"]
                      (Json [("7", BlobInfo "docs" "a.pdf")])).1 = Some info
               ∧ key (container info) (blob info) = key "docs" "a.pdf")
  ∧ NoDup (get_chunk_ids_by_blob "docs" "a.pdf"
             (run [AddMapping "8" "docs" "a.pdf"; RemoveMapping "7"]
                  (Json [("7", BlobInfo "docs" "a.pdf")])).1).
Proof.
  assert (NoDup [("7", BlobInfo "docs" "a.pdf")].*1) as H by apply NoDup_singleton.
  split; [exact H|].
  exact (chunk_ids_by_blob_are_the_chunks_of_the_blob
           [AddMapping "8" "docs" "a.pdf"; RemoveMapping "7"]
           (Json [("7", BlobInfo "docs" "a.pdf")]) "8" "docs" "a.pdf" H).
Defined.

Lemma step_in_step c s : init s.2 = s → init (step c s).2 = step c s.
Proof.
  intros Hs. destruct s as [c0 f]. destruct c as [chunk_id bc bn|chunk_id|]; simpl in *.
  - done.
  - unfold remove_mapping. destruct (dict_get _ _); [done|exact Hs].
  - by rewrite Hs.
Qed.

(** X14.  An object that is the only writer of its file stays in step with
    it: after every sequence of calls, an object constructed anew on the
    file holds the same map and the same reverse index as the object that
    made the calls, and the construction leaves the file as it is. *)
Theorem reload_sees_what_the_only_writer_holds calls file :
  init (run calls file).2 = run calls file.
Proof.
  unfold run.
  assert (init (init file).2 = init file) as Hinit by (by destruct file).
  revert Hinit. generalize (init file).
  induction calls as [|c calls IH]; intros s Hs; [done|].
  simpl. apply IH. by apply step_in_step.
Qed.

End BlobMappingFacts.

Module SharingFacts.
Import ChunkBlobMapping ChunkBlobSharing DictFacts MappingFacts.

(** X15.  [add_mapping] writes the map the object holds; it does not read
    the file first.  Of two objects constructed on the same file, when the
    second adds a chunk and then the first adds another, the file holds the
    first object's chunk and no longer the second's, which the second
    object itself still reports. *)
Theorem add_mapping_overwrites_what_another_object_wrote f x cx bx y cy by_ :
  x ≠ y →
  get_blob_info y (init f).1 = None →
  let s := act First (AddMapping x cx bx) (act Second (AddMapping y cy by_) (open f)) in
  get_blob_info y (init (file (act Second (AddMapping y cy by_) (open f)))).1
  = Some (BlobInfo cy by_)
  ∧ get_blob_info x (init (file s)).1 = Some (BlobInfo cx bx)
  ∧ get_blob_info y (init (file s)).1 = None
  ∧ get_blob_info y (second s) = Some (BlobInfo cy by_).
Proof.
  intros Hxy Hnone s. subst s. unfold act, open, get_blob_info in *. cbn [first second file step].
  unfold add_mapping. cbn [fst snd mapping init load_from_storage save_to_storage].
  assert (mapping (init (init f).2).1 = mapping (init f).1) as Hsame by (by destruct f).
  rewrite Hsame. rewrite !dict_get_set.
  rewrite decide_True by done. rewrite decide_True by done. rewrite decide_False by done.
  done.
Qed.

Lemma add_mapping_overwrites_what_another_object_wrote_witness :
  "0" ≠ "1"
  ∧ get_blob_info "1" (init NotFound).1 = None
  ∧ get_blob_info "1"
      (init (file (act First (AddMapping "0" "docs" "a.pdf")
                     (act Second (AddMapping "1" "docs" "b.pdf") (open NotFound))))).1 = None
  ∧ get_blob_info "1"
      (second (act First (AddMapping "0" "docs" "a.pdf")
                 (act Second (AddMapping "1" "docs" "b.pdf") (open NotFound))))
    = Some (BlobInfo "docs" "b.pdf").
Proof.
  assert ("0" ≠ "1") as H by done.
  split; [exact H|]. split; [reflexivity|].
  destruct (add_mapping_overwrites_what_another_object_wrote NotFound "0" "docs" "a.pdf"
              "1" "docs" "b.pdf" H eq_refl) as (_ & _ & H1 & H2).
  split; [exact H1|exact H2].
Defined.

End SharingFacts.


(** ** More facts: the mapping manager when something fails *)

Module ManagerMoreFacts.
Import ChunkMappingManager DictFacts CBMFacts CIMFacts ManagerFacts MappingFacts.

Lemma index_remove_after_add chunk_id index_ids k ids :
  dict_get ids chunk_id = None →
  ChunkIndexMapping.remove_mapping chunk_id
    (ChunkIndexMapping.get_index_ids chunk_id
       (ChunkIndexMapping.add_mapping chunk_id index_ids
          (Json (ChunkIndexMapping.MkJson (Some k) (Some ids)))).2).2.2
  = (ChunkIndexMapping.Mk k ids, Json (ChunkIndexMapping.MkJson (Some k) (Some ids))).
Proof.
  intros Hnone.
  unfold ChunkIndexMapping.remove_mapping, ChunkIndexMapping.get_index_ids,
    ChunkIndexMapping.add_mapping, ChunkIndexMapping.load_from_storage,
    ChunkIndexMapping.save_to_storage.
  cbn [fst snd ChunkIndexMapping.json_id_counter ChunkIndexMapping.json_id_map
       ChunkIndexMapping.id_counter ChunkIndexMapping.id_map default from_option].
  unfold Datatypes.id.
  rewrite dict_get_set, decide_True by done.
  cbn [ChunkIndexMapping.id_counter ChunkIndexMapping.id_map].
  by rewrite dict_del_set_new.
Qed.

Lemma blob_remove_after_add chunk_id blob_container blob_name c file :
  dict_get (ChunkBlobMapping.mapping c) chunk_id = None →
  ChunkBlobMapping.remove_mapping chunk_id
    (ChunkBlobMapping.add_mapping chunk_id blob_container blob_name c).1 file
  = (ChunkBlobMapping.Mk (ChunkBlobMapping.mapping c)
       (ChunkBlobMapping.update_reverse_mapping (ChunkBlobMapping.mapping c)),
     Json (ChunkBlobMapping.mapping c)).
Proof.
  intros Hnone. unfold ChunkBlobMapping.remove_mapping, ChunkBlobMapping.add_mapping.
  cbn [fst ChunkBlobMapping.mapping]. rewrite dict_get_set, decide_True by done.
  by rewrite dict_del_set_new.
Qed.

Section Facts.
Context {Searcher ContainerManager : Type}.
Variable searcher_add : Searcher → string → Searcher * result (list nat).
Variable searcher_remove : Searcher → nat → Searcher * result ().
Variable acquire_lease : ContainerManager → string → string → ContainerManager * result string.
Variable release_lease : ContainerManager → string → string → ContainerManager.

Abbreviation world := (world Searcher ContainerManager).
Abbreviation remove := (remove Searcher searcher_remove ContainerManager acquire_lease release_lease).
Abbreviation add := (add Searcher searcher_add ContainerManager acquire_lease release_lease).
Abbreviation release_if := (release_if Searcher ContainerManager release_lease).

Lemma remove_body_mappings chunk_id (w : world) :
  let w' := (remove_body Searcher searcher_remove ContainerManager chunk_id w).1 in
  (chunk_id_mapping_manager _ _ w', index_file _ _ w')
  = ChunkIndexMapping.remove_mapping chunk_id
      (ChunkIndexMapping.get_index_ids chunk_id (index_file _ _ w)).2.2
  ∧ (chunk_blob_mapping_manager _ _ w', blob_file _ _ w')
    = ChunkBlobMapping.remove_mapping chunk_id (chunk_blob_mapping_manager _ _ w)
        (blob_file _ _ w).
Proof.
  unfold remove_body.
  destruct (ChunkIndexMapping.get_index_ids chunk_id (index_file _ _ w)) as [oids [c f]].
  destruct oids as [[|entry l]|]; cbn [fst snd];
    try destruct (remove_from_searchers _ _ _ _ _) as [ss warnings]; cbn;
    by rewrite <- !surjective_pairing.
Qed.

(** X17.  [add] does not roll back.  When a searcher raises on a text,
    [add] raises that error after releasing the leases; the chunk id it
    drew for the text stays drawn (the persisted counter is one higher),
    the searchers asked before the failing one keep the text, and neither
    mapping has an entry for it. *)
Theorem add_does_not_roll_back blob_container blob_name text texts (w : world)
    cm1 id1 cm2 id2 ss' e :
  acquire_lease (container_manager _ _ w) db_container chunk_index_mapping_file = (cm1, Ok id1) →
  acquire_lease cm1 db_container chunk_blob_mapping_file = (cm2, Ok id2) →
  add_to_searchers Searcher searcher_add text (searchers _ _ w) [] = (ss', Raise e) →
  ∃ w', add blob_container blob_name (text :: texts) w = (w', Raise e)
    ∧ searchers _ _ w' = ss'
    ∧ ChunkIndexMapping.persisted_counter (index_file _ _ w')
      = (ChunkIndexMapping.persisted_counter (index_file _ _ w) + 1)%Z
    ∧ (∀ chunk_id, (ChunkIndexMapping.get_index_ids chunk_id (index_file _ _ w')).1
                   = (ChunkIndexMapping.get_index_ids chunk_id (index_file _ _ w)).1)
    ∧ chunk_blob_mapping_manager _ _ w' = chunk_blob_mapping_manager _ _ w
    ∧ blob_file _ _ w' = blob_file _ _ w.
Proof.
  intros H1 H2 Hfail.
  unfold ChunkMappingManager.add. rewrite (with_leases_granted _ _ _ _ _ _ _ _ H1 H2).
  cbn [add_chunks]. rewrite get_new_id_spec. cbn [fst snd].
  cbn [set_index_mapping set_container_manager searchers fst snd]. rewrite Hfail.
  eexists. split; [reflexivity|].
  match goal with |- context [release_if (Some id2) _ (release_if (Some id1) _ ?w2)] =>
    destruct (release_if_frame release_lease (Some id1) chunk_index_mapping_file w2)
      as (F1 & F2 & F3 & F4 & F5 & F6);
    destruct (release_if_frame release_lease (Some id2) chunk_blob_mapping_file
                (release_if (Some id1) chunk_index_mapping_file w2))
      as (G1 & G2 & G3 & G4 & G5 & G6)
  end.
  cbv zeta in *. rewrite G1, F1, G4, F4, G3, F3, G5, F5. cbn.
  split; [done|]. split; [done|]. split; [|done].
  intros chunk_id. unfold ChunkIndexMapping.get_index_ids.
  by destruct (index_file _ _ w) as [| | |[??]].
Qed.

(** X18.  [remove] undoes [add] in the mappings.  Where the leases are
    granted and the searchers accept the text, [add] of one text followed
    by [remove] of the chunk id it returned leaves both maps and both files
    with the entries they had before; only the counter has moved on, so the
    id is not drawn again. *)
Theorem remove_undoes_add_in_the_mappings blob_container blob_name text (w : world) :
  (∀ cm file, ∃ cm' id, acquire_lease cm db_container file = (cm', Ok id)) →
  (∀ s text, ∃ s' id ids, searcher_add s text = (s', Ok (id :: ids))) →
  let n := ChunkIndexMapping.persisted_counter (index_file _ _ w) in
  let ids := ChunkIndexMapping.id_map (ChunkIndexMapping.load_from_storage (index_file _ _ w)).1 in
  let m := ChunkBlobMapping.mapping (chunk_blob_mapping_manager _ _ w) in
  dict_get ids (pretty n) = None →
  dict_get m (pretty n) = None →
  ∃ w1 w2,
    add blob_container blob_name [text] w = (w1, Ok [(pretty n, text)])
    ∧ ChunkBlobMapping.get_blob_info (pretty n) (chunk_blob_mapping_manager _ _ w1)
      = Some (ChunkBlobMapping.BlobInfo blob_container blob_name)
    ∧ remove (pretty n) w1 = (w2, Ok ())
    ∧ ChunkIndexMapping.id_map (chunk_id_mapping_manager _ _ w2) = ids
    ∧ index_file _ _ w2
      = Json (ChunkIndexMapping.MkJson (Some (n + 1)%Z) (Some ids))
    ∧ ChunkBlobMapping.mapping (chunk_blob_mapping_manager _ _ w2) = m
    ∧ blob_file _ _ w2 = Json m.
Proof.
  intros Hlease Hadd n ids m Hids Hm.
  destruct (Hlease (container_manager _ _ w) chunk_index_mapping_file) as (cm1 & id1 & H1).
  destruct (Hlease cm1 chunk_blob_mapping_file) as (cm2 & id2 & H2).
  unfold ChunkMappingManager.add. rewrite (with_leases_granted _ _ _ _ _ _ _ _ H1 H2).
  cbn [add_chunks]. rewrite get_new_id_spec. cbn [fst snd].
  cbn [set_index_mapping set_container_manager searchers fst snd].
  destruct (add_to_searchers_ok searcher_add text (searchers _ _ w) [] Hadd)
    as (ss' & index_ids & ->).
  cbn [set_searchers set_index_mapping set_blob_mapping logged set_container_manager
       searchers chunk_id_mapping_manager chunk_blob_mapping_manager index_file blob_file
       container_manager log fst snd app].
  fold n.
  match goal with |- context [release_if (Some id2) _ (release_if (Some id1) _ ?w2)] =>
    set (wa := w2);
    destruct (release_if_frame release_lease (Some id1) chunk_index_mapping_file wa)
      as (F1 & F2 & F3 & F4 & F5 & F6);
    destruct (release_if_frame release_lease (Some id2) chunk_blob_mapping_file
                (release_if (Some id1) chunk_index_mapping_file wa))
      as (G1 & G2 & G3 & G4 & G5 & G6);
    set (w1 := release_if (Some id2) chunk_blob_mapping_file
                 (release_if (Some id1) chunk_index_mapping_file wa)) in *
  end.
  cbv zeta in *.
  assert (index_file _ _ w1
          = (ChunkIndexMapping.add_mapping (pretty n) index_ids
               (Json (ChunkIndexMapping.MkJson (Some (n + 1)%Z) (Some ids)))).2) as Hif.
  { rewrite G4, F4. subst wa. cbn [index_file]. done. }
  assert (chunk_blob_mapping_manager _ _ w1
          = (ChunkBlobMapping.add_mapping (pretty n) blob_container blob_name
               (chunk_blob_mapping_manager _ _ w)).1) as Hcb.
  { rewrite G3, F3. subst wa. cbn [chunk_blob_mapping_manager]. done. }
  destruct (Hlease (container_manager _ _ w1) chunk_index_mapping_file) as (cm3 & id3 & H3).
  destruct (Hlease cm3 chunk_blob_mapping_file) as (cm4 & id4 & H4).
  exists w1. eexists. split; [reflexivity|]. split.
  { rewrite Hcb. unfold ChunkBlobMapping.get_blob_info, ChunkBlobMapping.add_mapping.
    cbn [fst ChunkBlobMapping.mapping]. by rewrite dict_get_set, decide_True. }
  unfold ChunkMappingManager.remove. rewrite (with_leases_granted _ _ _ _ _ _ _ _ H3 H4).
  match goal with |- context [release_if (Some id4) _ (release_if (Some id3) _ ?w2)] =>
    set (wb := w2);
    destruct (release_if_frame release_lease (Some id3) chunk_index_mapping_file wb)
      as (P1 & P2 & P3 & P4 & P5 & P6);
    destruct (release_if_frame release_lease (Some id4) chunk_blob_mapping_file
                (release_if (Some id3) chunk_index_mapping_file wb))
      as (Q1 & Q2 & Q3 & Q4 & Q5 & Q6)
  end.
  cbv zeta in *.
  destruct (remove_body_spec searcher_remove (pretty n)
      (set_container_manager _ _ cm4 (set_container_manager _ _ cm3 w1))) as [-> _].
  split; [reflexivity|].
  subst wb. rewrite Q2, P2, Q4, P4, Q3, P3, Q5, P5. clear P1 P2 P3 P4 P5 P6 Q1 Q2 Q3 Q4 Q5 Q6.
  destruct (remove_body_mappings (pretty n)
              (set_container_manager _ _ cm4 (set_container_manager _ _ cm3 w1)))
    as [Hi Hb].
  cbv zeta in Hi, Hb. cbn [index_file chunk_blob_mapping_manager blob_file
    set_container_manager] in Hi, Hb.
  rewrite Hif, index_remove_after_add in Hi by done.
  rewrite Hcb, blob_remove_after_add in Hb by done.
  injection Hi as -> ->. injection Hb as -> ->. done.
Qed.

End Facts.

Section Contended.
Context {Searcher : Type}.
Variable searcher_add : Searcher → string → Searcher * result (list nat).
Variable searcher_remove : Searcher → nat → Searcher * result ().

(** X16.  When another actor keeps the file of the index mapping leased,
    [add] and [remove] give up: each polls the lease twelve times over 55
    time units and raises AzureError, and no searcher, no mapping and no
    file has been touched. *)
Theorem add_and_remove_give_up_on_a_leased_mapping_file (s : Lease.store) blob_container
    blob_name texts chunk_id (w : ChunkMappingManager.world Searcher Lease.manager) :
  Lease.get_client s = Ok () →
  (∀ t, Lease.lease_state_at s t = Lease.Leased) →
  let cm := container_manager _ _ w in
  let cm' := Lease.Manager (Lease.leases cm) (Lease.now cm + 55)
               (Lease.trace cm ++ Lease.blocked_trace 5 12 (Lease.now cm)) in
  ChunkMappingManager.add Searcher searcher_add Lease.manager (LeasedManager.acquire_lease s)
    LeasedManager.release_lease blob_container blob_name texts w
  = (set_container_manager _ _ cm' w, Raise AzureError)
  ∧ ChunkMappingManager.remove Searcher searcher_remove Lease.manager
      (LeasedManager.acquire_lease s) LeasedManager.release_lease chunk_id w
    = (set_container_manager _ _ cm' w, Raise AzureError).
Proof.
  intros Hclient Hleased cm cm'.
  assert (LeasedManager.acquire_lease s cm db_container chunk_index_mapping_file
          = (cm', Raise AzureError)) as Hacq.
  { unfold LeasedManager.acquire_lease, Lease.acquire_lease. rewrite Hclient.
    rewrite LeaseFacts.attempts_while_leased by done.
    unfold Lease.max_retries_default, Lease.retry_delay_default. subst cm'.
    repeat f_equal. }
  unfold ChunkMappingManager.add, ChunkMappingManager.remove, with_leases. fold cm.
  by rewrite Hacq.
Qed.

End Contended.

Lemma add_does_not_roll_back_witness :
  ∃ cm1 cm2,
    Example.acquire_lease (container_manager _ _ Instances.world1) db_container
      chunk_index_mapping_file = (cm1, Ok "lease-1")
    ∧ Example.acquire_lease cm1 db_container chunk_blob_mapping_file = (cm2, Ok "lease-1")
    ∧ add_to_searchers Example.searcher Instances.searcher_add "t1"
        (searchers _ _ Instances.world1) []
      = ([("vector", Example.Searcher 1 [] false); ("keyword", Example.Searcher 0 [] true)],
         Raise ValueError)
    ∧ ∃ w', ChunkMappingManager.add Example.searcher Instances.searcher_add Lease.manager
              Example.acquire_lease Example.release_lease "docs" "a.pdf" ["t1"; "t2"]
              Instances.world1 = (w', Raise ValueError)
        ∧ searchers _ _ w'
          = [("vector", Example.Searcher 1 [] false); ("keyword", Example.Searcher 0 [] true)]
        ∧ ChunkIndexMapping.persisted_counter (index_file _ _ w') = 1%Z
        ∧ ChunkBlobMapping.mapping (chunk_blob_mapping_manager _ _ w') = [].
Proof.
  eexists _, _. split; [reflexivity|]. split; [reflexivity|]. split; [reflexivity|].
  destruct (add_does_not_roll_back Instances.searcher_add Example.acquire_lease
              Example.release_lease "docs" "a.pdf" "t1" ["t2"] Instances.world1
              _ _ _ _ _ _ eq_refl eq_refl eq_refl) as (w' & Hadd & Hs & Hc & _ & Hb & _).
  exists w'. split; [exact Hadd|]. split; [exact Hs|]. split; [exact Hc|].
  by rewrite Hb.
Defined.

Lemma remove_undoes_add_in_the_mappings_witness :
  dict_get (ChunkIndexMapping.id_map
              (ChunkIndexMapping.load_from_storage (index_file _ _ Instances.world2)).1) "0"
  = None
  ∧ dict_get (ChunkBlobMapping.mapping (chunk_blob_mapping_manager _ _ Instances.world2)) "0"
    = None
  ∧ ∃ w1 w2,
      ChunkMappingManager.add Example.searcher Example.searcher_add Lease.manager
        Example.acquire_lease Example.release_lease "docs" "a.pdf" ["t1"] Instances.world2
      = (w1, Ok [("0", "t1")])
      ∧ ChunkMappingManager.remove Example.searcher Example.searcher_remove Lease.manager
          Example.acquire_lease Example.release_lease "0" w1 = (w2, Ok ())
      ∧ index_file _ _ w2 = Json (ChunkIndexMapping.MkJson (Some 1%Z) (Some []))
      ∧ blob_file _ _ w2 = Json [].
Proof.
  split; [reflexivity|]. split; [reflexivity|].
  destruct (remove_undoes_add_in_the_mappings Example.searcher_add Example.searcher_remove
              Example.acquire_lease Example.release_lease "docs" "a.pdf" "t1" Instances.world2
              ManagerFacts.example_leases_granted ManagerFacts.example_searchers_accept
              eq_refl eq_refl) as (w1 & w2 & Hadd & _ & Hrem & _ & Hif & _ & Hbf).
  exists w1, w2. split; [exact Hadd|]. split; [exact Hrem|]. split; [exact Hif|exact Hbf].
Defined.

Lemma add_and_remove_give_up_on_a_leased_mapping_file_witness :
  Lease.get_client Lease.always_leased = Ok ()
  ∧ (∀ t, Lease.lease_state_at Lease.always_leased t = Lease.Leased)
  ∧ ChunkMappingManager.add Example.searcher Example.searcher_add Lease.manager
      (LeasedManager.acquire_lease Lease.always_leased) LeasedManager.release_lease
      "docs" "a.pdf" ["t1"] Example.world0
    = (set_container_manager _ _
         (Lease.Manager [] 55 (Lease.blocked_trace 5 12 0)) Example.world0,
       Raise AzureError).
Proof.
  split; [reflexivity|]. split; [done|].
  exact (proj1 (add_and_remove_give_up_on_a_leased_mapping_file Example.searcher_add
                  Example.searcher_remove Lease.always_leased "docs" "a.pdf" ["t1"] "7"
                  Example.world0 eq_refl (λ _, eq_refl))).
Defined.

End ManagerMoreFacts.


(** ** More facts: the keyword searcher *)

Module KeywordFacts.
Import BM25Facts SessionFacts KeywordSearch.

Section Facts.
Context (tokenize : string → list string) {Index : Type}.
Context (BM25Okapi : list (list string) → R → R → result Index).
Context (get_scores : Index → list string → list R).

Implicit Types w : world Index.

Lemma remove_ok_consistent ids m m' :
  BM25.remove tokenize BM25Okapi ids m = (m', Ok ()) → BM25.consistent tokenize BM25Okapi m'.
Proof.
  unfold BM25.remove. destruct (BM25.index m); [|done]. apply update_index_consistent.
Qed.

Lemma unmark_ok_consistent ids m m' :
  BM25.unmark_deleted tokenize BM25Okapi ids m = (m', Ok ()) →
  BM25.consistent tokenize BM25Okapi m'.
Proof.
  unfold BM25.unmark_deleted. destruct (BM25.index m); [|done]. apply update_index_consistent.
Qed.

Lemma then_save_ok {A} (r : BM25.manager Index * result A) w w' a :
  (∀ m a, r = (m, Ok a) → BM25.consistent tokenize BM25Okapi m) →
  then_save r w = (w', Ok a) →
  ∃ data, BM25.export (keyword_index w') = Ok data
          ∧ index_blob w' = Data data
          ∧ BM25.consistent tokenize BM25Okapi (keyword_index w').
Proof.
  intros Hcons. destruct r as [m [a'|e]]; [|done]. specialize (Hcons m a' eq_refl).
  unfold then_save, save. cbn [keyword_index set_keyword_index].
  destruct (BM25.export m) as [data|e] eqn:E; [|done].
  intros [= <- <-]. exists data. by repeat split.
Qed.

Lemma saved_index_loads c kw w w' :
  step tokenize BM25Okapi c w = (w', true) →
  load_or_create_index tokenize BM25Okapi (index_blob w') kw = Ok (keyword_index w').
Proof.
  intros Hstep.
  assert (∃ data, BM25.export (keyword_index w') = Ok data ∧ index_blob w' = Data data
                  ∧ BM25.consistent tokenize BM25Okapi (keyword_index w'))
    as (data & Hexp & Hblob & Hcons).
  { destruct c as [texts|ids|ids]; unfold step, add, remove, restore in Hstep.
    - destruct (then_save _ w) as [w1 [a|e]] eqn:E; [|done]. injection Hstep as <-.
      eapply then_save_ok; [|exact E]. intros m a' Hm. by eapply add_ok_consistent.
    - destruct (then_save _ w) as [w1 [a|e]] eqn:E; [|done]. injection Hstep as <-.
      eapply then_save_ok; [|exact E]. intros m [] Hm. by eapply remove_ok_consistent.
    - destruct (then_save _ w) as [w1 [a|e]] eqn:E; [|done]. injection Hstep as <-.
      eapply then_save_ok; [|exact E]. intros m [] Hm. by eapply unmark_ok_consistent. }
  rewrite Hblob. cbn [load_or_create_index].
  destruct (roundtrip_consistent tokenize BM25Okapi _ Hcons) as (data' & Hexp' & Hload).
  congruence.
Qed.

(** X19.  What the searcher saves is what a restart loads.  After an
    [add], a [remove] or a [restore] that returned, the blob of the index
    holds the export of the index the searcher has, and
    [__load_or_create_index] on that blob returns that index: documents,
    tombstones, hyperparameters, ranking model and active positions. *)
Theorem restart_loads_the_saved_index c kw w w' :
  step tokenize BM25Okapi c w = (w', true) →
  load_or_create_index tokenize BM25Okapi (index_blob w') kw = Ok (keyword_index w').
Proof. apply saved_index_loads. Qed.

(** X20.  A [remove] that raises is not saved.  When the index raises
    inside [remove], the searcher raises the same error without writing
    the blob: its index has the tombstones, the blob has not, and a restart
    loads the index as it was before the call. *)
Theorem failed_remove_is_not_saved ids e kw w m' :
  load_or_create_index tokenize BM25Okapi (index_blob w) kw = Ok (keyword_index w) →
  BM25.remove tokenize BM25Okapi ids (keyword_index w) = (m', Raise e) →
  ∃ w', remove tokenize BM25Okapi ids w = (w', Raise e)
    ∧ keyword_index w' = m'
    ∧ index_blob w' = index_blob w
    ∧ load_or_create_index tokenize BM25Okapi (index_blob w') kw = Ok (keyword_index w)
    ∧ (BM25.index (keyword_index w) ≠ None →
       ∀ i, i ∈ BM25.as_ids ids → i < length (BM25.docs (keyword_index w)) →
            i ∈ BM25.deleted_flags m').
Proof.
  intros Hload Hrem. unfold remove, then_save. rewrite Hrem.
  eexists. split; [reflexivity|]. split; [done|]. split; [done|]. split; [done|].
  intros Hidx i Hi Hlt. unfold BM25.remove in Hrem.
  destruct (BM25.index (keyword_index w)); [|done].
  pose proof (update_index_frame tokenize BM25Okapi
                (BM25.set_deleted_flags
                   (BM25.mark_deleted (length (BM25.docs (keyword_index w)))
                      (BM25.deleted_flags (keyword_index w)) (BM25.as_ids ids))
                   (keyword_index w))) as [_ Hf].
  rewrite Hrem in Hf. cbn [fst BM25.set_deleted_flags BM25.deleted_flags] in Hf.
  rewrite Hf. apply elem_of_mark_deleted. by right.
Qed.

(** What the loop of [search] appends for one hit, read off the files as
    they are when [search] is called: nothing for a hit the index mapping
    names no chunk for (or names the empty chunk id for), the entry of the
    chunk otherwise. *)
Abbreviation reported w :=
  (λ p : nat * R,
     match (ChunkIndexMapping.get_chunk_id "keyword" p.1 (index_file w)).1 with
     | Some chunk_id =>
         if decide (chunk_id = "") then None
         else match files w (chunk_path chunk_id) with
              | Json cd => Some (entry p.1 p.2 chunk_id cd w)
              | _ => None
              end
     | None => None
     end).

(** [get_chunk_id] reloads the file of the index mapping on every call;
    the reloaded file answers every later lookup as the first one did. *)
Lemma get_chunk_id_reload index_name index_id file :
  (ChunkIndexMapping.get_chunk_id index_name index_id file).2.2
  = (ChunkIndexMapping.load_from_storage file).2
  ∧ (∀ name id,
       (ChunkIndexMapping.get_chunk_id name id (ChunkIndexMapping.load_from_storage file).2).1
       = (ChunkIndexMapping.get_chunk_id name id file).1)
  ∧ (ChunkIndexMapping.load_from_storage (ChunkIndexMapping.load_from_storage file).2).2
    = (ChunkIndexMapping.load_from_storage file).2.
Proof. unfold ChunkIndexMapping.get_chunk_id. by destruct file as [| | |j]. Qed.

Lemma reported_hit w p h :
  reported w p = Some h →
  (hit_id h, hit_score h) = p
  ∧ ∃ chunk_id cd,
      (ChunkIndexMapping.get_chunk_id "keyword" (hit_id h) (index_file w)).1 = Some chunk_id
      ∧ chunk_id ≠ ""
      ∧ files w (chunk_path chunk_id) = Json cd
      ∧ h = entry (hit_id h) (hit_score h) chunk_id cd w.
Proof.
  destruct p as [doc_id score]. cbv beta. cbn [fst snd].
  destruct ((ChunkIndexMapping.get_chunk_id "keyword" doc_id (index_file w)).1)
    as [chunk_id|] eqn:Eg; [|done].
  destruct (decide (chunk_id = "")) as [|Hne]; [done|].
  destruct (files w (chunk_path chunk_id)) as [| | |cd] eqn:Ef; try done.
  intros [= <-]. cbn [entry hit_id hit_score]. split; [done|].
  exists chunk_id, cd. by rewrite Eg.
Qed.

Lemma omap_sublist {A B} (f : A → option B) (g : B → A) (l : list A) :
  (∀ a b, f a = Some b → g b = a) → sublist (g <$> omap f l) l.
Proof.
  intros Hf. induction l as [|a l IH]; [done|]. cbn [omap list_omap].
  destruct (f a) as [b|] eqn:Eb.
  - rewrite fmap_cons, (Hf _ _ Eb). by apply sublist_skip.
  - by apply sublist_cons.
Qed.

Lemma omap_Forall {A B} (f : A → option B) (P : B → Prop) (l : list A) :
  (∀ a b, f a = Some b → P b) → Forall P (omap f l).
Proof.
  intros Hf. induction l as [|a l IH]; [constructor|]. cbn [omap list_omap].
  destruct (f a) as [b|] eqn:Eb; [|done]. constructor; [by eapply Hf|done].
Qed.

Lemma reported_sublist w hits :
  sublist ((λ h, (hit_id h, hit_score h)) <$> omap (reported w) hits) hits.
Proof. apply omap_sublist. intros p h Hh. by apply reported_hit in Hh as [? _]. Qed.

Lemma reported_Forall w hits :
  Forall (λ h, ∃ chunk_id cd,
            (ChunkIndexMapping.get_chunk_id "keyword" (hit_id h) (index_file w)).1
            = Some chunk_id
            ∧ chunk_id ≠ ""
            ∧ files w (chunk_path chunk_id) = Json cd
            ∧ h = entry (hit_id h) (hit_score h) chunk_id cd w)
         (omap (reported w) hits).
Proof. apply omap_Forall. intros p h Hh. by apply reported_hit in Hh as [_ ?]. Qed.

Lemma reported_same w w1 p :
  (∀ id, (ChunkIndexMapping.get_chunk_id "keyword" id (index_file w1)).1
         = (ChunkIndexMapping.get_chunk_id "keyword" id (index_file w)).1) →
  files w1 = files w → chunk_blob_mapping w1 = chunk_blob_mapping w →
  reported w1 p = reported w p.
Proof. intros Hg Hf Hc. cbv beta. rewrite Hg, Hf. unfold entry. by rewrite Hc. Qed.

Lemma collect_spec hits w w' results :
  collect hits w = (w', Ok results) →
  results = omap (reported w) hits
  ∧ Forall (λ p, ∀ chunk_id,
              (ChunkIndexMapping.get_chunk_id "keyword" p.1 (index_file w)).1 = Some chunk_id →
              chunk_id ≠ "" → ∃ cd, files w (chunk_path chunk_id) = Json cd) hits
  ∧ keyword_index w' = keyword_index w
  ∧ chunk_blob_mapping w' = chunk_blob_mapping w
  ∧ index_blob w' = index_blob w
  ∧ blob_file w' = blob_file w
  ∧ files w' = files w
  ∧ (index_file w' = index_file w
     ∨ index_file w' = (ChunkIndexMapping.load_from_storage (index_file w)).2).
Proof.
  revert w w' results. induction hits as [|[doc_id score] hits IH]; intros w w' results.
  - intros [= <- <-]. split; [done|]. split; [constructor|]. repeat split; try done. by left.
  - cbn [collect omap list_omap fst snd].
    destruct (get_chunk_id_reload "keyword" doc_id (index_file w)) as (Hfile & Hsame & Hidem).
    destruct (ChunkIndexMapping.get_chunk_id "keyword" doc_id (index_file w))
      as [chunk_id ci] eqn:Eg. cbn [fst snd] in Hfile |- *.
    set (w1 := set_index_file ci.2 w).
    assert (index_file w1 = (ChunkIndexMapping.load_from_storage (index_file w)).2) as Hw1.
    { unfold w1. by cbn [set_index_file index_file]. }
    assert (∀ w2 rs, collect hits w1 = (w2, Ok rs) →
              rs = omap (reported w) hits
              ∧ Forall (λ p, ∀ chunk_id,
                          (ChunkIndexMapping.get_chunk_id "keyword" p.1 (index_file w)).1
                          = Some chunk_id →
                          chunk_id ≠ "" → ∃ cd, files w (chunk_path chunk_id) = Json cd) hits
              ∧ keyword_index w2 = keyword_index w
              ∧ chunk_blob_mapping w2 = chunk_blob_mapping w
              ∧ index_blob w2 = index_blob w
              ∧ blob_file w2 = blob_file w
              ∧ files w2 = files w
              ∧ (index_file w2 = index_file w
                 ∨ index_file w2 = (ChunkIndexMapping.load_from_storage (index_file w)).2))
      as IH'.
    { intros w2 rs Hc. apply IH in Hc as (Hrs & Hread & H1 & H2 & H3 & H4 & H5 & H6).
      assert (∀ id, (ChunkIndexMapping.get_chunk_id "keyword" id (index_file w1)).1
                    = (ChunkIndexMapping.get_chunk_id "keyword" id (index_file w)).1) as Hg.
      { intros id. rewrite Hw1. apply Hsame. }
      split; [|split].
      - rewrite Hrs. apply list_omap_ext, Forall2_same_length_lookup. split; [done|].
        intros i p q Hp Hq. rewrite Hp in Hq. injection Hq as <-.
        by apply reported_same.
      - eapply Forall_impl; [exact Hread|]. intros p Hp c. rewrite <- Hg. apply Hp.
      - do 5 (split; [done|]). right.
        destruct H6 as [->| ->]; [done|]. by rewrite Hw1, Hidem. }
    destruct chunk_id as [chunk_id|].
    + destruct (decide (chunk_id = "")) as [->|Hne].
      * intros Hc. destruct (IH' _ _ Hc) as (Hrs & Hread & Hrest).
        split; [done|]. split; [|done]. constructor; [|done].
        cbn [fst]. rewrite Eg. cbn [fst]. intros c [= <-]. done.
      * change (files w1) with (files w).
        destruct (files w (chunk_path chunk_id)) as [| | |cd] eqn:Ef; try done.
        destruct (collect hits w1) as [w2 [rs|e]] eqn:Ec; [|done].
        intros [= <- <-]. destruct (IH' _ _ eq_refl) as (Hrs & Hread & Hrest).
        split; [by rewrite Hrs|]. split; [|done].
        constructor; [|done]. cbn [fst]. rewrite Eg. cbn [fst].
        intros c [= <-] _. by exists cd.
    + intros Hc. destruct (IH' _ _ Hc) as (Hrs & Hread & Hrest).
      split; [done|]. split; [|done]. constructor; [|done].
      cbn [fst]. rewrite Eg. cbn [fst]. done.
Qed.

(** X21.  [search] reports hits of the index only, in their rank order.
    When it returns, its entries are exactly the entries of the hits of
    the index that the index mapping, as stored when [search] is called,
    names a non-empty chunk id for under ["keyword"], in the order of the
    hits: the ids and scores of the entries are a sublist of the hits; the
    entry of a hit is built from the chunk file of the chunk id that
    [get_chunk_id "keyword"] gives for the id of the hit, and that file
    was read (a hit without a chunk is left out, and the chunk file of
    every hit with a chunk is there); and the search has changed nothing
    but, at most, the file of the index mapping, which is the stored file
    or what reloading it leaves. *)
Theorem search_reports_mapped_hits_in_rank_order query k w w' results :
  search tokenize get_scores query k w = (w', Ok results) →
  ∃ ids scores,
    BM25.search tokenize get_scores query k (keyword_index w) = Ok (ids, scores)
    ∧ results = omap (reported w) (zip ids scores)
    ∧ sublist ((λ h, (hit_id h, hit_score h)) <$> results) (zip ids scores)
    ∧ length results ≤ length ids
    ∧ Forall (λ h, ∃ chunk_id cd,
                (ChunkIndexMapping.get_chunk_id "keyword" (hit_id h) (index_file w)).1
                = Some chunk_id
                ∧ chunk_id ≠ ""
                ∧ files w (chunk_path chunk_id) = Json cd
                ∧ h = entry (hit_id h) (hit_score h) chunk_id cd w) results
    ∧ Forall (λ p, ∀ chunk_id,
                (ChunkIndexMapping.get_chunk_id "keyword" p.1 (index_file w)).1
                = Some chunk_id →
                chunk_id ≠ "" → ∃ cd, files w (chunk_path chunk_id) = Json cd)
             (zip ids scores)
    ∧ keyword_index w' = keyword_index w
    ∧ chunk_blob_mapping w' = chunk_blob_mapping w
    ∧ index_blob w' = index_blob w
    ∧ blob_file w' = blob_file w
    ∧ files w' = files w
    ∧ (index_file w' = index_file w
       ∨ index_file w' = (ChunkIndexMapping.load_from_storage (index_file w)).2).
Proof.
  unfold search. destruct (BM25.search _ _ _ _ _) as [[ids scores]|e]; [|done].
  intros Hc. apply collect_spec in Hc as (Hrs & Hread & Hrest).
  exists ids, scores. split; [done|]. split; [exact Hrs|].
  split; [rewrite Hrs; apply reported_sublist|].
  split.
  { pose proof (reported_sublist w (zip ids scores)) as Hs. rewrite <- Hrs in Hs.
    apply sublist_length in Hs. rewrite length_fmap in Hs.
    etrans; [exact Hs|]. rewrite length_zip_with. lia. }
  split; [rewrite Hrs; apply reported_Forall|]. by split.
Qed.

End Facts.

Import RankFacts ExampleFacts.

Lemma keyword_a_step :
  step Example.tokenize RankBM25.BM25Okapi (Add (BM25.Str "a")) Instances.keyword0
  = (Instances.keyword_a, true)
  ∧ keyword_index Instances.keyword_a
    = BM25.Manager (Example.index_of [["a"]]) ["a"] ∅ (Some [0]) 1.5 0.75.
Proof.
  destruct stale_reached as [Hadd _]. destruct index_a as (i & Hb & Hi).
  unfold Instances.keyword_a, step, add, then_save, save, Instances.keyword0.
  cbn [keyword_index]. unfold Example.add in Hadd. rewrite Hadd.
  cbn [keyword_index set_keyword_index]. unfold BM25.export. cbn [BM25.index].
  rewrite Hi. done.
Qed.

Lemma restart_loads_the_saved_index_witness :
  step Example.tokenize RankBM25.BM25Okapi (Add (BM25.Str "a")) Instances.keyword0
  = (Instances.keyword_a, true)
  ∧ load_or_create_index Example.tokenize RankBM25.BM25Okapi
      (index_blob Instances.keyword_a) Instances.no_kwargs
    = Ok (keyword_index Instances.keyword_a)
  ∧ BM25.docs (keyword_index Instances.keyword_a) = ["a"].
Proof.
  split; [exact (proj1 keyword_a_step)|]. split.
  - exact (restart_loads_the_saved_index Example.tokenize RankBM25.BM25Okapi
             (Add (BM25.Str "a")) Instances.no_kwargs Instances.keyword0 Instances.keyword_a
             (proj1 keyword_a_step)).
  - by rewrite (proj2 keyword_a_step).
Defined.

Lemma keyword_a_loads :
  load_or_create_index Example.tokenize RankBM25.BM25Okapi
    (index_blob Instances.keyword_a) Instances.no_kwargs
  = Ok (keyword_index Instances.keyword_a).
Proof. eapply saved_index_loads. exact (proj1 keyword_a_step). Qed.

Lemma keyword_a_remove :
  BM25.remove Example.tokenize RankBM25.BM25Okapi (BM25.Int 0)
    (keyword_index Instances.keyword_a)
  = (Example.stale, Raise ZeroDivisionError).
Proof. rewrite (proj2 keyword_a_step). exact (proj2 stale_reached). Qed.

Lemma failed_remove_is_not_saved_witness :
  load_or_create_index Example.tokenize RankBM25.BM25Okapi
    (index_blob Instances.keyword_a) Instances.no_kwargs
  = Ok (keyword_index Instances.keyword_a)
  ∧ BM25.remove Example.tokenize RankBM25.BM25Okapi (BM25.Int 0)
      (keyword_index Instances.keyword_a)
    = (Example.stale, Raise ZeroDivisionError)
  ∧ ∃ w', remove Example.tokenize RankBM25.BM25Okapi (BM25.Int 0) Instances.keyword_a
          = (w', Raise ZeroDivisionError)
      ∧ BM25.deleted_flags (keyword_index w') = {[0]}
      ∧ ∃ m, load_or_create_index Example.tokenize RankBM25.BM25Okapi (index_blob w')
               Instances.no_kwargs = Ok m
             ∧ BM25.deleted_flags m = ∅.
Proof.
  split; [exact keyword_a_loads|]. split; [exact keyword_a_remove|].
  destruct (failed_remove_is_not_saved Example.tokenize RankBM25.BM25Okapi (BM25.Int 0)
              ZeroDivisionError Instances.no_kwargs Instances.keyword_a Example.stale
              keyword_a_loads keyword_a_remove) as (w' & Hrem & Hidx & _ & Hload & _).
  exists w'. split; [exact Hrem|]. split; [by rewrite Hidx|].
  exists (keyword_index Instances.keyword_a). split; [exact Hload|].
  by rewrite (proj2 keyword_a_step).
Defined.

Lemma keyword_ready_search :
  ∃ score,
    search Example.tokenize RankBM25.get_scores "a" 5 Instances.keyword_ready
    = (Instances.keyword_ready,
       Ok [Hit 0 score "a" unknown_document (Some 1%Z)]).
Proof.
  destruct stale_search as [score Hs]. exists score.
  assert (BM25.search Example.tokenize RankBM25.get_scores "a" 5
            (keyword_index Instances.keyword_ready) = Ok ([0], [score])) as Hsearch.
  { unfold Instances.keyword_ready. cbn [keyword_index]. rewrite (proj2 keyword_a_step).
    revert Hs. unfold Example.search, Example.stale, BM25.search, BM25.index_is_empty.
    cbn [BM25.index BM25.active_indices length]. done. }
  unfold search. rewrite Hsearch. cbn [zip zip_with collect].
  unfold Instances.keyword_ready at 1. cbn [index_file].
  change (ChunkIndexMapping.get_chunk_id "keyword" 0
            (Json (ChunkIndexMapping.MkJson (Some 1%Z) (Some [("0", [("keyword", 0)])]))))
    with (Some "0",
          (ChunkIndexMapping.Mk 1 [("0", [("keyword", 0)])],
           Json (ChunkIndexMapping.MkJson (Some 1%Z) (Some [("0", [("keyword", 0)])])))).
  cbn [snd fst]. rewrite decide_False by done.
  change (set_index_file _ _) with Instances.keyword_ready.
  unfold Instances.keyword_ready at 1. cbn [files].
  rewrite decide_True by done.
  unfold entry, ChunkBlobMapping.get_blob_info.
  change (chunk_blob_mapping Instances.keyword_ready) with (ChunkBlobMapping.Mk [] []).
  done.
Qed.

Lemma keyword_ready_chunk_of_hit :
  (ChunkIndexMapping.get_chunk_id "keyword" 0 (index_file Instances.keyword_ready)).1
  = Some "0".
Proof. reflexivity. Qed.

Lemma search_reports_mapped_hits_in_rank_order_witness :
  ∃ w' results,
    search Example.tokenize RankBM25.get_scores "a" 5 Instances.keyword_ready
    = (w', Ok results)
    ∧ hit_id <$> results = [0]
    ∧ hit_chunk <$> results = ["a"]
    ∧ hit_document_name <$> results = [unknown_document]
    ∧ (ChunkIndexMapping.get_chunk_id "keyword" 0 (index_file Instances.keyword_ready)).1
      = Some "0"
    ∧ files w' = files Instances.keyword_ready
    ∧ ∃ ids scores,
        BM25.search Example.tokenize RankBM25.get_scores "a" 5
          (keyword_index Instances.keyword_ready) = Ok (ids, scores)
        ∧ length results ≤ length ids.
Proof.
  destruct keyword_ready_search as [score Hs].
  exists Instances.keyword_ready, [Hit 0 score "a" unknown_document (Some 1%Z)].
  split; [exact Hs|]. split; [reflexivity|]. split; [reflexivity|]. split; [reflexivity|].
  split; [exact keyword_ready_chunk_of_hit|].
  destruct (search_reports_mapped_hits_in_rank_order Example.tokenize RankBM25.get_scores
              "a" 5 Instances.keyword_ready _ _ Hs)
    as (ids & scores & H1 & _ & _ & H2 & _ & _ & _ & _ & _ & _ & H3 & _).
  split; [exact H3|].
  exists ids, scores. split; [exact H1|exact H2].
Defined.

End KeywordFacts.


(** ** More facts: the document processor *)

Module ProcessorFacts.
Import DictFacts CBMFacts ManagerFacts BlobDocumentProcessor.

(** The names of the three kinds of files do not meet. *)
Lemma string_app_cons a s t : String a s +:+ t = String a (s +:+ t).
Proof. reflexivity. Qed.

Lemma string_length_app s t : String.length (s +:+ t) = String.length s + String.length t.
Proof.
  induction s as [|a s IH]; [done|].
  rewrite string_app_cons. cbn [String.length]. by rewrite IH.
Qed.

Lemma string_app_inj_r s1 s2 t : s1 +:+ t = s2 +:+ t → s1 = s2.
Proof.
  revert s2. induction s1 as [|a s1 IH]; intros [|b s2] H.
  - done.
  - apply (f_equal String.length) in H. rewrite !string_length_app in H.
    cbn [String.length] in H. lia.
  - apply (f_equal String.length) in H. rewrite !string_length_app in H.
    cbn [String.length] in H. lia.
  - rewrite !string_app_cons in H. injection H as -> H. f_equal. by apply IH.
Qed.

Lemma page_path_inj blob_name n m : page_path blob_name n = page_path blob_name m → n = m.
Proof.
  unfold page_path. rewrite !string_app_cons. intros H.
  injection H as H. apply (inj (String.app blob_name)) in H.
  injection H as H.
  change ("" +:+ pretty n +:+ ".txt") with (pretty n +:+ ".txt") in H.
  change ("" +:+ pretty m +:+ ".txt") with (pretty m +:+ ".txt") in H.
  apply string_app_inj_r in H. by apply (inj pretty) in H.
Qed.

Lemma chunk_path_not_page chunk_id blob_name n :
  KeywordSearch.chunk_path chunk_id ≠ page_path blob_name n.
Proof. unfold KeywordSearch.chunk_path, page_path. rewrite !string_app_cons. discriminate. Qed.

Lemma text_path_not_page blob_name blob_name' n : text_path blob_name ≠ page_path blob_name' n.
Proof. unfold text_path, page_path. rewrite !string_app_cons. discriminate. Qed.

Lemma chunk_path_not_text chunk_id blob_name :
  KeywordSearch.chunk_path chunk_id ≠ text_path blob_name.
Proof. unfold KeywordSearch.chunk_path, text_path. rewrite !string_app_cons. discriminate. Qed.

Lemma chunk_path_inj : Inj (=) (=) KeywordSearch.chunk_path.
Proof.
  intros a b. unfold KeywordSearch.chunk_path. intros H.
  apply (inj (String.app "chunks/chunk_")) in H. by apply string_app_inj_r in H.
Qed.

(** Deleting several keys of a dictionary. *)
Lemma dict_del_absent {V} (d : dict V) k : dict_get d k = None → dict_del d k = d.
Proof.
  unfold dict_del. induction d as [|[k0 v0] d IH]; [done|]. cbn [dict_get].
  destruct (decide (k0 = k)) as [->|Hne]; [done|]. intros H.
  rewrite filter_cons, decide_True by done. by rewrite IH.
Qed.

Lemma foldl_dict_del {V} (d : dict V) ks :
  foldl dict_del d ks = filter (λ p, p.1 ∉ ks) d.
Proof.
  revert d. induction ks as [|k ks IH]; intros d; cbn [foldl].
  - induction d as [|p d IHd]; [done|].
    rewrite filter_cons_True by apply not_elem_of_nil. by rewrite <- IHd.
  - rewrite IH. unfold dict_del. rewrite list_filter_filter. apply list_filter_iff.
    intros p. rewrite not_elem_of_cons. tauto.
Qed.

Lemma grouped_NoDup m k : NoDup m.*1 → NoDup (ChunkBlobMapping.grouped m k).
Proof.
  intros H. unfold ChunkBlobMapping.grouped.
  eapply sublist_NoDup; [exact H|]. apply fmap_sublist, sublist_filter.
Qed.

Lemma grouped_elem m k id :
  id ∈ ChunkBlobMapping.grouped m k
  ↔ ∃ info, (id, info) ∈ m
      ∧ ChunkBlobMapping.key (ChunkBlobMapping.container info) (ChunkBlobMapping.blob info) = k.
Proof.
  unfold ChunkBlobMapping.grouped. rewrite list_elem_of_fmap. split.
  - intros ([id' info] & -> & [Hk Hin]%list_elem_of_filter). by exists info.
  - intros (info & Hin & Hk). exists (id, info). split; [done|].
    by apply list_elem_of_filter.
Qed.

Lemma NoDup_fst_agree {V} (d : dict V) k v v' :
  NoDup d.*1 → (k, v) ∈ d → (k, v') ∈ d → v = v'.
Proof.
  induction d as [|[k0 v0] d IH]; [by intros _ ?%elem_of_nil|].
  rewrite fmap_cons, NoDup_cons. cbn [fst]. intros [Hk0 Hd] H1 H2.
  apply elem_of_cons in H1 as [H1|H1], H2 as [H2|H2]; simplify_eq.
  - done.
  - exfalso. apply Hk0, list_elem_of_fmap. by exists (k0, v').
  - exfalso. apply Hk0, list_elem_of_fmap. by exists (k0, v).
  - by apply IH.
Qed.

(** What is left of the reverse index when the chunks of one blob are
    deleted from the forward map. *)
Lemma grouped_without_own m k :
  ChunkBlobMapping.grouped (foldl dict_del m (ChunkBlobMapping.grouped m k)) k = [].
Proof.
  rewrite foldl_dict_del. apply elem_of_nil_inv. intros id.
  rewrite grouped_elem. intros (info & [Hout Hin]%list_elem_of_filter & Hk).
  apply Hout. cbn [fst]. apply grouped_elem. by exists info.
Qed.

Lemma grouped_without_other m k k' :
  NoDup m.*1 → k' ≠ k →
  ChunkBlobMapping.grouped (foldl dict_del m (ChunkBlobMapping.grouped m k)) k'
  = ChunkBlobMapping.grouped m k'.
Proof.
  intros Hnd Hne. rewrite foldl_dict_del. set (ids := ChunkBlobMapping.grouped m k).
  unfold ChunkBlobMapping.grouped. rewrite list_filter_filter. f_equal.
  apply SessionFacts.filter_agree.
  apply Forall_forall. intros [id info] Hin. cbn [fst snd]. split; [tauto|].
  intros Hk. split; [done|]. subst ids. intros (info' & Hin' & Hk')%grouped_elem.
  rewrite (NoDup_fst_agree m id info info') in Hk by done. congruence.
Qed.

(** Adding the chunks of one blob to the forward map. *)
Lemma dict_set_all_new {V} (d : dict V) ks v :
  NoDup ks → (∀ k, k ∈ ks → dict_get d k = None) →
  foldl (λ d k, dict_set d k v) d ks = d ++ ((λ k, (k, v)) <$> ks).
Proof.
  revert d. induction ks as [|k ks IH]; intros d Hnd Hnew; cbn [foldl fmap list_fmap].
  - by rewrite app_nil_r.
  - apply NoDup_cons in Hnd as [Hk Hnd].
    rewrite dict_set_new by (apply Hnew, elem_of_cons; by left).
    rewrite IH; [by rewrite <- app_assoc|done|].
    intros k' Hk'. rewrite dict_get_app, Hnew by (apply elem_of_cons; by right).
    cbn [dict_get]. rewrite decide_False; [done|]. by intros ->.
Qed.

Lemma add_mappings_spec blob_container blob_name chunk_ids c :
  let c' := foldl (λ c id, (ChunkBlobMapping.add_mapping id blob_container blob_name c).1)
              c chunk_ids in
  ChunkBlobMapping.mapping c'
  = foldl (λ d id, dict_set d id (ChunkBlobMapping.BlobInfo blob_container blob_name))
      (ChunkBlobMapping.mapping c) chunk_ids
  ∧ (ChunkBlobMapping.reverse_ok c → ChunkBlobMapping.reverse_ok c')
  ∧ (NoDup (ChunkBlobMapping.mapping c).*1 → NoDup (ChunkBlobMapping.mapping c').*1).
Proof.
  revert c. induction chunk_ids as [|id chunk_ids IH]; intros c; [done|].
  cbn [foldl]. destruct (IH (ChunkBlobMapping.add_mapping id blob_container blob_name c).1)
    as (Hm & Hr & Hn). cbv zeta in *.
  split; [exact Hm|]. split.
  - intros Hok. apply Hr.
    exact (step_reverse_ok (ChunkBlobMapping.AddMapping id blob_container blob_name)
             (c, NotFound) Hok).
  - intros Hnd. apply Hn. cbn. by apply MappingFacts.dict_set_NoDup.
Qed.

Lemma grouped_own blob_container blob_name chunk_ids :
  ChunkBlobMapping.grouped
    ((λ id, (id, ChunkBlobMapping.BlobInfo blob_container blob_name)) <$> chunk_ids)
    (ChunkBlobMapping.key blob_container blob_name) = chunk_ids.
Proof.
  induction chunk_ids as [|id chunk_ids IH]; [done|].
  rewrite fmap_cons, grouped_cons. cbn [fst snd ChunkBlobMapping.container
    ChunkBlobMapping.blob]. by rewrite decide_True, IH.
Qed.

Lemma dict_del_all_new {V} (d : dict V) ks v :
  (∀ k, k ∈ ks → dict_get d k = None) →
  foldl dict_del (d ++ ((λ k, (k, v)) <$> ks)) ks = d.
Proof.
  intros Hnew. rewrite foldl_dict_del, filter_app.
  replace (filter (λ p : string * V, p.1 ∉ ks) ((λ k, (k, v)) <$> ks)) with (@nil (string * V)).
  - rewrite app_nil_r. induction d as [|[k0 v0] d IH]; [done|].
    assert (k0 ∉ ks) as Hk0.
    { intros Hin. specialize (Hnew k0 Hin). cbn [dict_get] in Hnew.
      by rewrite decide_True in Hnew. }
    rewrite filter_cons_True by done. f_equal. apply IH. intros k Hk.
    specialize (Hnew k Hk). cbn [dict_get] in Hnew.
    by destruct (decide (k0 = k)).
  - symmetry. apply elem_of_nil_inv. intros p [Hout Hin]%list_elem_of_filter.
    apply list_elem_of_fmap in Hin as (k & -> & Hk). by apply Hout.
Qed.

Section Facts.
Context {Searcher ContainerManager : Type}.
Variable searcher_add : Searcher → string → Searcher * result (list nat).
Variable searcher_remove : Searcher → nat → Searcher * result ().
Variable acquire_lease : ContainerManager → string → string → ContainerManager * result string.
Variable release_lease : ContainerManager → string → string → ContainerManager.
Variable json_loads : string → result (option Z).
Variable get_file_extension : string → string.
Variable parse_by_page : string → string → result (list page).
Variable parse_full_text : string → string → result string.
Variable now_isoformat : string → string.

Abbreviation world := (world Searcher ContainerManager).
Abbreviation chunk_ids_of container_name blob_name w :=
  (ChunkBlobMapping.get_chunk_ids_by_blob container_name blob_name
     (ChunkMappingManager.chunk_blob_mapping_manager _ _ (mapping_manager w))).
Abbreviation blob_mapping_of w :=
  (ChunkMappingManager.chunk_blob_mapping_manager _ _ (mapping_manager w)).
Abbreviation counter_of m :=
  (ChunkIndexMapping.persisted_counter (ChunkMappingManager.index_file _ _ m)).
Abbreviation delete_chunks :=
  (delete_chunks Searcher searcher_remove ContainerManager acquire_lease release_lease
     json_loads).
Abbreviation delete_document_internal :=
  (delete_document_internal Searcher searcher_remove ContainerManager acquire_lease
     release_lease json_loads).
Abbreviation delete_document :=
  (delete_document Searcher searcher_remove ContainerManager acquire_lease release_lease
     json_loads).
Abbreviation process :=
  (process Searcher searcher_add searcher_remove ContainerManager acquire_lease release_lease
     json_loads get_file_extension parse_by_page parse_full_text now_isoformat).
Abbreviation process_and_save_document :=
  (process_and_save_document Searcher searcher_add searcher_remove ContainerManager
     acquire_lease release_lease json_loads get_file_extension parse_by_page parse_full_text
     now_isoformat).

Lemma delete_internal_lost_chunk container_name blob_name chunk_id rest (w : world) :
  chunk_ids_of container_name blob_name w = chunk_id :: rest →
  dict_get (db_files w) (KeywordSearch.chunk_path chunk_id) = None →
  delete_document_internal container_name blob_name w = (w, Raise ResourceNotFoundError).
Proof.
  intros Hids Hfile. unfold BlobDocumentProcessor.delete_document_internal.
  rewrite Hids. cbn [BlobDocumentProcessor.delete_chunks]. unfold read_page_number.
  by rewrite Hfile.
Qed.

(** X22.  A document with a lost chunk file is stuck.  When the reverse
    index lists a chunk for the document and the file of the first listed
    chunk is not in the database container, [delete_document] raises
    ResourceNotFoundError before it removes anything, and so does
    [process_and_save_document], in the [try] block and again in the
    handler: the document can be neither deleted nor processed again, and
    nothing has changed. *)
Theorem document_with_a_lost_chunk_file_is_stuck container_name blob_name chunk_id rest
    (w : world) :
  chunk_ids_of container_name blob_name w = chunk_id :: rest →
  dict_get (db_files w) (KeywordSearch.chunk_path chunk_id) = None →
  delete_document container_name blob_name w = (w, Raise ResourceNotFoundError)
  ∧ process_and_save_document container_name blob_name w = (w, Raise ResourceNotFoundError).
Proof.
  intros Hids Hfile.
  pose proof (delete_internal_lost_chunk _ _ _ _ _ Hids Hfile) as Hdel.
  split; [exact Hdel|].
  unfold BlobDocumentProcessor.process_and_save_document, BlobDocumentProcessor.process.
  rewrite Hids, Hdel. by rewrite Hdel.
Qed.

(** X23.  The handler cannot clean up after an [add] that failed half way.
    When the document has no chunk yet, is read and parsed, and the mapping
    manager's [add] raises after it has registered a chunk for the document,
    the handler of [process_and_save_document] looks for the file of that
    chunk, which is uploaded only after [add] has returned:
    ResourceNotFoundError is raised in place of the error of [add], and the
    manager stays as the failed [add] left it, with the chunk registered. *)
Theorem failed_add_is_not_cleaned_up container_name blob_name blob_content parsed_content
    full_text m e chunk_id rest (w : world) :
  chunk_ids_of container_name blob_name w = [] →
  documents w container_name blob_name = Some blob_content →
  parse_by_page blob_content (get_file_extension blob_name) = Ok parsed_content →
  parse_full_text blob_content (get_file_extension blob_name) = Ok full_text →
  ChunkMappingManager.add Searcher searcher_add ContainerManager acquire_lease release_lease
    container_name blob_name (all_chunks_of parsed_content).*1 (mapping_manager w)
  = (m, Raise e) →
  ChunkBlobMapping.get_chunk_ids_by_blob container_name blob_name
    (ChunkMappingManager.chunk_blob_mapping_manager _ _ m) = chunk_id :: rest →
  dict_get (db_files w) (KeywordSearch.chunk_path chunk_id) = None →
  process_and_save_document container_name blob_name w
  = (set_mapping_manager m w, Raise ResourceNotFoundError).
Proof.
  intros Hnone Hdoc Hpages Htext Hadd Hids Hfile.
  unfold BlobDocumentProcessor.process_and_save_document, BlobDocumentProcessor.process.
  rewrite Hnone, Hdoc, Hpages, Htext, Hadd.
  by rewrite (delete_internal_lost_chunk container_name blob_name chunk_id rest
                (set_mapping_manager m w)).
Qed.

Lemma delete_chunks_keeps_page_zero blob_name chunk_ids (w : world) :
  dict_get (db_files (delete_chunks blob_name chunk_ids w).1) (page_path blob_name 0)
  = dict_get (db_files w) (page_path blob_name 0).
Proof.
  revert w. induction chunk_ids as [|chunk_id rest IH]; intros w; [done|].
  cbn [BlobDocumentProcessor.delete_chunks].
  destruct (read_page_number _ _ w) as [page_number|e]; [|done].
  destruct (ChunkMappingManager.remove _ _ _ _ _ _ _) as [m [[]|e]]; [|done].
  rewrite IH.
  assert (dict_get (db_files (delete (KeywordSearch.chunk_path chunk_id)
                                (set_mapping_manager m w))) (page_path blob_name 0)
          = dict_get (db_files w) (page_path blob_name 0)) as Hfirst.
  { cbn [delete db_files set_db_files set_mapping_manager].
    rewrite dict_get_del, decide_False; [done|apply chunk_path_not_page]. }
  destruct page_number as [n|]; [|done].
  destruct (decide (n = 0%Z)) as [->|Hn]; [done|].
  replace (n =? 0)%Z with false by (symmetry; by apply Z.eqb_neq).
  cbn [negb andb]. destruct (blob_exist _ _); [|done].
  cbn [delete db_files set_db_files]. rewrite dict_get_del, decide_False; [done|].
  intros Heq. by apply page_path_inj in Heq.
Qed.

(** X24.  [delete_document] never removes the file of page 0.  A page
    number 0, as the text, CSV and mail parsers give to the first page, is
    falsy in [if page_number and ...]: whatever the chunks of the document
    are and whether the deletion succeeds or not, the blob
    [pages/<blob_name>_0.txt] is afterwards what it was before. *)
Theorem delete_document_keeps_the_file_of_page_zero container_name blob_name (w : world) :
  dict_get (db_files (delete_document container_name blob_name w).1) (page_path blob_name 0)
  = dict_get (db_files w) (page_path blob_name 0).
Proof.
  unfold BlobDocumentProcessor.delete_document, BlobDocumentProcessor.delete_document_internal.
  pose proof (delete_chunks_keeps_page_zero blob_name
                (chunk_ids_of container_name blob_name w) w) as H.
  destruct (delete_chunks _ _ w) as [w' [[]|e]]; [|done].
  cbn [fst delete db_files set_db_files] in *.
  rewrite dict_get_del, decide_False; [done|apply text_path_not_page].
Qed.

Lemma remove_mapping_forward chunk_id c file :
  ChunkBlobMapping.mapping (ChunkBlobMapping.remove_mapping chunk_id c file).1
  = dict_del (ChunkBlobMapping.mapping c) chunk_id.
Proof.
  unfold ChunkBlobMapping.remove_mapping.
  destruct (dict_get (ChunkBlobMapping.mapping c) chunk_id) eqn:E; [done|].
  by rewrite dict_del_absent.
Qed.

Lemma remove_granted chunk_id (m : ChunkMappingManager.world Searcher ContainerManager) :
  (∀ cm file, ∃ cm' id, acquire_lease cm ChunkMappingManager.db_container file = (cm', Ok id)) →
  ∃ m', ChunkMappingManager.remove Searcher searcher_remove ContainerManager acquire_lease
          release_lease chunk_id m = (m', Ok ())
    ∧ ChunkMappingManager.chunk_blob_mapping_manager _ _ m'
      = (ChunkBlobMapping.remove_mapping chunk_id
           (ChunkMappingManager.chunk_blob_mapping_manager _ _ m)
           (ChunkMappingManager.blob_file _ _ m)).1
    ∧ counter_of m' = counter_of m.
Proof.
  intros Hlease.
  destruct (Hlease (ChunkMappingManager.container_manager _ _ m)
              ChunkMappingManager.chunk_index_mapping_file) as (cm1 & id1 & H1).
  destruct (Hlease cm1 ChunkMappingManager.chunk_blob_mapping_file) as (cm2 & id2 & H2).
  unfold ChunkMappingManager.remove. rewrite (with_leases_granted _ _ _ _ _ _ _ _ H1 H2).
  set (m0 := ChunkMappingManager.set_container_manager _ _ cm2
               (ChunkMappingManager.set_container_manager _ _ cm1 m)).
  destruct (remove_body_spec searcher_remove chunk_id m0) as (Hr & _).
  destruct (ManagerMoreFacts.remove_body_mappings searcher_remove chunk_id m0) as [Hi Hb].
  cbv zeta in *. rewrite Hr. eexists. split; [reflexivity|].
  destruct (release_if_frame release_lease (Some id1)
              ChunkMappingManager.chunk_index_mapping_file
              (ChunkMappingManager.remove_body Searcher searcher_remove ContainerManager
                 chunk_id m0).1) as (_ & _ & F3 & F4 & _).
  destruct (release_if_frame release_lease (Some id2)
              ChunkMappingManager.chunk_blob_mapping_file
              (ChunkMappingManager.release_if Searcher ContainerManager release_lease
                 (Some id1) ChunkMappingManager.chunk_index_mapping_file
                 (ChunkMappingManager.remove_body Searcher searcher_remove ContainerManager
                    chunk_id m0).1)) as (_ & _ & G3 & G4 & _).
  cbv zeta in *. rewrite G3, F3, G4, F4. split; [apply (f_equal fst) in Hb; exact Hb|].
  apply (f_equal snd) in Hi. cbn [snd] in Hi. rewrite Hi.
  pose proof (CIMFacts.step_counter (ChunkIndexMapping.RemoveMapping chunk_id)
                (ChunkIndexMapping.get_index_ids chunk_id
                   (ChunkMappingManager.index_file _ _ m0)).2.2) as H3.
  pose proof (CIMFacts.step_counter (ChunkIndexMapping.GetIndexIds chunk_id)
                (ChunkMappingManager.index_file _ _ m0)) as H4.
  cbn [ChunkIndexMapping.step fst snd] in H3, H4. by rewrite H3, H4.
Qed.

(** The loop of [__delete_document_internal] where the leases are granted
    and the files of the chunks are read. *)
Lemma delete_chunks_granted blob_name chunk_ids (w : world) :
  (∀ cm file, ∃ cm' id, acquire_lease cm ChunkMappingManager.db_container file = (cm', Ok id)) →
  NoDup chunk_ids →
  (∀ id, id ∈ chunk_ids →
     ∃ page, read_page_number json_loads (KeywordSearch.chunk_path id) w = Ok page) →
  ∃ w', delete_chunks blob_name chunk_ids w = (w', Ok ())
    ∧ ChunkBlobMapping.mapping
        (ChunkMappingManager.chunk_blob_mapping_manager _ _ (mapping_manager w'))
      = foldl dict_del
          (ChunkBlobMapping.mapping
             (ChunkMappingManager.chunk_blob_mapping_manager _ _ (mapping_manager w)))
          chunk_ids
    ∧ (ChunkBlobMapping.reverse_ok
         (ChunkMappingManager.chunk_blob_mapping_manager _ _ (mapping_manager w)) →
       ChunkBlobMapping.reverse_ok
         (ChunkMappingManager.chunk_blob_mapping_manager _ _ (mapping_manager w')))
    ∧ (∀ id, id ∈ chunk_ids → dict_get (db_files w') (KeywordSearch.chunk_path id) = None)
    ∧ (∀ id, id ∉ chunk_ids →
         dict_get (db_files w') (KeywordSearch.chunk_path id)
         = dict_get (db_files w) (KeywordSearch.chunk_path id))
    ∧ (∀ name, dict_get (db_files w) name = None → dict_get (db_files w') name = None)
    ∧ (∀ b, dict_get (db_files w') (text_path b) = dict_get (db_files w) (text_path b))
    ∧ documents w' = documents w
    ∧ chunk_ids_metadata w' = chunk_ids_metadata w
    ∧ (∀ id n, id ∈ chunk_ids →
         read_page_number json_loads (KeywordSearch.chunk_path id) w = Ok (Some n) →
         n ≠ 0%Z → dict_get (db_files w') (page_path blob_name n) = None)
    ∧ counter_of (mapping_manager w') = counter_of (mapping_manager w).
Proof.
  intros Hlease. revert w. induction chunk_ids as [|chunk_id rest IH]; intros w Hnd Hread.
  { exists w. repeat split; try done; intros id; [|intros n]; intros Hid;
      by apply elem_of_nil in Hid. }
  apply NoDup_cons in Hnd as [Hnotin Hnd].
  cbn [BlobDocumentProcessor.delete_chunks].
  destruct (Hread chunk_id) as [page Hpage]; [apply elem_of_cons; by left|]. rewrite Hpage.
  destruct (remove_granted chunk_id (mapping_manager w) Hlease) as (m' & -> & Hcb & Hcnt).
  match goal with |- context [BlobDocumentProcessor.delete_chunks _ _ _ _ _ _ _ rest ?x] =>
    set (w1 := x) end.
  assert (mapping_manager w1 = m'
          ∧ documents w1 = documents w
          ∧ chunk_ids_metadata w1 = chunk_ids_metadata w
          ∧ (db_files w1 = dict_del (db_files w) (KeywordSearch.chunk_path chunk_id)
             ∨ ∃ n, db_files w1
                    = dict_del (dict_del (db_files w) (KeywordSearch.chunk_path chunk_id))
                        (page_path blob_name n))) as (Hm1 & Hd1 & Hc1 & Hf1).
  { subst w1. destruct page as [n|]; [destruct (negb _ && _)|];
      cbn [delete set_db_files set_mapping_manager mapping_manager documents
           chunk_ids_metadata db_files]; repeat split; try done; eauto. }
  assert (dict_get (db_files w1) (KeywordSearch.chunk_path chunk_id) = None) as Fa.
  { destruct Hf1 as [->|[n ->]]; rewrite ?dict_get_del.
    - by rewrite decide_True.
    - rewrite decide_False by (intros H; symmetry in H; by apply chunk_path_not_page in H).
      by rewrite decide_True. }
  assert (∀ id, id ≠ chunk_id →
            dict_get (db_files w1) (KeywordSearch.chunk_path id)
            = dict_get (db_files w) (KeywordSearch.chunk_path id)) as Fb.
  { intros id Hid.
    assert (KeywordSearch.chunk_path chunk_id ≠ KeywordSearch.chunk_path id) as Hne
      by (intros H; apply chunk_path_inj in H; congruence).
    destruct Hf1 as [->|[n ->]]; rewrite ?dict_get_del.
    - by rewrite decide_False.
    - rewrite decide_False by (intros H; symmetry in H; by apply chunk_path_not_page in H).
      by rewrite decide_False. }
  assert (∀ name, dict_get (db_files w) name = None → dict_get (db_files w1) name = None)
    as Fc.
  { intros name Hname. destruct Hf1 as [->|[n ->]]; rewrite ?dict_get_del;
      repeat destruct (decide _); done. }
  assert (∀ b, dict_get (db_files w1) (text_path b) = dict_get (db_files w) (text_path b))
    as Fd.
  { intros b.
    assert (KeywordSearch.chunk_path chunk_id ≠ text_path b) as Hne
      by apply chunk_path_not_text.
    destruct Hf1 as [->|[n ->]]; rewrite ?dict_get_del.
    - by rewrite decide_False.
    - rewrite decide_False by (intros H; symmetry in H; by apply text_path_not_page in H).
      by rewrite decide_False. }
  assert (∀ n, page = Some n → n ≠ 0%Z →
            dict_get (db_files w1) (page_path blob_name n) = None) as Fp.
  { intros n -> Hn. subst w1.
    replace (n =? 0)%Z with false by (symmetry; by apply Z.eqb_neq). cbn [negb andb].
    destruct (blob_exist _ _) eqn:Eb.
    - cbn [delete set_db_files db_files]. by rewrite dict_get_del, decide_True.
    - unfold blob_exist in Eb. apply bool_decide_eq_false in Eb.
      destruct (dict_get _ (page_path blob_name n)) eqn:Eg; [|done].
      exfalso. apply Eb. by eexists. }
  assert (∀ id, id ∈ rest →
            read_page_number json_loads (KeywordSearch.chunk_path id) w1
            = read_page_number json_loads (KeywordSearch.chunk_path id) w) as Fr.
  { intros id Hid. unfold read_page_number. rewrite Fb; [done|]. by intros ->. }
  destruct (IH w1 Hnd)
    as (w' & Hdel & Hmap & Hrev & Hgone & Hkept & Hnone & Htext & Hdoc & Hmeta & Hpg & Hcn).
  { intros id Hid. destruct (Hread id) as [p Hp]; [apply elem_of_cons; by right|].
    exists p. by rewrite Fr. }
  exists w'. split; [exact Hdel|]. rewrite Hm1 in Hmap, Hrev, Hcn.
  split; [|split; [|split; [|split; [|split; [|split; [|split; [|split; [|split]]]]]]]].
  - rewrite Hmap, Hcb, remove_mapping_forward. done.
  - intros Hok. apply Hrev. rewrite Hcb.
    exact (step_reverse_ok (ChunkBlobMapping.RemoveMapping chunk_id) (_, _) Hok).
  - intros id [->|Hid]%elem_of_cons; [by apply Hnone|by apply Hgone].
  - intros id [Hne Hid]%not_elem_of_cons. rewrite Hkept by done. by apply Fb.
  - intros name Hname. by apply Hnone, Fc.
  - intros b. by rewrite Htext, Fd.
  - by rewrite Hdoc.
  - by rewrite Hmeta.
  - intros id n [->|Hid]%elem_of_cons Hn Hn0.
    + apply Hnone, Fp; [|done]. rewrite Hpage in Hn. by simplify_eq.
    + apply (Hpg id); [done| |done]. by rewrite Fr.
  - by rewrite Hcn.
Qed.

Lemma delete_document_granted container_name blob_name (w : world) :
  (∀ cm file, ∃ cm' id, acquire_lease cm ChunkMappingManager.db_container file = (cm', Ok id)) →
  ChunkBlobMapping.reverse_ok (blob_mapping_of w) →
  NoDup (ChunkBlobMapping.mapping (blob_mapping_of w)).*1 →
  (∀ id, id ∈ chunk_ids_of container_name blob_name w →
     ∃ page, read_page_number json_loads (KeywordSearch.chunk_path id) w = Ok page) →
  ∃ w', delete_document container_name blob_name w = (w', Ok ())
    ∧ ChunkBlobMapping.mapping (blob_mapping_of w')
      = foldl dict_del (ChunkBlobMapping.mapping (blob_mapping_of w))
          (chunk_ids_of container_name blob_name w)
    ∧ ChunkBlobMapping.reverse_ok (blob_mapping_of w')
    ∧ chunk_ids_metadata w' = chunk_ids_metadata w
    ∧ (∀ name, dict_get (db_files w) name = None → dict_get (db_files w') name = None)
    ∧ chunk_ids_of container_name blob_name w' = []
    ∧ (∀ id, id ∈ chunk_ids_of container_name blob_name w →
         ChunkBlobMapping.get_blob_info id (blob_mapping_of w') = None
         ∧ dict_get (db_files w') (KeywordSearch.chunk_path id) = None)
    ∧ (∀ id n, id ∈ chunk_ids_of container_name blob_name w →
         read_page_number json_loads (KeywordSearch.chunk_path id) w = Ok (Some n) →
         n ≠ 0%Z → dict_get (db_files w') (page_path blob_name n) = None)
    ∧ dict_get (db_files w') (text_path blob_name) = None
    ∧ (∀ container_name' blob_name',
         ChunkBlobMapping.key container_name' blob_name'
         ≠ ChunkBlobMapping.key container_name blob_name →
         chunk_ids_of container_name' blob_name' w' = chunk_ids_of container_name' blob_name' w)
    ∧ (∀ id, id ∉ chunk_ids_of container_name blob_name w →
         dict_get (db_files w') (KeywordSearch.chunk_path id)
         = dict_get (db_files w) (KeywordSearch.chunk_path id))
    ∧ counter_of (mapping_manager w') = counter_of (mapping_manager w)
    ∧ documents w' = documents w.
Proof.
  intros Hlease Hrev Hnd Hread.
  pose proof (get_chunk_ids_by_blob_grouped _ container_name blob_name Hrev) as Hids.
  destruct (delete_chunks_granted blob_name (chunk_ids_of container_name blob_name w) w)
    as (w1 & Hdel & Hmap & Hrev1 & Hgone & Hkept & Hnone & _ & Hdoc & Hmeta & Hpg & Hcn);
    [done| |done|].
  { rewrite Hids. by apply grouped_NoDup. }
  specialize (Hrev1 Hrev).
  unfold BlobDocumentProcessor.delete_document, BlobDocumentProcessor.delete_document_internal.
  rewrite Hdel. eexists. split; [reflexivity|].
  cbn [delete set_db_files mapping_manager db_files chunk_ids_metadata documents].
  split; [exact Hmap|]. split; [exact Hrev1|]. split; [exact Hmeta|]. rewrite Hids in Hmap.
  split; [|split; [|split; [|split; [|split; [|split; [|split]]]]]]; [..|done].
  - intros name Hname. rewrite dict_get_del. destruct (decide _); [done|by apply Hnone].
  - rewrite (get_chunk_ids_by_blob_grouped _ _ _ Hrev1), Hmap. apply grouped_without_own.
  - intros id Hid. split.
    + unfold ChunkBlobMapping.get_blob_info. rewrite Hmap, foldl_dict_del.
      apply MappingFacts.dict_get_None_keys. rewrite Hids in Hid.
      intros ([id' info] & -> & [Hout _]%list_elem_of_filter)%list_elem_of_fmap.
      by apply Hout.
    + rewrite dict_get_del, decide_False; [by apply Hgone|].
      intros H. symmetry in H. by apply chunk_path_not_text in H.
  - intros id n Hid Hn Hn0. rewrite dict_get_del. destruct (decide _); [done|].
    by apply (Hpg id).
  - by rewrite dict_get_del, decide_True.
  - intros container_name' blob_name' Hne.
    rewrite (get_chunk_ids_by_blob_grouped _ _ _ Hrev1),
      (get_chunk_ids_by_blob_grouped _ _ _ Hrev), Hmap.
    by apply grouped_without_other.
  - intros id Hid. rewrite dict_get_del, decide_False; [by apply Hkept|].
    intros H. symmetry in H. by apply chunk_path_not_text in H.
Qed.

(** X25.  [delete_document] removes the document and nothing else.  Where
    the leases of the mapping files are granted and the file of every chunk
    the reverse index lists for the document is read, [delete_document]
    returns, and afterwards the reverse index lists no chunk for the
    document, none of its chunks has a blob entry or a chunk file, the
    page file of every chunk with a page number other than 0 and the file
    of the full text are gone; the chunk lists of the other blobs and the
    files of the other chunks are what they were.  (The forward map is
    a dictionary, with each chunk id once, and the reverse index is the one
    [__update_reverse_mapping] computed from it.) *)
Theorem delete_document_removes_the_document container_name blob_name (w : world) :
  (∀ cm file, ∃ cm' id, acquire_lease cm ChunkMappingManager.db_container file = (cm', Ok id)) →
  ChunkBlobMapping.reverse_ok (blob_mapping_of w) →
  NoDup (ChunkBlobMapping.mapping (blob_mapping_of w)).*1 →
  (∀ id, id ∈ chunk_ids_of container_name blob_name w →
     ∃ page, read_page_number json_loads (KeywordSearch.chunk_path id) w = Ok page) →
  ∃ w', delete_document container_name blob_name w = (w', Ok ())
    ∧ chunk_ids_of container_name blob_name w' = []
    ∧ (∀ id, id ∈ chunk_ids_of container_name blob_name w →
         ChunkBlobMapping.get_blob_info id (blob_mapping_of w') = None
         ∧ dict_get (db_files w') (KeywordSearch.chunk_path id) = None)
    ∧ (∀ id n, id ∈ chunk_ids_of container_name blob_name w →
         read_page_number json_loads (KeywordSearch.chunk_path id) w = Ok (Some n) →
         n ≠ 0%Z → dict_get (db_files w') (page_path blob_name n) = None)
    ∧ dict_get (db_files w') (text_path blob_name) = None
    ∧ (∀ container_name' blob_name',
         ChunkBlobMapping.key container_name' blob_name'
         ≠ ChunkBlobMapping.key container_name blob_name →
         chunk_ids_of container_name' blob_name' w' = chunk_ids_of container_name' blob_name' w)
    ∧ (∀ id, id ∉ chunk_ids_of container_name blob_name w →
         dict_get (db_files w') (KeywordSearch.chunk_path id)
         = dict_get (db_files w) (KeywordSearch.chunk_path id)).
Proof.
  intros Hlease Hrev Hnd Hread.
  destruct (delete_document_granted container_name blob_name w Hlease Hrev Hnd Hread)
    as (w' & Hdel & _ & _ & _ & _ & Hlist & Hgone & Hpg & Htext & Hother & Hkept & _).
  by exists w'.
Qed.

(** The chunk ids [add] draws for [k] texts when the counter is [n]. *)
Lemma add_chunks_all blob_container blob_name texts added
    (m : ChunkMappingManager.world Searcher ContainerManager) :
  (∀ s text, ∃ s' id ids, searcher_add s text = (s', Ok (id :: ids))) →
  ∃ m', ChunkMappingManager.add_chunks Searcher searcher_add ContainerManager blob_container
          blob_name texts added m
        = (m', Ok (added ++ zip (pretty <$> seqZ (counter_of m) (Z.of_nat (length texts)))
                                texts))
    ∧ ChunkMappingManager.chunk_blob_mapping_manager _ _ m'
      = foldl (λ cb id, (ChunkBlobMapping.add_mapping id blob_container blob_name cb).1)
          (ChunkMappingManager.chunk_blob_mapping_manager _ _ m)
          (pretty <$> seqZ (counter_of m) (Z.of_nat (length texts))).
Proof.
  intros Hadd. revert added m. induction texts as [|text texts IH]; intros added m.
  - exists m. cbn. by rewrite app_nil_r.
  - destruct (add_chunks_cons searcher_add blob_container blob_name text texts added m Hadd)
      as (m2 & -> & Hc & Hm).
    destruct (IH (added ++ [(pretty (counter_of m), text)]) m2) as (m' & -> & Hcb).
    exists m'. rewrite Hc in *. cbn [length].
    rewrite (seqZ_cons (counter_of m) (Z.of_nat (S (length texts)))) by lia.
    replace (Z.pred (Z.of_nat (S (length texts)))) with (Z.of_nat (length texts)) by lia.
    replace (Z.succ (counter_of m)) with (counter_of m + 1)%Z by lia.
    rewrite fmap_cons. cbn [zip zip_with foldl]. rewrite <- app_assoc. split; [done|].
    by rewrite Hcb, Hm.
Qed.

Lemma add_granted blob_container blob_name texts
    (m : ChunkMappingManager.world Searcher ContainerManager) :
  (∀ cm file, ∃ cm' id, acquire_lease cm ChunkMappingManager.db_container file = (cm', Ok id)) →
  (∀ s text, ∃ s' id ids, searcher_add s text = (s', Ok (id :: ids))) →
  ∃ m', ChunkMappingManager.add Searcher searcher_add ContainerManager acquire_lease
          release_lease blob_container blob_name texts m
        = (m', Ok (zip (pretty <$> seqZ (counter_of m) (Z.of_nat (length texts))) texts))
    ∧ ChunkMappingManager.chunk_blob_mapping_manager _ _ m'
      = foldl (λ cb id, (ChunkBlobMapping.add_mapping id blob_container blob_name cb).1)
          (ChunkMappingManager.chunk_blob_mapping_manager _ _ m)
          (pretty <$> seqZ (counter_of m) (Z.of_nat (length texts))).
Proof.
  intros Hlease Hadd.
  destruct (Hlease (ChunkMappingManager.container_manager _ _ m)
              ChunkMappingManager.chunk_index_mapping_file) as (cm1 & id1 & H1).
  destruct (Hlease cm1 ChunkMappingManager.chunk_blob_mapping_file) as (cm2 & id2 & H2).
  unfold ChunkMappingManager.add. rewrite (with_leases_granted _ _ _ _ _ _ _ _ H1 H2).
  set (m0 := ChunkMappingManager.set_container_manager _ _ cm2
               (ChunkMappingManager.set_container_manager _ _ cm1 m)).
  destruct (add_chunks_all blob_container blob_name texts [] m0 Hadd) as (m1 & -> & Hcb).
  cbn [fst snd]. eexists. split; [reflexivity|].
  destruct (release_if_frame release_lease (Some id1)
              ChunkMappingManager.chunk_index_mapping_file m1) as (_ & _ & F3 & _).
  destruct (release_if_frame release_lease (Some id2)
              ChunkMappingManager.chunk_blob_mapping_file
              (ChunkMappingManager.release_if Searcher ContainerManager release_lease
                 (Some id1) ChunkMappingManager.chunk_index_mapping_file m1))
    as (_ & _ & G3 & _).
  cbv zeta in *. by rewrite G3, F3, Hcb.
Qed.

(** The uploads of [process_and_save_document]. *)
Lemma upload_chunks_spec blob_name entries (w : world) :
  let w' := foldl (upload_chunk Searcher ContainerManager now_isoformat blob_name) w entries in
  mapping_manager w' = mapping_manager w
  ∧ documents w' = documents w
  ∧ chunk_ids_metadata w' = chunk_ids_metadata w
  ∧ (∀ name, name ∉ KeywordSearch.chunk_path <$> entries.*1.*1 →
       dict_get (db_files w') name = dict_get (db_files w) name)
  ∧ (NoDup entries.*1.*1 →
     ∀ i chunk_id chunk text page, entries !! i = Some ((chunk_id, chunk), (text, page)) →
       dict_get (db_files w') (KeywordSearch.chunk_path chunk_id)
       = Some (Chunk (ChunkJson chunk blob_name (Some page) (now_isoformat chunk_id)))).
Proof.
  induction entries as [|[[id0 chunk0] [text0 page0]] entries IH] using rev_ind.
  { cbn. repeat split; done. }
  cbv zeta in *. rewrite foldl_snoc. destruct IH as (Hm & Hd & Hc & Hframe & Hget).
  cbn [upload_chunk upload set_db_files mapping_manager documents chunk_ids_metadata db_files].
  rewrite !fmap_app. cbn [fmap list_fmap fst].
  split; [done|]. split; [done|]. split; [done|]. split.
  - intros name [Hname Hne]%not_elem_of_app. rewrite dict_get_set, decide_False.
    + by apply Hframe.
    + intros <-. apply Hne, elem_of_cons. by left.
  - intros [Hnd [Hnotin _]]%NoDup_app i chunk_id chunk text page
      [[Hi Hlook]|[_ Heq]]%lookup_snoc_Some; rewrite dict_get_set.
    + rewrite decide_False; [by eapply Hget|].
      intros Heq%chunk_path_inj. subst id0. apply (Hnotin chunk_id).
      * apply list_elem_of_fmap. exists (chunk_id, chunk). split; [done|].
        apply list_elem_of_fmap. exists ((chunk_id, chunk), (text, page)). split; [done|].
        by eapply list_elem_of_lookup_2.
      * apply elem_of_cons. by left.
    + simplify_eq. by rewrite decide_True.
Qed.

Lemma upload_pages_spec blob_name page_chunks (w : world) :
  let w' := foldl (upload_page Searcher ContainerManager blob_name) w page_chunks in
  mapping_manager w' = mapping_manager w
  ∧ documents w' = documents w
  ∧ chunk_ids_metadata w' = chunk_ids_metadata w
  ∧ (∀ name, (∀ n, name ≠ page_path blob_name n) →
       dict_get (db_files w') name = dict_get (db_files w) name)
  ∧ (∀ page_chunk, page_chunk ∈ page_chunks →
       ∃ data, dict_get (db_files w') (page_path blob_name page_chunk.2) = Some (Bytes data)).
Proof.
  induction page_chunks as [|[text0 page0] page_chunks IH] using rev_ind.
  { cbn. repeat split; try done. intros ? H. by apply elem_of_nil in H. }
  cbv zeta in *. rewrite foldl_snoc. destruct IH as (Hm & Hd & Hc & Hframe & Hget).
  cbn [upload_page upload set_db_files mapping_manager documents chunk_ids_metadata db_files
       fst snd].
  split; [done|]. split; [done|]. split; [done|]. split.
  - intros name Hname. rewrite dict_get_set, decide_False; [by apply Hframe|].
    intros <-. by apply (Hname page0).
  - intros [text page] Hin. cbn [snd]. rewrite dict_get_set.
    destruct (decide (page_path blob_name page0 = page_path blob_name page)); [by eexists|].
    apply elem_of_app in Hin as [Hin|Hin%list_elem_of_singleton]; [|congruence].
    by apply (Hget (text, page)).
Qed.

Lemma process_fresh container_name blob_name blob_content parsed_content full_text
    (w : world) :
  (∀ cm file, ∃ cm' id, acquire_lease cm ChunkMappingManager.db_container file = (cm', Ok id)) →
  (∀ s text, ∃ s' id ids, searcher_add s text = (s', Ok (id :: ids))) →
  chunk_ids_of container_name blob_name w = [] →
  documents w container_name blob_name = Some blob_content →
  parse_by_page blob_content (get_file_extension blob_name) = Ok parsed_content →
  parse_full_text blob_content (get_file_extension blob_name) = Ok full_text →
  let n := counter_of (mapping_manager w) in
  let chunk_ids := pretty <$> seqZ n (Z.of_nat (length (all_chunks_of parsed_content))) in
  ∃ w', process_and_save_document container_name blob_name w = (w', Ok ())
    ∧ blob_mapping_of w'
      = foldl (λ cb id, (ChunkBlobMapping.add_mapping id container_name blob_name cb).1)
          (blob_mapping_of w) chunk_ids
    ∧ (∀ (i : nat) text page, all_chunks_of parsed_content !! i = Some (text, page) →
         dict_get (db_files w') (KeywordSearch.chunk_path (pretty (n + Z.of_nat i)%Z))
         = Some (Chunk (ChunkJson text blob_name (Some page)
                          (now_isoformat (pretty (n + Z.of_nat i)%Z)))))
    ∧ (∀ p, p ∈ parsed_content →
         ∃ data, dict_get (db_files w') (page_path blob_name (page_number p))
                 = Some (Bytes data))
    ∧ dict_get (db_files w') (text_path blob_name) = Some (Bytes full_text)
    ∧ dict_get (chunk_ids_metadata w') (container_name +:+ "/" +:+ blob_name)
      = Some chunk_ids
    ∧ (∀ id, id ∉ chunk_ids →
         dict_get (db_files w') (KeywordSearch.chunk_path id)
         = dict_get (db_files w) (KeywordSearch.chunk_path id)).
Proof.
  intros Hlease Hadd Hnone Hdoc Hpages Htext n chunk_ids.
  unfold BlobDocumentProcessor.process_and_save_document, BlobDocumentProcessor.process.
  rewrite Hnone, Hdoc, Hpages, Htext.
  destruct (add_granted container_name blob_name (all_chunks_of parsed_content).*1
              (mapping_manager w) Hlease Hadd) as (m & -> & Hcb).
  rewrite length_fmap in Hcb. rewrite length_fmap. fold n chunk_ids. fold n chunk_ids in Hcb.
  set (entries := zip (zip chunk_ids (all_chunks_of parsed_content).*1)
                      (all_chunks_of parsed_content)).
  assert (length chunk_ids = length (all_chunks_of parsed_content)) as Hlen.
  { subst chunk_ids. rewrite length_fmap, length_seqZ. lia. }
  assert (entries.*1.*1 = chunk_ids) as Hids.
  { subst entries. rewrite fst_zip, fst_zip; [done| |];
      rewrite ?length_zip, ?length_fmap; lia. }
  destruct (upload_chunks_spec blob_name entries (set_mapping_manager m w))
    as (Cm & Cd & Cc & Cframe & Cget).
  destruct (upload_pages_spec blob_name (page_chunks_of parsed_content)
              (foldl (upload_chunk Searcher ContainerManager now_isoformat blob_name)
                 (set_mapping_manager m w) entries))
    as (Pm & Pd & Pc & Pframe & Pget).
  cbv zeta in *. eexists. split; [reflexivity|].
  cbn [set_chunk_ids_metadata upload set_db_files mapping_manager db_files chunk_ids_metadata].
  split; [by rewrite Pm, Cm|]. split; [|split; [|split; [|split]]].
  - intros i text page Hi.
    rewrite dict_get_set, decide_False
      by (intros H; symmetry in H; by apply chunk_path_not_text in H).
    rewrite Pframe by (intros k H; by apply chunk_path_not_page in H).
    apply (Cget ltac:(rewrite Hids; apply NoDup_fmap_2; [apply _|apply NoDup_seqZ])
             i _ text text page).
    subst entries. apply lookup_zip_Some. split; [|done].
    apply lookup_zip_Some. split; [|by rewrite list_lookup_fmap, Hi].
    subst chunk_ids. rewrite list_lookup_fmap, lookup_seqZ_lt; [done|].
    apply lookup_lt_Some in Hi. lia.
  - intros p Hp.
    destruct (Pget (String.concat "" (texts p), page_number p)) as [data Hdata].
    { apply list_elem_of_fmap. by exists p. }
    destruct (decide (text_path blob_name = page_path blob_name (page_number p))) as [H|H];
      [by apply text_path_not_page in H|].
    exists data. by rewrite dict_get_set, decide_False.
  - by rewrite dict_get_set, decide_True.
  - rewrite dict_get_set, decide_True by done. f_equal.
    rewrite fst_zip; [done|]. rewrite length_fmap. lia.
  - intros id Hid.
    rewrite dict_get_set, decide_False
      by (intros H; symmetry in H; by apply chunk_path_not_text in H).
    rewrite Pframe by (intros k H; by apply chunk_path_not_page in H).
    rewrite Cframe; [done|]. rewrite Hids.
    intros (id' & Heq%chunk_path_inj & Hin)%list_elem_of_fmap. by subst id'.
Qed.

(** X26.  What [process_and_save_document] stores for a new document.
    Where the leases are granted and every searcher accepts every text, a
    document the reverse index lists no chunk for, which is read and
    parsed, is processed without an error.  With the counter of the index
    mapping file at [n] before the call, the [i]-th chunk of the parse gets
    the chunk id [n + i] and the file [chunks/chunk_<n+i>.json] with its
    text, the name of the document and the number of its page; every page
    has a page file, the full text has its file, and the metadata entry
    [chunk_ids] of the document lists the chunk ids in order. *)
Theorem process_stores_every_chunk container_name blob_name blob_content parsed_content
    full_text (w : world) :
  (∀ cm file, ∃ cm' id, acquire_lease cm ChunkMappingManager.db_container file = (cm', Ok id)) →
  (∀ s text, ∃ s' id ids, searcher_add s text = (s', Ok (id :: ids))) →
  chunk_ids_of container_name blob_name w = [] →
  documents w container_name blob_name = Some blob_content →
  parse_by_page blob_content (get_file_extension blob_name) = Ok parsed_content →
  parse_full_text blob_content (get_file_extension blob_name) = Ok full_text →
  ∃ w', process_and_save_document container_name blob_name w = (w', Ok ())
    ∧ (∀ (i : nat) text page, all_chunks_of parsed_content !! i = Some (text, page) →
         dict_get (db_files w')
           (KeywordSearch.chunk_path (pretty (counter_of (mapping_manager w) + Z.of_nat i)%Z))
         = Some (Chunk (ChunkJson text blob_name (Some page)
                          (now_isoformat
                             (pretty (counter_of (mapping_manager w) + Z.of_nat i)%Z)))))
    ∧ (∀ p, p ∈ parsed_content →
         ∃ data, dict_get (db_files w') (page_path blob_name (page_number p))
                 = Some (Bytes data))
    ∧ dict_get (db_files w') (text_path blob_name) = Some (Bytes full_text)
    ∧ dict_get (chunk_ids_metadata w') (container_name +:+ "/" +:+ blob_name)
      = Some (pretty <$> seqZ (counter_of (mapping_manager w))
                           (Z.of_nat (length (all_chunks_of parsed_content)))).
Proof.
  intros Hlease Hadd Hnone Hdoc Hpages Htext.
  destruct (process_fresh container_name blob_name blob_content parsed_content full_text w
              Hlease Hadd Hnone Hdoc Hpages Htext)
    as (w' & Hp & _ & Hchunks & Hpg & Ht & Hm & _).
  exists w'. done.
Qed.

(** X27.  [delete_document] after [process_and_save_document].  A new
    document is processed where the leases are granted and the searchers
    accept the texts, and the chunk ids the counter gives are not in use.
    Then the reverse index lists the new chunk ids for the document, in
    order, and [delete_document] returns: the forward map is the one from
    before the document was processed, the chunk files and the file of the
    full text are gone, and so are the page files of the chunks with a page
    number other than 0.  What stays behind is the page file of page 0,
    when the parse has such a page, and the metadata entry [chunk_ids],
    which still lists the deleted chunks. *)
Theorem delete_document_undoes_process container_name blob_name blob_content parsed_content
    full_text (w : world) :
  (∀ cm file, ∃ cm' id, acquire_lease cm ChunkMappingManager.db_container file = (cm', Ok id)) →
  (∀ s text, ∃ s' id ids, searcher_add s text = (s', Ok (id :: ids))) →
  ChunkBlobMapping.reverse_ok (blob_mapping_of w) →
  NoDup (ChunkBlobMapping.mapping (blob_mapping_of w)).*1 →
  chunk_ids_of container_name blob_name w = [] →
  documents w container_name blob_name = Some blob_content →
  parse_by_page blob_content (get_file_extension blob_name) = Ok parsed_content →
  parse_full_text blob_content (get_file_extension blob_name) = Ok full_text →
  let chunk_ids :=
    pretty <$> seqZ (counter_of (mapping_manager w))
                 (Z.of_nat (length (all_chunks_of parsed_content))) in
  (∀ id, id ∈ chunk_ids → ChunkBlobMapping.get_blob_info id (blob_mapping_of w) = None) →
  ∃ w1 w2,
    process_and_save_document container_name blob_name w = (w1, Ok ())
    ∧ chunk_ids_of container_name blob_name w1 = chunk_ids
    ∧ delete_document container_name blob_name w1 = (w2, Ok ())
    ∧ chunk_ids_of container_name blob_name w2 = []
    ∧ ChunkBlobMapping.mapping (blob_mapping_of w2)
      = ChunkBlobMapping.mapping (blob_mapping_of w)
    ∧ (∀ id, id ∈ chunk_ids → dict_get (db_files w2) (KeywordSearch.chunk_path id) = None)
    ∧ dict_get (db_files w2) (text_path blob_name) = None
    ∧ (∀ text page, (text, page) ∈ all_chunks_of parsed_content → page ≠ 0%Z →
         dict_get (db_files w2) (page_path blob_name page) = None)
    ∧ (∀ p, p ∈ parsed_content → page_number p = 0%Z →
         ∃ data, dict_get (db_files w2) (page_path blob_name 0) = Some (Bytes data))
    ∧ dict_get (chunk_ids_metadata w2) (container_name +:+ "/" +:+ blob_name)
      = Some chunk_ids.
Proof.
  intros Hlease Hadd Hrev Hnd Hnone Hdoc Hpages Htext chunk_ids Hnew.
  destruct (process_fresh container_name blob_name blob_content parsed_content full_text w
              Hlease Hadd Hnone Hdoc Hpages Htext)
    as (w1 & Hp & Hcb & Hchunks & Hpg & _ & Hmeta & _).
  cbv zeta in Hcb, Hchunks, Hmeta. fold chunk_ids in Hcb, Hmeta.
  destruct (add_mappings_spec container_name blob_name chunk_ids (blob_mapping_of w))
    as (Hm & Hr & Hn). cbv zeta in Hm, Hr, Hn. rewrite <- Hcb in Hm, Hr, Hn.
  assert (NoDup chunk_ids) as Hndids
    by (apply NoDup_fmap_2; [apply _|apply NoDup_seqZ]).
  rewrite dict_set_all_new in Hm by done.
  assert (chunk_ids_of container_name blob_name w1 = chunk_ids) as Hids1.
  { rewrite (get_chunk_ids_by_blob_grouped _ _ _ (Hr Hrev)), Hm, grouped_app, grouped_own.
    by rewrite <- (get_chunk_ids_by_blob_grouped _ _ _ Hrev), Hnone. }
  assert (∀ id, id ∈ chunk_ids →
            ∃ (i : nat) text page, all_chunks_of parsed_content !! i = Some (text, page)
              ∧ id = pretty (counter_of (mapping_manager w) + Z.of_nat i)%Z) as Hid.
  { intros id (k & -> & Hk)%list_elem_of_fmap. apply elem_of_seqZ in Hk.
    destruct (lookup_lt_is_Some_2 (all_chunks_of parsed_content)
                (Z.to_nat (k - counter_of (mapping_manager w)))) as [[text page] Hlook];
      [lia|].
    exists (Z.to_nat (k - counter_of (mapping_manager w))), text, page.
    split; [done|]. f_equal. lia. }
  destruct (delete_document_granted container_name blob_name w1 Hlease (Hr Hrev) (Hn Hnd))
    as (w2 & Hdel & Hmap & _ & Hmeta2 & _ & Hlist & Hgone & Hpages2 & Htext2 & _).
  { rewrite Hids1. intros id (i & text & page & Hlook & ->)%Hid.
    exists (Some page). unfold read_page_number. by rewrite (Hchunks i text page). }
  exists w1, w2. split; [exact Hp|]. split; [exact Hids1|]. split; [exact Hdel|].
  split; [exact Hlist|]. rewrite Hids1 in Hmap, Hgone, Hpages2.
  split; [|split; [|split; [|split; [|split]]]].
  - rewrite Hmap, Hm. by apply dict_del_all_new.
  - intros id Hin. by apply Hgone.
  - exact Htext2.
  - intros text page Hin Hpage. apply list_elem_of_lookup_1 in Hin as [i Hi].
    apply (Hpages2 (pretty (counter_of (mapping_manager w) + Z.of_nat i)%Z)); [| |done].
    + apply list_elem_of_fmap. eexists. split; [done|]. apply elem_of_seqZ.
      apply lookup_lt_Some in Hi. lia.
    + unfold read_page_number. by rewrite (Hchunks i text page).
  - intros p Hin Hzero. destruct (Hpg p Hin) as [data Hdata]. rewrite Hzero in Hdata.
    exists data. rewrite <- Hdata.
    pose proof (delete_chunks_keeps_page_zero blob_name
                  (chunk_ids_of container_name blob_name w1) w1) as Hkeep.
    unfold BlobDocumentProcessor.delete_document,
      BlobDocumentProcessor.delete_document_internal in Hdel.
    destruct (delete_chunks _ _ w1) as [w' [[]|e]]; [|done].
    injection Hdel as <-. cbn [fst delete set_db_files db_files] in *.
    rewrite dict_get_del, decide_False; [done|apply text_path_not_page].
  - by rewrite Hmeta2.
Qed.

Lemma process_existing container_name blob_name chunk_id rest (w w1 : world) :
  chunk_ids_of container_name blob_name w = chunk_id :: rest →
  delete_document container_name blob_name w = (w1, Ok ()) →
  chunk_ids_of container_name blob_name w1 = [] →
  process_and_save_document container_name blob_name w
  = process_and_save_document container_name blob_name w1.
Proof.
  intros Hids Hdel Hnone.
  unfold BlobDocumentProcessor.process_and_save_document, BlobDocumentProcessor.process.
  unfold BlobDocumentProcessor.delete_document in Hdel.
  by rewrite Hids, Hdel, Hnone.
Qed.

Lemma dict_get_filter_None {V} (P : string * V → Prop) `{∀ p, Decision (P p)} (d : dict V) k :
  dict_get d k = None → dict_get (filter P d) k = None.
Proof.
  rewrite !MappingFacts.dict_get_None_keys. intros Hk Hin. apply Hk.
  apply list_elem_of_fmap in Hin as (p & -> & [_ Hp]%list_elem_of_filter).
  apply list_elem_of_fmap. by exists p.
Qed.

(** X28.  Processing a document again replaces its chunks.  Where the
    leases are granted, the searchers accept the texts, the files of the
    chunks listed for the document are read and the chunk ids the counter
    gives are not in use, [process_and_save_document] returns; afterwards
    the reverse index lists for the document exactly the new chunk ids
    [n], [n + 1], ... ([n] the counter before the call), each with the
    chunk file of its text and page, none of the chunks listed before has a
    blob entry or a chunk file, and the file of the full text and the
    metadata entry [chunk_ids] are the new ones. *)
Theorem reprocessing_replaces_the_chunks container_name blob_name blob_content parsed_content
    full_text (w : world) :
  (∀ cm file, ∃ cm' id, acquire_lease cm ChunkMappingManager.db_container file = (cm', Ok id)) →
  (∀ s text, ∃ s' id ids, searcher_add s text = (s', Ok (id :: ids))) →
  ChunkBlobMapping.reverse_ok (blob_mapping_of w) →
  NoDup (ChunkBlobMapping.mapping (blob_mapping_of w)).*1 →
  (∀ id, id ∈ chunk_ids_of container_name blob_name w →
     ∃ page, read_page_number json_loads (KeywordSearch.chunk_path id) w = Ok page) →
  documents w container_name blob_name = Some blob_content →
  parse_by_page blob_content (get_file_extension blob_name) = Ok parsed_content →
  parse_full_text blob_content (get_file_extension blob_name) = Ok full_text →
  let n := counter_of (mapping_manager w) in
  let chunk_ids := pretty <$> seqZ n (Z.of_nat (length (all_chunks_of parsed_content))) in
  (∀ id, id ∈ chunk_ids → ChunkBlobMapping.get_blob_info id (blob_mapping_of w) = None) →
  ∃ w', process_and_save_document container_name blob_name w = (w', Ok ())
    ∧ chunk_ids_of container_name blob_name w' = chunk_ids
    ∧ (∀ (i : nat) text page, all_chunks_of parsed_content !! i = Some (text, page) →
         dict_get (db_files w') (KeywordSearch.chunk_path (pretty (n + Z.of_nat i)%Z))
         = Some (Chunk (ChunkJson text blob_name (Some page)
                          (now_isoformat (pretty (n + Z.of_nat i)%Z)))))
    ∧ (∀ id, id ∈ chunk_ids_of container_name blob_name w →
         ChunkBlobMapping.get_blob_info id (blob_mapping_of w') = None
         ∧ dict_get (db_files w') (KeywordSearch.chunk_path id) = None)
    ∧ dict_get (db_files w') (text_path blob_name) = Some (Bytes full_text)
    ∧ dict_get (chunk_ids_metadata w') (container_name +:+ "/" +:+ blob_name)
      = Some chunk_ids.
Proof.
  intros Hlease Hadd Hrev Hnd Hread Hdoc Hpages Htext n chunk_ids Hnew.
  assert (∀ id, id ∈ chunk_ids_of container_name blob_name w → id ∉ chunk_ids) as Hold.
  { intros id Hid Hin. specialize (Hnew id Hin).
    rewrite (get_chunk_ids_by_blob_grouped _ _ _ Hrev) in Hid.
    apply grouped_elem in Hid as (info & Hin' & _).
    apply MappingFacts.dict_get_None_keys in Hnew. apply Hnew.
    apply list_elem_of_fmap. by exists (id, info). }
  assert (∃ w1, process_and_save_document container_name blob_name w
                = process_and_save_document container_name blob_name w1
            ∧ chunk_ids_of container_name blob_name w1 = []
            ∧ ChunkBlobMapping.reverse_ok (blob_mapping_of w1)
            ∧ counter_of (mapping_manager w1) = n
            ∧ documents w1 = documents w
            ∧ (∀ id, id ∈ chunk_ids →
                 ChunkBlobMapping.get_blob_info id (blob_mapping_of w1) = None)
            ∧ (∀ id, id ∈ chunk_ids_of container_name blob_name w →
                 ChunkBlobMapping.get_blob_info id (blob_mapping_of w1) = None
                 ∧ dict_get (db_files w1) (KeywordSearch.chunk_path id) = None))
    as (w1 & Hsame & Hnone1 & Hrev1 & Hcn1 & Hdoc1 & Hnew1 & Hold1).
  { destruct (chunk_ids_of container_name blob_name w) as [|chunk_id rest] eqn:Hids.
    - exists w. do 6 (split; [done|]). by intros id ?%elem_of_nil.
    - destruct (delete_document_granted container_name blob_name w Hlease Hrev Hnd)
        as (w1 & Hdel & Hmap & Hrev1 & _ & _ & Hlist & Hgone & _ & _ & _ & _ & Hcn & Hd);
        [by rewrite Hids|].
      exists w1. rewrite Hids in Hgone.
      split; [by apply (process_existing _ _ chunk_id rest)|].
      split; [done|]. split; [done|]. split; [done|]. split; [done|]. split; [|done].
      intros id Hid. unfold ChunkBlobMapping.get_blob_info. rewrite Hmap, foldl_dict_del.
      apply dict_get_filter_None. by apply Hnew. }
  destruct (process_fresh container_name blob_name blob_content parsed_content full_text w1
              Hlease Hadd Hnone1) as (w' & Hp & Hcb & Hchunks & _ & Ht & Hmeta & Hframe);
    [by rewrite Hdoc1|done|done|].
  cbv zeta in Hcb, Hchunks, Hmeta, Hframe. rewrite Hcn1 in Hcb, Hchunks, Hmeta, Hframe.
  fold chunk_ids in Hcb, Hmeta, Hframe.
  destruct (add_mappings_spec container_name blob_name chunk_ids (blob_mapping_of w1))
    as (Hm & Hr & _). cbv zeta in Hm, Hr. rewrite <- Hcb in Hm, Hr.
  assert (NoDup chunk_ids) as Hndids
    by (apply NoDup_fmap_2; [apply _|apply NoDup_seqZ]).
  rewrite dict_set_all_new in Hm by done.
  exists w'. split; [by rewrite Hsame|]. split; [|split; [|split; [|split]]].
  - rewrite (get_chunk_ids_by_blob_grouped _ _ _ (Hr Hrev1)), Hm, grouped_app, grouped_own.
    by rewrite <- (get_chunk_ids_by_blob_grouped _ _ _ Hrev1), Hnone1.
  - exact Hchunks.
  - intros id Hid. destruct (Hold1 id Hid) as [Hinfo Hfile]. split.
    + unfold ChunkBlobMapping.get_blob_info in *. rewrite Hm, dict_get_app, Hinfo.
      apply MappingFacts.dict_get_None_keys.
      intros (p & -> & (id' & -> & Hin)%list_elem_of_fmap)%list_elem_of_fmap.
      by apply (Hold id').
    + rewrite Hframe; [done|]. by apply Hold.
  - exact Ht.
  - exact Hmeta.
Qed.

End Facts.

Lemma document_with_a_lost_chunk_file_is_stuck_witness :
  ChunkBlobMapping.get_chunk_ids_by_blob "docs" "a.pdf"
    (ChunkMappingManager.chunk_blob_mapping_manager _ _ (mapping_manager Instances.processor7))
  = ["7"]
  ∧ dict_get (db_files Instances.processor7) "chunks/chunk_7.json" = None
  ∧ delete_document Example.searcher Example.searcher_remove Lease.manager
      Example.acquire_lease Example.release_lease Instances.json_loads "docs" "a.pdf"
      Instances.processor7
    = (Instances.processor7, Raise ResourceNotFoundError)
  ∧ process_and_save_document Example.searcher Example.searcher_add Example.searcher_remove
      Lease.manager Example.acquire_lease Example.release_lease Instances.json_loads
      Instances.get_file_extension Instances.parse_by_page Instances.parse_full_text
      Instances.now_isoformat "docs" "a.pdf" Instances.processor7
    = (Instances.processor7, Raise ResourceNotFoundError).
Proof.
  split; [reflexivity|]. split; [reflexivity|].
  exact (document_with_a_lost_chunk_file_is_stuck Example.searcher_add Example.searcher_remove
           Example.acquire_lease Example.release_lease Instances.json_loads
           Instances.get_file_extension Instances.parse_by_page Instances.parse_full_text
           Instances.now_isoformat "docs" "a.pdf" "7" [] Instances.processor7
           eq_refl eq_refl).
Defined.

Lemma processor3_add_fails :
  ChunkMappingManager.add Example.searcher Instances.searcher_add_one Lease.manager
    Example.acquire_lease Example.release_lease "docs" "a.txt" ["t1"; "t2"]
    (mapping_manager Instances.processor3)
  = ((ChunkMappingManager.add Example.searcher Instances.searcher_add_one Lease.manager
        Example.acquire_lease Example.release_lease "docs" "a.txt" ["t1"; "t2"]
        (mapping_manager Instances.processor3)).1, Raise ValueError).
Proof. by vm_compute. Qed.

Lemma processor3_add_registers :
  ChunkBlobMapping.get_chunk_ids_by_blob "docs" "a.txt"
    (ChunkMappingManager.chunk_blob_mapping_manager _ _
       (ChunkMappingManager.add Example.searcher Instances.searcher_add_one Lease.manager
          Example.acquire_lease Example.release_lease "docs" "a.txt" ["t1"; "t2"]
          (mapping_manager Instances.processor3)).1) = ["0"].
Proof. by vm_compute. Qed.

Lemma failed_add_is_not_cleaned_up_witness :
  ∃ m,
    ChunkMappingManager.add Example.searcher Instances.searcher_add_one Lease.manager
      Example.acquire_lease Example.release_lease "docs" "a.txt" ["t1"; "t2"]
      (mapping_manager Instances.processor3)
    = (m, Raise ValueError)
    ∧ ChunkBlobMapping.get_chunk_ids_by_blob "docs" "a.txt"
        (ChunkMappingManager.chunk_blob_mapping_manager _ _ m) = ["0"]
    ∧ process_and_save_document Example.searcher Instances.searcher_add_one
        Example.searcher_remove Lease.manager Example.acquire_lease Example.release_lease
        Instances.json_loads Instances.get_file_extension Instances.parse_by_page
        Instances.parse_full_text Instances.now_isoformat "docs" "a.txt" Instances.processor3
      = (set_mapping_manager m Instances.processor3, Raise ResourceNotFoundError).
Proof.
  exists (ChunkMappingManager.add Example.searcher Instances.searcher_add_one Lease.manager
            Example.acquire_lease Example.release_lease "docs" "a.txt" ["t1"; "t2"]
            (mapping_manager Instances.processor3)).1.
  split; [exact processor3_add_fails|]. split; [exact processor3_add_registers|].
  exact (failed_add_is_not_cleaned_up Instances.searcher_add_one Example.searcher_remove
           Example.acquire_lease Example.release_lease Instances.json_loads
           Instances.get_file_extension Instances.parse_by_page Instances.parse_full_text
           Instances.now_isoformat "docs" "a.txt" "t1t2" [Page ["t1"; "t2"] 0] "t1t2" _
           ValueError "0" [] Instances.processor3 eq_refl eq_refl eq_refl eq_refl
           processor3_add_fails processor3_add_registers eq_refl).
Defined.

Lemma processor7_stored_reverse_ok :
  ChunkBlobMapping.reverse_ok
    (ChunkMappingManager.chunk_blob_mapping_manager _ _
       (mapping_manager Instances.processor7_stored)).
Proof.
  exact (init_reverse_ok (Json [("7", ChunkBlobMapping.BlobInfo "docs" "a.pdf")])).
Qed.

Lemma processor7_stored_reads id :
  id ∈ ChunkBlobMapping.get_chunk_ids_by_blob "docs" "a.pdf"
         (ChunkMappingManager.chunk_blob_mapping_manager _ _
            (mapping_manager Instances.processor7_stored)) →
  ∃ page, read_page_number Instances.json_loads (KeywordSearch.chunk_path id)
            Instances.processor7_stored = Ok page.
Proof. intros ->%list_elem_of_singleton. by eexists. Qed.

Lemma delete_document_removes_the_document_witness :
  NoDup (ChunkBlobMapping.mapping
           (ChunkMappingManager.chunk_blob_mapping_manager _ _
              (mapping_manager Instances.processor7_stored))).*1
  ∧ ∃ w', delete_document Example.searcher Example.searcher_remove Lease.manager
            Example.acquire_lease Example.release_lease Instances.json_loads "docs" "a.pdf"
            Instances.processor7_stored = (w', Ok ())
      ∧ ChunkBlobMapping.get_chunk_ids_by_blob "docs" "a.pdf"
          (ChunkMappingManager.chunk_blob_mapping_manager _ _ (mapping_manager w')) = []
      ∧ dict_get (db_files w') "chunks/chunk_7.json" = None
      ∧ dict_get (db_files w') "pages/a.pdf_1.txt" = None
      ∧ dict_get (db_files w') "texts/a.pdf.txt" = None.
Proof.
  assert (NoDup ["7"]) as Hnd by apply NoDup_singleton.
  split; [exact Hnd|].
  destruct (delete_document_removes_the_document Example.searcher_remove
              Example.acquire_lease Example.release_lease Instances.json_loads
              "docs" "a.pdf" Instances.processor7_stored example_leases_granted
              processor7_stored_reverse_ok Hnd processor7_stored_reads)
    as (w' & Hdel & Hids & Hgone & Hpage & Htext & _).
  exists w'. split; [exact Hdel|]. split; [exact Hids|].
  split; [exact (proj2 (Hgone "7" ltac:(apply elem_of_cons; by left)))|].
  split; [|exact Htext].
  exact (Hpage "7" 1%Z ltac:(apply elem_of_cons; by left) eq_refl ltac:(discriminate)).
Defined.

Lemma processor2_new_ids id :
  id ∈ pretty <$> seqZ (ChunkIndexMapping.persisted_counter
                          (ChunkMappingManager.index_file _ _
                             (mapping_manager Instances.processor2)))
                  (Z.of_nat (length (all_chunks_of [Page ["t1"; "t2"] 0]))) →
  ChunkBlobMapping.get_blob_info id
    (ChunkMappingManager.chunk_blob_mapping_manager _ _
       (mapping_manager Instances.processor2)) = None.
Proof. done. Qed.

Lemma processor2_reverse_ok :
  ChunkBlobMapping.reverse_ok
    (ChunkMappingManager.chunk_blob_mapping_manager _ _
       (mapping_manager Instances.processor2)).
Proof. exact (init_reverse_ok NotFound). Qed.

Lemma process_stores_every_chunk_witness :
  ∃ w', process_and_save_document Example.searcher Example.searcher_add
          Example.searcher_remove Lease.manager Example.acquire_lease Example.release_lease
          Instances.json_loads Instances.get_file_extension Instances.parse_by_page
          Instances.parse_full_text Instances.now_isoformat "docs" "a.txt"
          Instances.processor2 = (w', Ok ())
    ∧ dict_get (db_files w') "chunks/chunk_0.json"
      = Some (Chunk (ChunkJson "t1" "a.txt" (Some 0%Z) "2024-01-01T00:00:00"))
    ∧ dict_get (db_files w') "chunks/chunk_1.json"
      = Some (Chunk (ChunkJson "t2" "a.txt" (Some 0%Z) "2024-01-01T00:00:00"))
    ∧ dict_get (db_files w') "texts/a.txt.txt" = Some (Bytes "t1t2")
    ∧ dict_get (chunk_ids_metadata w') "docs/a.txt" = Some ["0"; "1"].
Proof.
  destruct (process_stores_every_chunk Example.searcher_add Example.searcher_remove
              Example.acquire_lease Example.release_lease Instances.json_loads
              Instances.get_file_extension Instances.parse_by_page Instances.parse_full_text
              Instances.now_isoformat "docs" "a.txt" "t1t2" [Page ["t1"; "t2"] 0] "t1t2"
              Instances.processor2 example_leases_granted example_searchers_accept
              eq_refl eq_refl eq_refl eq_refl)
    as (w' & Hp & Hchunks & _ & Htext & Hmeta).
  exists w'. split; [exact Hp|].
  split; [exact (Hchunks 0 "t1" 0%Z eq_refl)|].
  split; [exact (Hchunks 1 "t2" 0%Z eq_refl)|].
  split; [exact Htext|exact Hmeta].
Defined.

Lemma delete_document_undoes_process_witness :
  NoDup (ChunkBlobMapping.mapping
           (ChunkMappingManager.chunk_blob_mapping_manager _ _
              (mapping_manager Instances.processor2))).*1
  ∧ ∃ w1 w2,
      process_and_save_document Example.searcher Example.searcher_add
        Example.searcher_remove Lease.manager Example.acquire_lease Example.release_lease
        Instances.json_loads Instances.get_file_extension Instances.parse_by_page
        Instances.parse_full_text Instances.now_isoformat "docs" "a.txt"
        Instances.processor2 = (w1, Ok ())
      ∧ ChunkBlobMapping.get_chunk_ids_by_blob "docs" "a.txt"
          (ChunkMappingManager.chunk_blob_mapping_manager _ _ (mapping_manager w1))
        = ["0"; "1"]
      ∧ delete_document Example.searcher Example.searcher_remove Lease.manager
          Example.acquire_lease Example.release_lease Instances.json_loads "docs" "a.txt" w1
        = (w2, Ok ())
      ∧ ChunkBlobMapping.mapping
          (ChunkMappingManager.chunk_blob_mapping_manager _ _ (mapping_manager w2)) = []
      ∧ dict_get (db_files w2) "chunks/chunk_0.json" = None
      ∧ dict_get (db_files w2) "texts/a.txt.txt" = None
      ∧ (∃ data, dict_get (db_files w2) "pages/a.txt_0.txt" = Some (Bytes data))
      ∧ dict_get (chunk_ids_metadata w2) "docs/a.txt" = Some ["0"; "1"].
Proof.
  split; [apply NoDup_nil_2|].
  destruct (delete_document_undoes_process Example.searcher_add Example.searcher_remove
              Example.acquire_lease Example.release_lease Instances.json_loads
              Instances.get_file_extension Instances.parse_by_page Instances.parse_full_text
              Instances.now_isoformat "docs" "a.txt" "t1t2" [Page ["t1"; "t2"] 0] "t1t2"
              Instances.processor2 example_leases_granted example_searchers_accept
              processor2_reverse_ok (NoDup_nil_2 (A:=string)) eq_refl eq_refl eq_refl eq_refl
              processor2_new_ids)
    as (w1 & w2 & Hp & Hids & Hdel & _ & Hmap & Hgone & Htext & _ & Hzero & Hmeta).
  exists w1, w2. split; [exact Hp|]. split; [exact Hids|]. split; [exact Hdel|].
  split; [exact Hmap|].
  split; [exact (Hgone "0" ltac:(apply elem_of_cons; by left))|].
  split; [exact Htext|].
  split; [exact (Hzero (Page ["t1"; "t2"] 0) ltac:(apply elem_of_cons; by left) eq_refl)|].
  exact Hmeta.
Defined.

Lemma processor7_stored_new_ids id :
  id ∈ pretty <$> seqZ (ChunkIndexMapping.persisted_counter
                          (ChunkMappingManager.index_file _ _
                             (mapping_manager Instances.processor7_stored)))
                  (Z.of_nat (length (all_chunks_of [Page ["t1"; "t2"] 0]))) →
  ChunkBlobMapping.get_blob_info id
    (ChunkMappingManager.chunk_blob_mapping_manager _ _
       (mapping_manager Instances.processor7_stored)) = None.
Proof.
  intros [->|[->|?%elem_of_nil]%elem_of_cons]%elem_of_cons; done.
Qed.

Lemma reprocessing_replaces_the_chunks_witness :
  NoDup (ChunkBlobMapping.mapping
           (ChunkMappingManager.chunk_blob_mapping_manager _ _
              (mapping_manager Instances.processor7_stored))).*1
  ∧ ChunkBlobMapping.get_chunk_ids_by_blob "docs" "a.pdf"
      (ChunkMappingManager.chunk_blob_mapping_manager _ _
         (mapping_manager Instances.processor7_stored)) = ["7"]
  ∧ ∃ w', process_and_save_document Example.searcher Example.searcher_add
            Example.searcher_remove Lease.manager Example.acquire_lease Example.release_lease
            Instances.json_loads Instances.get_file_extension Instances.parse_by_page
            Instances.parse_full_text Instances.now_isoformat "docs" "a.pdf"
            Instances.processor7_stored = (w', Ok ())
      ∧ ChunkBlobMapping.get_chunk_ids_by_blob "docs" "a.pdf"
          (ChunkMappingManager.chunk_blob_mapping_manager _ _ (mapping_manager w'))
        = ["8"; "9"]
      ∧ dict_get (db_files w') "chunks/chunk_8.json"
        = Some (Chunk (ChunkJson "t1" "a.pdf" (Some 0%Z) "2024-01-01T00:00:00"))
      ∧ dict_get (db_files w') "chunks/chunk_7.json" = None
      ∧ ChunkBlobMapping.get_blob_info "7"
          (ChunkMappingManager.chunk_blob_mapping_manager _ _ (mapping_manager w')) = None
      ∧ dict_get (db_files w') "texts/a.pdf.txt" = Some (Bytes "t1t2")
      ∧ dict_get (chunk_ids_metadata w') "docs/a.pdf" = Some ["8"; "9"].
Proof.
  assert (NoDup ["7"]) as Hnd by apply NoDup_singleton.
  split; [exact Hnd|]. split; [reflexivity|].
  destruct (reprocessing_replaces_the_chunks Example.searcher_add Example.searcher_remove
              Example.acquire_lease Example.release_lease Instances.json_loads
              Instances.get_file_extension Instances.parse_by_page Instances.parse_full_text
              Instances.now_isoformat "docs" "a.pdf" "t1t2" [Page ["t1"; "t2"] 0] "t1t2"
              Instances.processor7_stored example_leases_granted example_searchers_accept
              processor7_stored_reverse_ok Hnd processor7_stored_reads eq_refl eq_refl eq_refl
              processor7_stored_new_ids)
    as (w' & Hp & Hids & Hchunks & Hold & Htext & Hmeta).
  exists w'. split; [exact Hp|]. split; [exact Hids|].
  split; [exact (Hchunks 0 "t1" 0%Z eq_refl)|].
  split; [exact (proj2 (Hold "7" ltac:(apply elem_of_cons; by left)))|].
  split; [exact (proj1 (Hold "7" ltac:(apply elem_of_cons; by left)))|].
  split; [exact Htext|exact Hmeta].
Defined.

End ProcessorFacts.
